(** * notion-helper: a shallow embedding of [notion_helper/__init__.py] and
    [notion_helper/orm.py], and the properties of its codec, its record
    layer, its block renderer and its generators.

    Python values are embedded in one type [value]; a raised exception is
    the [Raise] outcome of [result].  Strings are sequences of ASCII
    characters, numbers are integers (floats are not represented). *)

From Stdlib Require Import ZArith List String Ascii Bool Lia Sorted.
Import ListNotations.
Open Scope string_scope.
Open Scope Z_scope.

(** ** Exceptions and outcomes *)

Inductive exn :=
| KeyError (key : string)
| TypeError
| ValueError (msg : string)
| IndexError
| AttributeError
| NameError (name : string)
| OverflowError
| AssertionError
| IntegrityError (msg : string)
| PlainException (msg : string)
| APIResponseError (msg : string)
| RecursionError
| Unmodelled.

Inductive result (A : Type) :=
| Ok (a : A)
| Raise (e : exn).
Arguments Ok {A} a.
Arguments Raise {A} e.

Definition rbind {A B} (r : result A) (f : A -> result B) : result B :=
  match r with
  | Ok a => f a
  | Raise e => Raise e
  end.

Declare Scope res_scope.
Delimit Scope res_scope with res.
Notation "x <- c ;; k" := (rbind c (fun x => k))
  (at level 61, c at next level, right associativity) : res_scope.
Notation "' pat <- c ;; k" := (rbind c (fun x => match x with pat => k end))
  (at level 61, pat pattern, c at next level, right associativity) : res_scope.
Open Scope res_scope.

Fixpoint rmap {A B} (f : A -> result B) (l : list A) : result (list B) :=
  match l with
  | [] => Ok []
  | a :: l' => b <- f a ;; bs <- rmap f l' ;; Ok (b :: bs)
  end.

(** ** Python values *)

(** A dict key is a string or [None] (the key [Property.format] is [None]
    for the base, raw and read-only descriptors). *)
Inductive pykey :=
| KNone
| KStr (s : string).
Coercion KStr : string >-> pykey.

Definition key_eqb (a b : pykey) : bool :=
  match a, b with
  | KNone, KNone => true
  | KStr s, KStr t => String.eqb s t
  | _, _ => false
  end.

(** [datetime.date] and [datetime.datetime]; [utcoffset] is in
    microseconds, [None] for a naive datetime.  [zoned] tells whether the
    [tzinfo] the datetime carries is the module's [local_timezone] object
    (a [ZoneInfo], one object per key): Python compares two datetimes that
    carry one and the same [tzinfo] object by their wall-clock fields. *)
Record date := mkdate { year : Z; month : Z; day : Z }.

Record datetime := mkdatetime {
  dt_date : date;
  hour : Z;
  minute : Z;
  second : Z;
  microsecond : Z;
  utcoffset : option Z;
  zoned : bool
}.

#[warnings="-register-all"]
Inductive value :=
| VNone
| VBool (b : bool)
| VInt (n : Z)
| VStr (s : string)
| VList (l : list value)
| VDict (d : list (pykey * value))
| VDate (d : date)
| VDateTime (t : datetime).

Definition dict := list (pykey * value).

(** Truth value of an object in a condition. *)
Definition truthy (v : value) : bool :=
  match v with
  | VNone => false
  | VBool b => b
  | VInt n => negb (n =? 0)
  | VStr s => negb (String.eqb s "")
  | VList l => match l with [] => false | _ => true end
  | VDict d => match d with [] => false | _ => true end
  | VDate _ => true
  | VDateTime _ => true
  end.

Definition is_none (v : value) : bool :=
  match v with VNone => true | _ => false end.

Fixpoint dict_get (d : dict) (k : pykey) : option value :=
  match d with
  | [] => None
  | (k', v) :: d' => if key_eqb k k' then Some v else dict_get d' k
  end.

(** [d[k] = v] on a dict: replaces the value of an existing key in place,
    appends a new key. *)
Fixpoint dict_set (d : dict) (k : pykey) (v : value) : dict :=
  match d with
  | [] => [(k, v)]
  | (k', v') :: d' =>
      if key_eqb k k' then (k', v) :: d' else (k', v') :: dict_set d' k v
  end.

Definition dict_has (d : dict) (k : pykey) : bool :=
  match dict_get d k with Some _ => true | None => false end.

(** [sub in s] on strings. *)
Fixpoint is_substring (sub s : string) : bool :=
  if String.prefix sub s then true
  else match s with
       | EmptyString => false
       | String _ s' => is_substring sub s'
       end.

(** [k in data] for a string [k]. *)
Definition py_in (k : string) (data : value) : result bool :=
  match data with
  | VDict d => Ok (dict_has d k)
  | VList l =>
      Ok (existsb (fun x => match x with VStr s => String.eqb k s | _ => false end) l)
  | VStr s => Ok (is_substring k s)
  | _ => Raise TypeError
  end.

(** [data[k]] for a string [k]. *)
Definition getitem (data : value) (k : string) : result value :=
  match data with
  | VDict d => match dict_get d k with
               | Some v => Ok v
               | None => Raise (KeyError k)
               end
  | _ => Raise TypeError
  end.

(** [data.get(k)]. *)
Definition dict_get_method (data : value) (k : string) : result value :=
  match data with
  | VDict d => match dict_get d k with
               | Some v => Ok v
               | None => Ok VNone
               end
  | _ => Raise AttributeError
  end.

Definition key_value (k : pykey) : value :=
  match k with KNone => VNone | KStr s => VStr s end.

(** The sequence a [for] loop or a comprehension runs over. *)
Definition py_iter (v : value) : result (list value) :=
  match v with
  | VList l => Ok l
  | VDict d => Ok (map (fun kv => key_value (fst kv)) d)
  | VStr s => Ok (map (fun c => VStr (String c "")) (list_ascii_of_string s))
  | _ => Raise TypeError
  end.

(** [s + v] where [s] is a string. *)
Definition str_add (s : string) (v : value) : result string :=
  match v with
  | VStr t => Ok (s ++ t)
  | _ => Raise TypeError
  end.

(** ** Decimal text *)

Definition digit_char (n : Z) : ascii := ascii_of_N (Z.to_N (48 + n)).

Definition in_range (lo hi c : ascii) : bool :=
  ((N_of_ascii lo <=? N_of_ascii c) && (N_of_ascii c <=? N_of_ascii hi))%N.

Definition is_digit (c : ascii) : bool := in_range "0" "9" c.

Definition digit_val (c : ascii) : Z := Z.of_N (N_of_ascii c) - 48.

Fixpoint dec_fuel (fuel : nat) (n : Z) : string :=
  match fuel with
  | O => ""
  | S f =>
      if n <? 10 then String (digit_char n) ""
      else dec_fuel f (n / 10) ++ String (digit_char (n mod 10)) ""
  end.

(** Decimal text of a natural number, no padding. *)
Definition dec (n : Z) : string := dec_fuel (S (Z.to_nat (Z.log2 n))) n.

(** Two decimal digits, as [%m], [%d], [%H], [%M] and [%S] print. *)
Definition pad2 (n : Z) : string :=
  String (digit_char (n / 10)) (String (digit_char (n mod 10)) "").

(** [str(n)] for an integer. *)
Definition int_str (n : Z) : string :=
  if n <? 0 then "-" ++ dec (- n) else dec n.

Fixpoint digits_val (acc : Z) (s : string) : option Z :=
  match s with
  | EmptyString => Some acc
  | String c s' =>
      if is_digit c then digits_val (10 * acc + digit_val c) s' else None
  end.

Fixpoint skip_spaces (s : string) : string :=
  match s with
  | String " " s' => skip_spaces s'
  | _ => s
  end.

(** [int(s)] on the texts the time parser hands to it: optional leading
    blanks, then one or more decimal digits; anything else is a
    [ValueError], here [None]. *)
Definition py_int (s : string) : option Z :=
  match skip_spaces s with
  | EmptyString => None
  | t => digits_val 0 t
  end.

Fixpoint str_drop (n : nat) (s : string) : string :=
  match n, s with
  | O, _ => s
  | S n', String _ s' => str_drop n' s'
  | S _, EmptyString => EmptyString
  end.

Fixpoint zeros (n : nat) : string :=
  match n with
  | O => ""
  | S n' => String "0" (zeros n')
  end.

(** ** The regular expressions of [time.strptime]

    [_strptime] compiles a format into a regular expression, matches it as a
    prefix with backtracking in priority order, and then requires the match
    to cover the whole text. *)

Inductive regex :=
| Eps
| Chr (p : ascii -> bool)
| Cat (a b : regex)
| Alt (a b : regex)
| Grp (name : string) (a : regex).

Definition groups := list (string * string).

Fixpoint group_get (g : groups) (n : string) : option string :=
  match g with
  | [] => None
  | (n', t) :: g' => if String.eqb n n' then Some t else group_get g' n
  end.

Definition consumed (s rest : string) : string :=
  substring 0 (String.length s - String.length rest) s.

Fixpoint rmatch (r : regex) (s : string) (g : groups)
    (k : string -> groups -> option (string * groups)) : option (string * groups) :=
  match r with
  | Eps => k s g
  | Chr p =>
      match s with
      | String c s' => if p c then k s' g else None
      | EmptyString => None
      end
  | Cat a b => rmatch a s g (fun s' g' => rmatch b s' g' k)
  | Alt a b =>
      match rmatch a s g k with
      | Some x => Some x
      | None => rmatch b s g k
      end
  | Grp n a => rmatch a s g (fun s' g' => k s' ((n, consumed s s') :: g'))
  end.

Definition Opt (r : regex) : regex := Alt r Eps.
Definition rng (lo hi : ascii) : regex := Chr (in_range lo hi).
Definition ch (c : ascii) : regex := Chr (Ascii.eqb c).
Definition digit : regex := Chr is_digit.
Definition sign : regex := Chr (fun c => Ascii.eqb c "+" || Ascii.eqb c "-").
(** The literal [T] of the format, matched ignoring case. *)
Definition lit_T : regex := Chr (fun c => Ascii.eqb c "T" || Ascii.eqb c "t").
(** [[0-9]{1,6}], greedy. *)
Definition digits_1_6 : regex :=
  Cat digit (Opt (Cat digit (Opt (Cat digit (Opt (Cat digit
    (Opt (Cat digit (Opt digit))))))))).

Definition re_Y : regex := Grp "Y" (Cat digit (Cat digit (Cat digit digit))).
Definition re_m : regex :=
  Grp "m" (Alt (Cat (ch "1") (rng "0" "2"))
          (Alt (Cat (ch "0") (rng "1" "9")) (rng "1" "9"))).
Definition re_d : regex :=
  Grp "d" (Alt (Cat (ch "3") (rng "0" "1"))
          (Alt (Cat (rng "1" "2") digit)
          (Alt (Cat (ch "0") (rng "1" "9"))
          (Alt (rng "1" "9") (Cat (ch " ") (rng "1" "9")))))).
Definition re_H : regex :=
  Grp "H" (Alt (Cat (ch "2") (rng "0" "3"))
          (Alt (Cat (rng "0" "1") digit) digit)).
Definition re_M : regex := Grp "M" (Alt (Cat (rng "0" "5") digit) digit).
Definition re_S : regex :=
  Grp "S" (Alt (Cat (ch "6") (rng "0" "1"))
          (Alt (Cat (rng "0" "5") digit) digit)).
Definition re_f : regex := Grp "f" digits_1_6.
Definition re_z : regex :=
  Grp "z"
    (Alt (Cat sign (Cat digit (Cat digit (Cat (Opt (ch ":"))
            (Cat (rng "0" "5") (Cat digit
              (Opt (Cat (Opt (ch ":")) (Cat (rng "0" "5") (Cat digit
                     (Opt (Cat (ch ".") digits_1_6))))))))))))
         (ch "Z")).

(** ['%Y-%m-%d'] *)
Definition re_date : regex :=
  Cat re_Y (Cat (ch "-") (Cat re_m (Cat (ch "-") re_d))).

(** ['%Y-%m-%dT%H:%M:%S.%f%z'] *)
Definition re_datetime : regex :=
  Cat re_date (Cat lit_T (Cat re_H (Cat (ch ":") (Cat re_M (Cat (ch ":")
    (Cat re_S (Cat (ch ".") (Cat re_f re_z)))))))).

(** The groups of a match that covers the whole text. *)
Definition full_match (r : regex) (s : string) : option groups :=
  match rmatch r s [] (fun s' g => Some (s', g)) with
  | Some (EmptyString, g) => Some g
  | _ => None
  end.

(** ** The proleptic Gregorian calendar of [datetime] *)

Definition MINYEAR : Z := 1.
Definition MAXYEAR : Z := 9999.

Definition is_leap (y : Z) : bool :=
  (y mod 4 =? 0) && (negb (y mod 100 =? 0) || (y mod 400 =? 0)).

Definition DAYS_IN_MONTH (m : Z) : Z :=
  match m with
  | 1 => 31 | 2 => 28 | 3 => 31 | 4 => 30 | 5 => 31 | 6 => 30
  | 7 => 31 | 8 => 31 | 9 => 30 | 10 => 31 | 11 => 30 | 12 => 31
  | _ => -1
  end.

Definition DAYS_BEFORE_MONTH (m : Z) : Z :=
  match m with
  | 1 => 0 | 2 => 31 | 3 => 59 | 4 => 90 | 5 => 120 | 6 => 151
  | 7 => 181 | 8 => 212 | 9 => 243 | 10 => 273 | 11 => 304 | 12 => 334
  | _ => -1
  end.

Definition days_before_year (y : Z) : Z :=
  let y1 := y - 1 in y1 * 365 + y1 / 4 - y1 / 100 + y1 / 400.

Definition days_in_month (y m : Z) : Z :=
  if (m =? 2) && is_leap y then 29 else DAYS_IN_MONTH m.

Definition days_before_month (y m : Z) : Z :=
  DAYS_BEFORE_MONTH m + (if (2 <? m) && is_leap y then 1 else 0).

Definition ymd2ord (d : date) : Z :=
  days_before_year (year d) + days_before_month (year d) (month d) + day d.

Definition DI400Y : Z := 146097.
Definition DI100Y : Z := 36524.
Definition DI4Y : Z := 1461.

Definition ord2ymd (ordinal : Z) : date :=
  let n := ordinal - 1 in
  let n400 := n / DI400Y in
  let n := n mod DI400Y in
  let n100 := n / DI100Y in
  let n := n mod DI100Y in
  let n4 := n / DI4Y in
  let n := n mod DI4Y in
  let n1 := n / 365 in
  let n := n mod 365 in
  let y := n400 * 400 + 1 + n100 * 100 + n4 * 4 + n1 in
  if (n1 =? 4) || (n100 =? 4) then mkdate (y - 1) 12 31
  else
    let leapyear := (n1 =? 3) && (negb (n4 =? 24) || (n100 =? 3)) in
    let m := Z.shiftr (n + 50) 5 in
    let preceding := DAYS_BEFORE_MONTH m + (if (2 <? m) && leapyear then 1 else 0) in
    if n <? preceding then
      let m' := m - 1 in
      let preceding' :=
        preceding - (DAYS_IN_MONTH m' + (if (m' =? 2) && leapyear then 1 else 0)) in
      mkdate y m' (n - preceding' + 1)
    else mkdate y m (n - preceding + 1).

(** The check of the [date] constructor. *)
Definition valid_date (d : date) : bool :=
  (MINYEAR <=? year d) && (year d <=? MAXYEAR) &&
  (1 <=? month d) && (month d <=? 12) &&
  (1 <=? day d) && (day d <=? days_in_month (year d) (month d)).

Definition US_PER_SECOND : Z := 1000000.
Definition US_PER_DAY : Z := 86400 * US_PER_SECOND.
Definition MAX_OFFSET_US : Z := US_PER_DAY - 1.

(** Microseconds from 0001-01-01T00:00:00 to the wall-clock time of [t]. *)
Definition wall_us (t : datetime) : Z :=
  (ymd2ord (dt_date t) - 1) * US_PER_DAY
  + ((hour t * 60 + minute t) * 60 + second t) * US_PER_SECOND + microsecond t.

Definition MAX_US : Z := 3652059 * US_PER_DAY - 1.

Definition in_datetime_range (us : Z) : bool := (0 <=? us) && (us <=? MAX_US).

(** The datetime of the module's zone whose wall-clock time is [us], with
    the given offset: what [local_timezone.fromutc] builds. *)
Definition of_wall_us (us : Z) (off : option Z) : datetime :=
  let days := us / US_PER_DAY in
  let rest := us mod US_PER_DAY in
  let secs := rest / US_PER_SECOND in
  mkdatetime (ord2ymd (days + 1)) (secs / 3600) ((secs / 60) mod 60) (secs mod 60)
             (rest mod US_PER_SECOND) off true.

(** ** [datetime.strptime] for the two formats of the codec *)

(** The value of the [%f] group: right-padded with zeros to six digits. *)
Definition fraction_us (f : string) : option Z :=
  py_int (f ++ zeros (6 - String.length f)).

(** The value of the [%z] group, in microseconds. *)
Definition gmtoff_us (z0 : string) : option Z :=
  if String.eqb z0 "Z" then Some 0
  else
    let colon3 := match get 3 z0 with Some ":"%char => true | _ => false end in
    let z1 := if colon3 then substring 0 3 z0 ++ str_drop 4 z0 else z0 in
    let inconsistent :=
      colon3 && (5 <? String.length z1)%nat &&
      match get 5 z1 with Some ":"%char => false | _ => true end in
    if inconsistent then None
    else
      let z := if colon3 && (5 <? String.length z1)%nat
               then substring 0 5 z1 ++ str_drop 6 z1 else z1 in
      match py_int (substring 1 2 z), py_int (substring 3 2 z) with
      | Some hours, Some minutes =>
          let sec_text := substring 5 2 z in
          match (if String.eqb sec_text "" then Some 0 else py_int sec_text) with
          | Some seconds =>
              let remainder := str_drop 8 z in
              match py_int (remainder ++ zeros (6 - String.length remainder)) with
              | Some fraction =>
                  let us := (hours * 3600 + minutes * 60 + seconds) * US_PER_SECOND
                            + fraction in
                  Some (if String.prefix "-" z then - us else us)
              | None => None
              end
          | None => None
          end
      | _, _ => None
      end.

Definition group_int (g : groups) (n : string) : option Z :=
  match group_get g n with
  | Some t => py_int t
  | None => None
  end.

Definition date_of_groups (g : groups) : option date :=
  match group_int g "Y", group_int g "m", group_int g "d" with
  | Some y, Some m, Some d =>
      let dt := mkdate y m d in
      if valid_date dt then Some dt else None
  | _, _, _ => None
  end.

(** [datetime.strptime(s, '%Y-%m-%d').date()]; [None] stands for the
    [ValueError] of a text that does not parse. *)
Definition strptime_date (s : string) : option date :=
  match full_match re_date s with
  | Some g => date_of_groups g
  | None => None
  end.

(** [datetime.strptime(s, '%Y-%m-%dT%H:%M:%S.%f%z')]; the [tzinfo] of
    the result is a fixed-offset [timezone] built for it. *)
Definition strptime_datetime (s : string) : option datetime :=
  match full_match re_datetime s with
  | Some g =>
      match date_of_groups g, group_int g "H", group_int g "M", group_int g "S" with
      | Some d, Some h, Some mi, Some sec =>
          match group_get g "f", group_get g "z" with
          | Some f, Some z =>
              match fraction_us f, gmtoff_us z with
              | Some us, Some off =>
                  if (sec <=? 59) && (- MAX_OFFSET_US <=? off) && (off <=? MAX_OFFSET_US)
                  then Some (mkdatetime d h mi sec us (Some off) false)
                  else None
              | _, _ => None
              end
          | _, _ => None
          end
      | _, _, _, _ => None
      end
  | None => None
  end.

(** ** [strftime] for the two formats of [DateProperty] *)

(** [d.strftime('%Y-%m-%d')]; the year is printed without padding, as the
    C library does. *)
Definition strftime_date (d : date) : string :=
  dec (year d) ++ "-" ++ pad2 (month d) ++ "-" ++ pad2 (day d).

(** [%z]: empty for a naive datetime, else [+HHMM], with [SS] when the
    offset has seconds and [.ffffff] when it has microseconds. *)
Definition strftime_z (off : option Z) : string :=
  match off with
  | None => ""
  | Some o =>
      let a := Z.abs o in
      let us := a mod US_PER_SECOND in
      let secs := a / US_PER_SECOND in
      let h := secs / 3600 in
      let m := (secs / 60) mod 60 in
      let s := secs mod 60 in
      (if o <? 0 then "-" else "+") ++ pad2 h ++ pad2 m ++
      (if us =? 0 then (if s =? 0 then "" else pad2 s)
       else pad2 s ++ "." ++ pad2 (us / 10000) ++ pad2 ((us / 100) mod 100)
                   ++ pad2 (us mod 100))
  end.

(** [t.strftime('%Y-%m-%dT%H:%M:%S.000%z')]. *)
Definition strftime_datetime (t : datetime) : string :=
  strftime_date (dt_date t) ++ "T" ++ pad2 (hour t) ++ ":" ++ pad2 (minute t)
    ++ ":" ++ pad2 (second t) ++ ".000" ++ strftime_z (utcoffset t).

(** ** Comparison of dates and datetimes *)

Definition utc_us (t : datetime) : option Z :=
  match utcoffset t with
  | Some off => Some (wall_us t - off)
  | None => None
  end.

(** [a <= b] where [a] is a date or a datetime.  Two datetimes that carry
    the same [tzinfo] object are compared by their wall-clock fields,
    whatever their offsets; otherwise two aware datetimes are compared by
    their instants.  A date is not comparable with a datetime, nor a naive
    datetime with an aware one. *)
Definition py_le (a b : value) : result bool :=
  match a, b with
  | VDateTime x, VDateTime y =>
      if zoned x && zoned y then Ok (wall_us x <=? wall_us y)
      else
        match utcoffset x, utcoffset y with
        | Some ox, Some oy => Ok (wall_us x - ox <=? wall_us y - oy)
        | None, None => Ok (wall_us x <=? wall_us y)
        | _, _ => Raise TypeError
        end
  | VDate x, VDate y => Ok (ymd2ord x <=? ymd2ord y)
  | _, _ => Raise TypeError
  end.


(** [str(v)], as an f-string formats a value; containers and dates are
    outside the embedding. *)
Definition py_str (v : value) : result string :=
  match v with
  | VNone => Ok "None"
  | VBool true => Ok "True"
  | VBool false => Ok "False"
  | VInt n => Ok (int_str n)
  | VStr s => Ok s
  | _ => Raise Unmodelled
  end.

(** [try: body except ValueError: handler]. *)
Definition except_ValueError {A} (body handler : result A) : result A :=
  match body with
  | Raise (ValueError _) => handler
  | r => r
  end.

Definition of_option {A} (o : option A) (e : exn) : result A :=
  match o with
  | Some a => Ok a
  | None => Raise e
  end.

Notation "'IF' k 'IN' data 'THEN' a 'ELSE' b" :=
  (rbind (py_in k data) (fun c : bool => if c then a else b))
  (at level 10, k at level 9, data at level 9, a at level 200, b at level 200,
   format "'[v' 'IF'  k  'IN'  data  'THEN' '/  ' a '/' 'ELSE'  b ']'").

Fixpoint depth (v : value) : nat :=
  match v with
  | VList l => S (fold_right (fun x n => Nat.max (depth x) n) O l)
  | VDict d => S (fold_right (fun kv n => Nat.max (depth (snd kv)) n) O d)
  | _ => O
  end.

Definition nl : string := String (ascii_of_nat 10) "".
Definition dquote : string := String (ascii_of_nat 34) "".
Definition tab : string := String (ascii_of_nat 9) "".

(** [sep.join(l)]. *)
Fixpoint join (sep : string) (l : list string) : string :=
  match l with
  | [] => ""
  | [x] => x
  | x :: rest => x ++ sep ++ join sep rest
  end.

Definition str_is (v : value) (s : string) : bool :=
  match v with VStr t => String.eqb t s | _ => false end.

Section NotionHelper.

(** [local_timezone]: the UTC offset, in microseconds, that the configured
    zone ([TZ], default Asia/Shanghai) has at a UTC instant. *)
Variable local_utcoffset : Z -> Z.

(** The module switch [enable_link] ([True] in the source). *)
Variable enable_link : bool.

(** [t.astimezone(local_timezone)] for an aware [t] that [strptime]
    built, whose [tzinfo] is a fixed offset and not the zone: the datetime
    of the zone at the instant of [t]. *)
Definition astimezone (t : datetime) : result datetime :=
  match utcoffset t with
  | Some off =>
      let utc := wall_us t - off in
      if in_datetime_range utc then
        let o := local_utcoffset utc in
        if in_datetime_range (utc + o) then Ok (of_wall_us (utc + o) (Some o))
        else Raise OverflowError
      else Raise OverflowError
  | None => Raise Unmodelled
  end.

(** ** [notion_helper/__init__.py] *)

Definition _str_to_datetime (str : value) : result value :=
  match str with
  | VStr s =>
      except_ValueError
        (t <- of_option (strptime_datetime s) (ValueError "strptime") ;;
         t' <- astimezone t ;;
         Ok (VDateTime t'))
        (except_ValueError
           (d <- of_option (strptime_date s) (ValueError "strptime") ;;
            Ok (VDate d))
           (Raise (ValueError "Invalid date or datetime format")))
  | _ => Raise TypeError
  end.

(** The text of a list of rich-text chunks: [for chunk in l: out +=
    chunk['plain_text']]. *)
Fixpoint plain_text_of (out : string) (chunks : list value) : result string :=
  match chunks with
  | [] => Ok out
  | chunk :: rest =>
      t <- getitem chunk "plain_text" ;;
      out' <- str_add out t ;;
      plain_text_of out' rest
  end.

Fixpoint rich_text_of (out : string) (chunks : list value) : result string :=
  match chunks with
  | [] => Ok out
  | chunk :: rest =>
      url <- dict_get_method chunk "href" ;;
      out' <- (if truthy url && enable_link then
                 t <- getitem chunk "plain_text" ;;
                 ts <- py_str t ;;
                 us <- py_str url ;;
                 Ok (out ++ "[" ++ ts ++ "](" ++ us ++ ")")
               else
                 t <- getitem chunk "plain_text" ;;
                 str_add out t) ;;
      rich_text_of out' rest
  end.

(** The [file] and [external] branches: [{'name': ..., 'url': ...}]. *)
Definition attachment (data : value) (k : string) : result value :=
  name <- dict_get_method data "name" ;;
  let output := if truthy name then [(KStr "name", name)] else [] in
  file <- getitem data k ;;
  url <- getitem file "url" ;;
  Ok (VDict (dict_set output "url" url)).

Fixpoint convert_rec (fuel : nat) (data : value) : result value :=
  match fuel with
  | O => Raise RecursionError
  | S fuel' =>
  IF "checkbox" IN data THEN getitem data "checkbox" ELSE
  IF "created_time" IN data THEN
    (t <- getitem data "created_time" ;; _str_to_datetime t) ELSE
  IF "date" IN data THEN
    (date <- getitem data "date" ;;
     if truthy date then
       s <- getitem date "start" ;;
       d0 <- _str_to_datetime s ;;
       e <- getitem date "end" ;;
       if truthy e then d1 <- _str_to_datetime e ;; Ok (VList [d0; d1])
       else Ok (VList [d0])
     else Ok VNone) ELSE
  IF "email" IN data THEN getitem data "email" ELSE
  IF "files" IN data THEN
    (files <- getitem data "files" ;;
     l <- py_iter files ;;
     out <- rmap (convert_rec fuel') l ;;
     Ok (VList out)) ELSE
  IF "file" IN data THEN attachment data "file" ELSE
  IF "external" IN data THEN attachment data "external" ELSE
  IF "formula" IN data THEN
    (formula <- getitem data "formula" ;; convert_rec fuel' formula) ELSE
  IF "last_edited_time" IN data THEN
    (t <- getitem data "last_edited_time" ;; _str_to_datetime t) ELSE
  IF "multi_select" IN data THEN
    (ms <- getitem data "multi_select" ;;
     l <- py_iter ms ;;
     out <- rmap (fun select => getitem select "name") l ;;
     Ok (VList out)) ELSE
  IF "number" IN data THEN getitem data "number" ELSE
  IF "phone_number" IN data THEN getitem data "phone_number" ELSE
  IF "relation" IN data THEN
    (relations <- getitem data "relation" ;;
     l <- py_iter relations ;;
     out <- rmap (fun relation => getitem relation "id") l ;;
     Ok (VList out)) ELSE
  IF "rollup" IN data THEN
    (rollup <- getitem data "rollup" ;; convert_rec fuel' rollup) ELSE
  IF "rich_text" IN data THEN
    (rt <- getitem data "rich_text" ;;
     l <- py_iter rt ;;
     out <- rich_text_of "" l ;;
     Ok (VStr out)) ELSE
  IF "select" IN data THEN
    (select <- getitem data "select" ;;
     if truthy select then getitem select "name" else Ok VNone) ELSE
  IF "status" IN data THEN
    (status <- getitem data "status" ;;
     if truthy status then getitem status "name" else Ok VNone) ELSE
  IF "title" IN data THEN
    (t <- getitem data "title" ;;
     l <- py_iter t ;;
     out <- plain_text_of "" l ;;
     Ok (VStr out)) ELSE
  IF "url" IN data THEN getitem data "url" ELSE
  IF "unique_id" IN data THEN
    (unique_id <- getitem data "unique_id" ;;
     prefix <- getitem unique_id "prefix" ;;
     if truthy prefix then
       ps <- py_str prefix ;;
       number <- getitem unique_id "number" ;;
       ns <- py_str number ;;
       Ok (VStr (ps ++ "-" ++ ns))
     else
       number <- getitem unique_id "number" ;;
       ns <- py_str number ;;
       Ok (VStr ns)) ELSE
  Ok VNone
  end.

(** The recursion of [_convert_data] descends into the payload, so the
    depth of the payload bounds it. *)
Definition _convert_data (data : value) : result value :=
  convert_rec (S (depth data)) data.

(** [caption_text], built from [block['caption']]. *)
Definition caption_text_of (block : value) : result string :=
  caption <- getitem block "caption" ;;
  l <- py_iter caption ;;
  plain_text_of "" l.

(** One cell of a table row. *)
Fixpoint cell_text_of (out : string) (texts : list value) : result string :=
  match texts with
  | [] => Ok out
  | text :: rest =>
      href <- getitem text "href" ;;
      out' <- (if truthy href then
                 t <- getitem text "plain_text" ;;
                 ts <- py_str t ;;
                 h <- getitem text "href" ;;
                 hs <- py_str h ;;
                 Ok (out ++ "[" ++ ts ++ "(" ++ hs ++ ")]")
               else
                 t <- getitem text "plain_text" ;;
                 str_add out t) ;;
      cell_text_of out' rest
  end.

Definition cells_text_of (table_row : value) : result (list string) :=
  cells <- getitem table_row "cells" ;;
  l <- py_iter cells ;;
  rmap (fun cell => texts <- py_iter cell ;; cell_text_of "" texts) l.

Definition row_line (cells_text : list string) : string :=
  "| " ++ join " | " cells_text ++ " |".

Definition separator_line (cells_text : list string) : string :=
  "| " ++ join " | " (map (fun _ => "---") cells_text) ++ " |".

(** A list-like block: [prefix + _convert_data(block)]. *)
Definition prefixed (prefix : string) (block : value) : result value :=
  t <- _convert_data block ;;
  s <- str_add prefix t ;;
  Ok (VStr s).

(** [get_url] is used by [_block_to_text] but is imported by [orm.py]
    only: the module [notion_helper] has no such name. *)
Definition get_url_unbound {A} : result A := Raise (NameError "get_url").

Definition _block_to_text (data : value) (table : value)
  : result (value * value * string) :=
  IF "bookmark" IN data THEN
    (bookmark <- getitem data "bookmark" ;;
     caption <- getitem bookmark "caption" ;;
     l <- py_iter caption ;;
     caption_text <- plain_text_of "" l ;;
     url <- (if enable_link then getitem bookmark "url" else Ok (VStr "")) ;;
     if truthy caption then
       us <- py_str url ;;
       Ok (VStr ("[" ++ caption_text ++ "](" ++ us ++ ")"), table, "")
     else Ok (url, table, "")) ELSE
  IF "bulleted_list_item" IN data THEN
    (item <- getitem data "bulleted_list_item" ;;
     out <- prefixed "* " item ;;
     Ok (out, table, tab)) ELSE
  IF "callout" IN data THEN
    (callout <- getitem data "callout" ;;
     out <- _convert_data callout ;;
     Ok (out, table, "")) ELSE
  IF "child_database" IN data THEN
    (child_database <- getitem data "child_database" ;;
     title <- getitem child_database "title" ;;
     _ <- py_str title ;;
     get_url_unbound) ELSE
  IF "child_page" IN data THEN
    (child_page <- getitem data "child_page" ;;
     title <- getitem child_page "title" ;;
     _ <- py_str title ;;
     get_url_unbound) ELSE
  IF "code" IN data THEN
    (code <- getitem data "code" ;;
     language <- getitem code "language" ;;
     caption_text <- caption_text_of code ;;
     content <- _convert_data code ;;
     ls <- py_str language ;;
     cs <- py_str content ;;
     Ok (VStr (caption_text ++ nl ++ nl ++ "```" ++ ls ++ nl ++ cs ++ nl ++ "```"),
         table, "")) ELSE
  IF "divider" IN data THEN Ok (VStr "---", table, "") ELSE
  IF "embed" IN data THEN
    (embed <- getitem data "embed" ;;
     caption_text <- caption_text_of embed ;;
     url <- getitem embed "url" ;;
     us <- py_str url ;;
     Ok (VStr ("[" ++ caption_text ++ "](" ++ us ++ ")"), table, "")) ELSE
  IF "equation" IN data THEN
    (equation <- getitem data "equation" ;;
     e <- getitem equation "expression" ;;
     es <- py_str e ;;
     Ok (VStr ("$$" ++ es ++ "$$"), table, "")) ELSE
  IF "file" IN data THEN
    (file <- getitem data "file" ;;
     caption_text <- caption_text_of file ;;
     file_data <- _convert_data file ;;
     name <- getitem file_data "name" ;;
     ns <- py_str name ;;
     url <- getitem file_data "url" ;;
     us <- py_str url ;;
     Ok (VStr (caption_text ++ nl ++ nl ++ "[" ++ ns ++ "](" ++ us ++ ")"),
         table, "")) ELSE
  IF "heading_1" IN data THEN
    (h <- getitem data "heading_1" ;; out <- prefixed "# " h ;; Ok (out, table, "")) ELSE
  IF "heading_2" IN data THEN
    (h <- getitem data "heading_2" ;; out <- prefixed "## " h ;; Ok (out, table, "")) ELSE
  IF "heading_3" IN data THEN
    (h <- getitem data "heading_3" ;; out <- prefixed "### " h ;; Ok (out, table, "")) ELSE
  IF "image" IN data THEN
    (image <- getitem data "image" ;;
     caption_text <- caption_text_of image ;;
     file_data <- _convert_data image ;;
     url <- getitem file_data "url" ;;
     us <- py_str url ;;
     Ok (VStr ("![" ++ caption_text ++ "](" ++ us ++ " " ++ dquote ++ caption_text
                ++ dquote ++ ")"),
         table, "")) ELSE
  IF "numbered_list_item" IN data THEN
    (item <- getitem data "numbered_list_item" ;;
     out <- prefixed "1. " item ;;
     Ok (out, table, tab)) ELSE
  IF "paragraph" IN data THEN
    (paragraph <- getitem data "paragraph" ;;
     out <- _convert_data paragraph ;;
     Ok (out, table, "")) ELSE
  IF "pdf" IN data THEN
    (pdf <- getitem data "pdf" ;;
     caption_text <- caption_text_of pdf ;;
     file_data <- _convert_data pdf ;;
     url <- getitem file_data "url" ;;
     us <- py_str url ;;
     Ok (VStr ("[" ++ caption_text ++ "](" ++ us ++ ")"), table, "")) ELSE
  IF "quote" IN data THEN
    (quote <- getitem data "quote" ;;
     out <- prefixed "> " quote ;;
     Ok (out, table, "")) ELSE
  IF "table_row" IN data THEN
    (table_row <- getitem data "table_row" ;;
     cells_text <- cells_text_of table_row ;;
     if truthy table then Ok (VStr (row_line cells_text), table, "")
     else Ok (VStr (row_line cells_text ++ nl ++ separator_line cells_text),
              VBool true, "")) ELSE
  IF "to_do" IN data THEN
    (to_do <- getitem data "to_do" ;;
     checked <- getitem to_do "checked" ;;
     out <- prefixed (if truthy checked then "- [x] " else "- [ ] ") to_do ;;
     Ok (out, table, tab)) ELSE
  IF "toggle" IN data THEN
    (toggle <- getitem data "toggle" ;;
     out <- prefixed "+ " toggle ;;
     Ok (out, table, tab)) ELSE
  IF "video" IN data THEN
    (video <- getitem data "video" ;;
     caption_text <- caption_text_of video ;;
     file_data <- _convert_data video ;;
     label <- (if String.eqb caption_text "" then
                 u <- getitem file_data "url" ;; py_str u
               else Ok caption_text) ;;
     url <- getitem file_data "url" ;;
     us <- py_str url ;;
     Ok (VStr ("[" ++ label ++ "](" ++ us ++ ")"), table, "")) ELSE
  IF "link_to_page" IN data THEN
    (link_to_page <- getitem data "link_to_page" ;;
     _ <- getitem link_to_page "type" ;;
     get_url_unbound) ELSE
  (_ <- getitem data "type" ;; Ok (VStr "", table, "")).

(** ** [notion_helper/orm.py]: property descriptors *)

(** The descriptor classes, and a record type: its [__database_id__], its
    members that are [Property] instances in the order of
    [inspect.getmembers] (sorted by attribute name, names distinct), and
    its [unique_keys].  A [RawProperty] carries the [format] it currently
    holds ([None] until a load stores one). *)
Inductive Property :=
| RawProperty (name : option string) (format : option string)
| ReadOnlyProperty (name : option string)
| TitleProperty (name : option string)
| RichTextProperty (name : option string)
| DateProperty (name : option string)
| UrlProperty (name : option string)
| EmailProperty (name : option string)
| PhoneNumberProperty (name : option string)
| CheckboxProperty (name : option string)
| NumberProperty (name : option string)
| StatusProperty (name : option string)
| SelectProperty (name : option string)
| MultiSelectProperty (name : option string)
| RelationProperty (related_model : ModelClass) (name : option string)
with ModelClass :=
| Build_Model (database_id : value) (members : list (string * Property))
              (unique_keys : list string).

Definition database_id (cls : ModelClass) : value :=
  match cls with Build_Model d _ _ => d end.
Definition members (cls : ModelClass) : list (string * Property) :=
  match cls with Build_Model _ m _ => m end.
Definition unique_keys (cls : ModelClass) : list string :=
  match cls with Build_Model _ _ u => u end.

Definition name (p : Property) : option string :=
  match p with
  | RawProperty n _ | ReadOnlyProperty n | TitleProperty n | RichTextProperty n
  | DateProperty n | UrlProperty n | EmailProperty n | PhoneNumberProperty n
  | CheckboxProperty n | NumberProperty n | StatusProperty n | SelectProperty n
  | MultiSelectProperty n | RelationProperty _ n => n
  end.

Definition format (p : Property) : pykey :=
  match p with
  | RawProperty _ (Some f) => KStr f
  | RawProperty _ None => KNone
  | ReadOnlyProperty _ => KNone
  | TitleProperty _ => "title"
  | RichTextProperty _ => "rich_text"
  | DateProperty _ => "date"
  | UrlProperty _ => "url"
  | EmailProperty _ => "email"
  | PhoneNumberProperty _ => "phone_number"
  | CheckboxProperty _ => "checkbox"
  | NumberProperty _ => "number"
  | StatusProperty _ => "status"
  | SelectProperty _ => "select"
  | MultiSelectProperty _ => "multi_select"
  | RelationProperty _ _ => "relation"
  end.

(** [isinstance(p, ReadOnlyProperty)]. *)
Definition is_read_only (p : Property) : bool :=
  match p with ReadOnlyProperty _ => true | _ => false end.

(** [define.name if define.name else key]. *)
Definition remote_name (key : string) (define : Property) : string :=
  match name define with
  | Some n => if String.eqb n "" then key else n
  | None => key
  end.

Definition name_value (p : Property) : value :=
  match name p with Some n => VStr n | None => VNone end.

(** [DateProperty.__date_text]. *)
Definition date_text (d : value) : result value :=
  match d with
  | VDateTime t => Ok (VStr (strftime_datetime t))
  | VDate x => Ok (VStr (strftime_date x))
  | _ => Raise AttributeError
  end.

(** [v[0]]. *)
Definition index0 (v : value) : result value :=
  match v with
  | VList (x :: _) => Ok x
  | VList [] => Raise IndexError
  | VStr (String c _) => Ok (VStr (String c ""))
  | VStr EmptyString => Raise IndexError
  | VDict d => Raise (KeyError "0")
  | _ => Raise TypeError
  end.

(** [v[1]] on a list. *)
Definition index1 (l : list value) : result value :=
  match l with
  | _ :: y :: _ => Ok y
  | _ => Raise IndexError
  end.

Definition text_payload (v : value) : value :=
  VList [VDict [(KStr "text", VDict [(KStr "content", v)])]].

Definition dump_value (p : Property) (v : value) : result value :=
  match p with
  | RawProperty _ _ => Ok v
  | ReadOnlyProperty _ => Ok VNone
  | TitleProperty _ | RichTextProperty _ => Ok (text_payload v)
  | DateProperty _ =>
      match v with
      | VDateTime _ =>
          s <- date_text v ;; Ok (VDict [(KStr "start", s)])
      | VList l =>
          x <- index0 v ;;
          s <- date_text x ;;
          if (1 <? List.length l)%nat then
            y <- index1 l ;;
            e <- date_text y ;;
            Ok (VDict [(KStr "start", s); (KStr "end", e)])
          else Ok (VDict [(KStr "start", s)])
      | _ => Raise (ValueError "Invalid date type:")
      end
  | UrlProperty _ | EmailProperty _ | PhoneNumberProperty _
  | CheckboxProperty _ | NumberProperty _ => Ok v
  | StatusProperty _ | SelectProperty _ => Ok (VDict [(KStr "name", v)])
  | MultiSelectProperty _ =>
      l <- py_iter v ;;
      Ok (VList (map (fun item => VDict [(KStr "name", item)]) l))
  | RelationProperty _ _ =>
      l <- py_iter v ;;
      Ok (VList (map (fun id => VDict [(KStr "id", id)]) l))
  end.

Definition dump (p : Property) (v : value) : result value :=
  match p with
  | RawProperty _ _ => dump_value p v
  | _ => d <- dump_value p v ;; Ok (VDict [(format p, d)])
  end.

(** [Property.filter_value] with the default operator ['=']. *)
Definition base_filter_value (p : Property) (v : value) : value :=
  VDict (dict_set [(KStr "property", name_value p)] (format p)
                  (VDict [(KStr "equals", v)])).

Definition filter_value (p : Property) (v : value) : result value :=
  match p with
  | DateProperty _ =>
      x <- index0 v ;;
      s <- date_text x ;;
      Ok (base_filter_value p s)
  | _ => Ok (base_filter_value p v)
  end.

(** ** The remote store

    The collaborator [notion_client.Client]: each endpoint maps the state
    of the store and the keyword arguments to a response; a paginated
    listing is the sequence of items [iterate_paginated_api] yields,
    followed by the failure that ends it, if any. *)

Definition stream := (list value * option exn)%type.

Record Client := {
  World : Type;
  databases_query : World -> dict -> stream;
  search : World -> dict -> stream;
  pages_retrieve : World -> dict -> result value;
  pages_create : World -> dict -> result value * World;
  pages_update : World -> dict -> result value * World;
  blocks_delete : World -> dict -> result value * World
}.

Inductive call :=
| Call (endpoint : string) (kwargs : dict).

Definition endpoint_of (c : call) : string :=
  match c with Call e _ => e end.

Variable client : Client.

(** The store and the calls issued so far, oldest first. *)
Record state := mkstate { world : World client; log : list call }.

Definition M (A : Type) : Type := state -> result A * state.

Definition ret {A} (a : A) : M A := fun s => (Ok a, s).
Definition raise {A} (e : exn) : M A := fun s => (Raise e, s).
Definition lift {A} (r : result A) : M A := fun s => (r, s).
Definition bind {A B} (m : M A) (f : A -> M B) : M B :=
  fun s => match m s with
           | (Ok a, s') => f a s'
           | (Raise e, s') => (Raise e, s')
           end.

Notation "x <~ c ;; k" := (bind c (fun x => k))
  (at level 61, c at next level, right associativity).

Definition logged (c : call) (s : state) : state :=
  mkstate (world s) (log s ++ [c]).

Definition call_databases_query (kwargs : dict) : M stream :=
  fun s => (Ok (databases_query client (world s) kwargs),
            logged (Call "databases.query" kwargs) s).

Definition call_search (kwargs : dict) : M stream :=
  fun s => (Ok (search client (world s) kwargs),
            logged (Call "search" kwargs) s).

Definition call_pages_retrieve (kwargs : dict) : M value :=
  fun s => (pages_retrieve client (world s) kwargs,
            logged (Call "pages.retrieve" kwargs) s).

Definition mutate (endpoint : string)
    (op : World client -> dict -> result value * World client)
    (kwargs : dict) : M value :=
  fun s => let '(r, w) := op (world s) kwargs in
           (r, mkstate w (log s ++ [Call endpoint kwargs])).

Definition call_pages_create : dict -> M value :=
  mutate "pages.create" (pages_create client).
Definition call_pages_update : dict -> M value :=
  mutate "pages.update" (pages_update client).
Definition call_blocks_delete : dict -> M value :=
  mutate "blocks.delete" (blocks_delete client).

(** The loop over a paginated listing: the body runs on each item in turn,
    then the listing's own failure, if any, is raised. *)
Fixpoint for_each {A} (body : value -> M A) (items : list value) : M (list A) :=
  match items with
  | [] => ret []
  | x :: rest => a <~ body x ;; l <~ for_each body rest ;; ret (a :: l)
  end.

Definition drain {A} (body : value -> M A) (st : stream) : M (list A) :=
  l <~ for_each body (fst st) ;;
  match snd st with
  | Some e => raise e
  | None => ret l
  end.

(** ** Records *)

(** The attributes of a [Model] instance: [id] and one entry per declared
    property. *)
Definition instance := dict.

Definition getattr (self : instance) (k : string) : result value :=
  of_option (dict_get self k) AttributeError.

Definition setattr (self : instance) (k : string) (v : value) : instance :=
  dict_set self k v.

Definition has_member (cls : ModelClass) (k : string) : bool :=
  existsb (fun kp => String.eqb k (fst kp)) (members cls).

Fixpoint find_member (ms : list (string * Property)) (k : string) : option Property :=
  match ms with
  | [] => None
  | (k', p) :: rest => if String.eqb k k' then Some p else find_member rest k
  end.

Fixpoint set_kwargs (cls : ModelClass) (self : instance)
    (kwargs : list (string * value)) : result instance :=
  match kwargs with
  | [] => Ok self
  | (key, v) :: rest =>
      if has_member cls key then set_kwargs cls (setattr self key v) rest
      else if String.eqb key "id" then set_kwargs cls (setattr self "id" v) rest
      else Raise (PlainException ("Invalid property: " ++ key))
  end.

(** [Model.__init__], given the keyword arguments in call order. *)
Definition Model_init (cls : ModelClass) (kwargs : list (string * value))
  : result instance :=
  if truthy (database_id cls) then
    let self := setattr [] "id" VNone in
    let self := fold_left (fun o kp => setattr o (fst kp) VNone) (members cls) self in
    set_kwargs cls self kwargs
  else Raise AssertionError.

(** [cls(id=id, ...)] with the loaded properties as keywords: a second [id] among the keywords is a
    [TypeError] of the call. *)
Definition construct (cls : ModelClass) (id : value)
    (properties : list (string * value)) : result instance :=
  if existsb (fun kv => String.eqb (fst kv) "id") properties then Raise TypeError
  else Model_init cls (("id", id) :: properties).

(** [data[t]] where [t] is the value of [data['type']]. *)
Definition getitem_value (data t : value) : result value :=
  match t with
  | VStr s => getitem data s
  | VList _ | VDict _ => Raise TypeError
  | _ => match data with
         | VDict _ => Raise (KeyError "")
         | _ => Raise TypeError
         end
  end.

(** The dict key a value is used as. *)
Definition as_key (v : value) : result pykey :=
  match v with
  | VStr s => Ok (KStr s)
  | VNone => Ok KNone
  | VList _ | VDict _ => Raise TypeError
  | _ => Raise Unmodelled
  end.

(** [str(obj)] for a record: [Model.__repr__] returns [self.id]. *)
Definition instance_str (self : instance) : result value :=
  id <- getattr self "id" ;;
  match id with
  | VStr _ => Ok id
  | _ => Raise TypeError
  end.

(** [Manager.get], given the loader of the record type. *)
Definition get_with (cls : ModelClass) (load_props : value -> M (list (string * value)))
    (id : value) : M instance :=
  response <~ call_pages_retrieve [(KStr "page_id", id)] ;;
  data <~ lift (getitem response "properties") ;;
  properties <~ load_props data ;;
  rid <~ lift (getitem response "id") ;;
  lift (construct cls rid properties).

(** [properties[key] = v] on the keyword dict being built. *)
Fixpoint kw_set (kw : list (string * value)) (k : string) (v : value)
  : list (string * value) :=
  match kw with
  | [] => [(k, v)]
  | (k', v') :: rest =>
      if String.eqb k k' then (k', v) :: rest else (k', v') :: kw_set rest k v
  end.

(** [Model._load_properties] and [Property.load] with its overrides in
    [RawProperty] and [RelationProperty]. *)
Fixpoint _load_properties (cls : ModelClass) (data : value) {struct cls}
  : M (list (string * value)) :=
  match cls with
  | Build_Model _ ms _ =>
      (fix go (ms : list (string * Property)) (properties : list (string * value))
         {struct ms} : M (list (string * value)) :=
         match ms with
         | [] => ret properties
         | (key, define) :: rest =>
             present <~ lift (py_in (remote_name key define) data) ;;
             if present : bool then
               d <~ lift (getitem data (remote_name key define)) ;;
               v <~ load define d ;;
               go rest (kw_set properties key v)
             else go rest properties
         end) ms []
  end
with load (define : Property) (data : value) {struct define} : M value :=
  match define with
  | RawProperty _ _ =>
      t <~ lift (getitem data "type") ;;
      lift (getitem_value data t)
  | RelationProperty related _ =>
      related_ids <~ lift (_convert_data data) ;;
      ids <~ lift (py_iter related_ids) ;;
      entries <~ for_each (fun related_id =>
                   obj <~ get_with related (_load_properties related) related_id ;;
                   label <~ lift (instance_str obj) ;;
                   k <~ lift (as_key related_id) ;;
                   ret (k, label)) ids ;;
      ret (VDict (fold_left (fun d kv => dict_set d (fst kv) (snd kv)) entries []))
  | _ => lift (_convert_data data)
  end.

(** ** [Manager] *)

Record Manager := mkManager {
  model : ModelClass;
  query_filter : value;
  query_order_by : value
}.

(** [Manager.__init__]. *)
Definition Manager_init (cls : ModelClass) : Manager := mkManager cls VNone VNone.

(** [ModelBase.objects]: the property builds a manager on every access. *)
Definition objects (cls : ModelClass) : Manager := Manager_init cls.

(** [Manager.filter] and [Manager.order_by] set the attribute and return
    the manager itself. *)
Definition Manager_filter (self : Manager) (filter : value) : Manager :=
  mkManager (model self) filter (query_order_by self).

Definition Manager_order_by (self : Manager) (args : list value) : Manager :=
  mkManager (model self) (query_filter self) (VList args).

(** The keyword arguments [Manager.query] builds. *)
Definition query_kwargs (self : Manager) : dict :=
  let query := [(KStr "database_id", database_id (model self))] in
  let query := if truthy (query_filter self)
               then dict_set query "filter" (query_filter self) else query in
  if truthy (query_order_by self)
  then dict_set query "sorts" (query_order_by self) else query.

Definition load_page (cls : ModelClass) (page : value) : M instance :=
  data <~ lift (getitem page "properties") ;;
  properties <~ _load_properties cls data ;;
  id <~ lift (getitem page "id") ;;
  lift (construct cls id properties).

Definition Manager_query (self : Manager) : M (list instance) :=
  pages <~ call_databases_query (query_kwargs self) ;;
  drain (load_page (model self)) pages.

Definition Manager_get (self : Manager) (id : value) : M instance :=
  get_with (model self) (_load_properties (model self)) id.

(** Managers as objects: a heap of managers, a reference is the position
    of the object in the heap. *)
Definition heap := list Manager.

Fixpoint heap_set (h : heap) (r : nat) (m : Manager) : heap :=
  match h, r with
  | [], _ => []
  | _ :: h', O => m :: h'
  | x :: h', S r' => x :: heap_set h' r' m
  end.

(** [cls.objects]: allocates a manager and returns its reference. *)
Definition objects_ref (cls : ModelClass) (h : heap) : heap * nat :=
  ((h ++ [objects cls])%list, List.length h).

(** [r.filter(f)]: mutates the object, returns the same reference. *)
Definition filter_ref (r : nat) (f : value) (h : heap) : heap * nat :=
  match nth_error h r with
  | Some m => (heap_set h r (Manager_filter m f), r)
  | None => (h, r)
  end.

Definition order_by_ref (r : nat) (args : list value) (h : heap) : heap * nat :=
  match nth_error h r with
  | Some m => (heap_set h r (Manager_order_by m args), r)
  | None => (h, r)
  end.

(** [r.query()]. *)
Definition query_ref (r : nat) (h : heap) : M (list instance) :=
  match nth_error h r with
  | Some m => Manager_query m
  | None => raise AttributeError
  end.

(** ** [Model] *)

(** [Model.__dump_properties]. *)
Fixpoint dump_members (exclude_unique_keys : bool) (uk : list string)
    (self : instance) (ms : list (string * Property)) (data : dict) : result dict :=
  match ms with
  | [] => Ok data
  | (key, define) :: rest =>
      if is_read_only define then dump_members exclude_unique_keys uk self rest data
      else if exclude_unique_keys && existsb (String.eqb key) uk
      then dump_members exclude_unique_keys uk self rest data
      else
        v <- getattr self key ;;
        if negb (is_none v) then
          d <- dump define v ;;
          dump_members exclude_unique_keys uk self rest
                       (dict_set data (remote_name key define) d)
        else dump_members exclude_unique_keys uk self rest data
  end.

Definition __dump_properties (cls : ModelClass) (self : instance)
    (exclude_unique_keys : bool) : result dict :=
  dump_members exclude_unique_keys (unique_keys cls) self (members cls) [].

(** [getattr(cls, key).filter_value(getattr(self, key))]. *)
Definition key_filter (cls : ModelClass) (self : instance) (key : string)
  : result value :=
  define <- of_option (find_member (members cls) key) AttributeError ;;
  v <- getattr self key ;;
  filter_value define v.

(** The filter [save] and [upsert] build from a non-empty [unique_keys]. *)
Definition unique_filter (cls : ModelClass) (self : instance) : result value :=
  match unique_keys cls with
  | [key] => key_filter cls self key
  | keys => l <- rmap (key_filter cls self) keys ;;
            Ok (VDict [(KStr "and", VList l)])
  end.

Definition update (cls : ModelClass) (self : instance) : M instance :=
  id <~ lift (getattr self "id") ;;
  if truthy id then
    properties <~ lift (__dump_properties cls self true) ;;
    _ <~ call_pages_update [(KStr "page_id", id);
                            (KStr "properties", VDict properties)] ;;
    ret self
  else raise (ValueError "Object id is None.").

Definition save (cls : ModelClass) (self : instance) : M instance :=
  id <~ lift (getattr self "id") ;;
  if truthy id then update cls self
  else
    _ <~ (match unique_keys cls with
          | [] => ret tt
          | _ =>
              filter <~ lift (unique_filter cls self) ;;
              objs <~ Manager_query (Manager_filter (objects cls) filter) ;;
              if (0 <? List.length objs)%nat
              then raise (IntegrityError "Unique constraint failed.")
              else ret tt
          end) ;;
    properties <~ lift (__dump_properties cls self false) ;;
    response <~ call_pages_create
                  [(KStr "parent", VDict [(KStr "database_id", database_id cls)]);
                   (KStr "properties", VDict properties);
                   (KStr "children", VList [])] ;;
    rid <~ lift (getitem response "id") ;;
    ret (setattr self "id" rid).

Definition delete (cls : ModelClass) (self : instance) : M instance :=
  id <~ lift (getattr self "id") ;;
  if truthy id then
    _ <~ call_blocks_delete [(KStr "block_id", id)] ;;
    ret (setattr self "id" VNone)
  else raise (ValueError "Object id is None.").

Definition upsert (cls : ModelClass) (self : instance) : M instance :=
  match unique_keys cls with
  | [] => save cls self
  | _ =>
      filter <~ lift (unique_filter cls self) ;;
      objs <~ Manager_query (Manager_filter (objects cls) filter) ;;
      match objs with
      | [] => save cls self
      | [obj] =>
          id <~ lift (getattr obj "id") ;;
          update cls (setattr self "id" id)
      | _ => raise (ValueError
               "There are more than one object that meets the filtering criteria.")
      end
  end.

Definition truncate (cls : ModelClass) : M unit :=
  objs <~ Manager_query (objects cls) ;;
  (fix each (l : list instance) : M unit :=
     match l with
     | [] => ret tt
     | p :: rest => _ <~ delete cls p ;; each rest
     end) objs.

(** ** Block trees

    The body of a page as the store holds it: a block with its payload and
    the blocks that listing its children yields.  The page itself is the
    root of the tree. *)

#[warnings="-register-all"]
Inductive block :=
| Block (data : value) (children : list block).

Definition block_data (b : block) : value :=
  match b with Block d _ => d end.
Definition block_children (b : block) : list block :=
  match b with Block _ c => c end.

Fixpoint repeat_str (s : string) (n : nat) : string :=
  match n with
  | O => ""
  | S n' => s ++ repeat_str s n'
  end.

(** One turn of the loop of [Model.__list_blocks], up to the descent: the
    text appended for the block and the table state after it. *)
Definition block_piece (child_level : nat) (data table : value)
  : result (string * value) :=
  '(block_text, table', indentation) <- _block_to_text data table ;;
  if truthy block_text then
    s <- str_add (nl ++ repeat_str indentation child_level) block_text ;;
    Ok ((if String.eqb indentation "" && negb (truthy table') then nl else "") ++ s,
        table')
  else Ok ("", table').

(** The loop over the children of one parent; [descend] renders the
    subtree of a child. *)
Fixpoint render_siblings (descend : block -> result string) (child_level : nat)
    (bs : list block) (table : value) (blocks : string) : result string :=
  match bs with
  | [] => Ok blocks
  | b :: rest =>
      '(piece, table') <- block_piece child_level (block_data b) table ;;
      has_children <- getitem (block_data b) "has_children" ;;
      blocks' <- (if truthy has_children then
                    _ <- getitem (block_data b) "id" ;;
                    sub <- descend b ;;
                    Ok (blocks ++ piece ++ sub)
                  else Ok (blocks ++ piece)) ;;
      render_siblings descend child_level rest table' blocks'
  end.

(** [Model.__list_blocks(parent_id, child_level)], [parent] being the block
    whose identifier is passed. *)
Fixpoint __list_blocks (parent : block) (child_level : nat) {struct parent}
  : result string :=
  match parent with
  | Block _ kids =>
      render_siblings (fun b => __list_blocks b (S child_level)) child_level
                      kids VNone ""
  end.

(** ** Generators: the items yielded, then the exception that ended the
    generator, if any. *)

Definition gen := (list value * option exn)%type.

Definition g_done : gen := ([], None).
Definition g_yield (v : value) (rest : gen) : gen := (v :: fst rest, snd rest).
Definition g_try {A} (r : result A) (k : A -> gen) : gen :=
  match r with
  | Ok a => k a
  | Raise e => ([], Some e)
  end.
(** Yield everything [g] yields, then continue with [rest] unless [g]
    failed. *)
Definition g_from (g : gen) (rest : gen) : gen :=
  match snd g with
  | Some e => g
  | None => ((fst g ++ fst rest)%list, snd rest)
  end.

(** [v != s] for a string [s]. *)
Definition str_ne (v : value) (s : string) : bool := negb (str_is v s).

(** The loop of [list_page_blocks] over the children of one parent;
    [descend] is the recursive call on a child. *)
Fixpoint page_blocks_loop (descend : block -> gen) (exclude_synced_block : value)
    (bs : list block) : gen :=
  match bs with
  | [] => g_done
  | b :: rest =>
      let blk := block_data b in
      g_try (getitem blk "has_children") (fun has_children =>
      g_try (if truthy has_children then
               t <- getitem blk "type" ;; Ok (str_ne t "child_page")
             else Ok false) (fun enter =>
      if enter : bool then
        g_try (if truthy exclude_synced_block then
                 IF "synced_block" IN blk THEN
                   (sb <- getitem blk "synced_block" ;;
                    from <- getitem sb "synced_from" ;;
                    Ok (negb (truthy from)))
                 ELSE Ok false
               else Ok false) (fun skip =>
        if skip : bool then page_blocks_loop descend exclude_synced_block rest
        else
          g_try (getitem blk "id") (fun _ =>
          g_from (descend b)
                 (g_yield blk (page_blocks_loop descend exclude_synced_block rest))))
      else g_yield blk (page_blocks_loop descend exclude_synced_block rest)))
  end.

(** [list_page_blocks(client, page_id, exclude_synced_block, page_size)],
    [page] being the block whose identifier is passed.  The recursive call
    passes [page_size] in the position of [exclude_synced_block]. *)
Fixpoint list_page_blocks (page : block) (exclude_synced_block : value)
    (page_size : value) {struct page} : gen :=
  match page with
  | Block _ kids =>
      page_blocks_loop (fun b => list_page_blocks b page_size (VInt 100))
                       exclude_synced_block kids
  end.

(** The loop of [list_recent_pages] over the pages the search yields. *)
Fixpoint recent_pages_loop (cutoff_time : value) (pages : list value)
    (failure : option exn) : gen :=
  match pages with
  | [] => ([], failure)
  | page :: rest =>
      g_try (if truthy cutoff_time then
               t <- getitem page "last_edited_time" ;;
               d <- _str_to_datetime t ;;
               py_le d cutoff_time
             else Ok false) (fun stop =>
      if stop : bool then g_done
      else g_yield page (recent_pages_loop cutoff_time rest failure))
  end.

Definition search_payload (page_size : value) : dict :=
  [(KStr "filter", VDict [(KStr "value", VStr "page"); (KStr "property", VStr "object")]);
   (KStr "sort", VDict [(KStr "direction", VStr "descending");
                        (KStr "timestamp", VStr "last_edited_time")]);
   (KStr "page_size", page_size)].

Definition list_recent_pages (cutoff_time : value) (page_size : value) : M gen :=
  pages <~ call_search (search_payload page_size) ;;
  ret (recent_pages_loop cutoff_time (fst pages) (snd pages)).


(** ** Sample data used to instantiate the statements below *)

(** An in-memory store: the pages of one collection. A query returns every
    page, a create appends the page and answers with a fresh identifier. *)
Definition memory_client : Client := {|
  World := list value;
  databases_query := fun w _ => (w, None);
  search := fun w _ => (w, None);
  pages_retrieve := fun w kw =>
    match find (fun p => match dict_get kw "page_id", getitem p "id" with
                         | Some (VStr a), Ok (VStr b) => String.eqb a b
                         | _, _ => false
                         end) w with
    | Some p => Ok p
    | None => Raise (APIResponseError "Could not find page")
    end;
  pages_create := fun w kw =>
    let page := VDict (dict_set kw "id" (VStr "page-new")) in
    (Ok page, (w ++ [page])%list);
  pages_update := fun w kw => (Ok (VDict kw), w);
  blocks_delete := fun w kw => (Ok (VDict kw), w)
|}.

(** A record type with one uniqueness key. *)
Definition Contact : ModelClass :=
  Build_Model (VStr "db-contacts")
    [("email", EmailProperty (Some "Email"));
     ("joined", ReadOnlyProperty (Some "Created"));
     ("name", TitleProperty (Some "Name"));
     ("tags", MultiSelectProperty None)]
    ["email"].

(** The same type without uniqueness keys. *)
Definition Note : ModelClass :=
  Build_Model (VStr "db-notes")
    [("name", TitleProperty (Some "Name"))]
    [].

Definition alice : instance :=
  [(KStr "id", VNone); (KStr "email", VStr "a@x.com"); (KStr "joined", VNone);
   (KStr "name", VStr "Alice"); (KStr "tags", VList [VStr "vip"])].

Definition alice_page (id : string) : value :=
  VDict [(KStr "id", VStr id);
         (KStr "properties",
          VDict [(KStr "Email", VDict [(KStr "email", VStr "a@x.com")])])].

Definition memo : instance := [(KStr "id", VNone); (KStr "name", VStr "todo")].

Definition alice_saved : instance := setattr alice "id" (VStr "p-1").

(** UTC+8 all year, the offset of the default zone. *)
Definition utc_plus_8 : Z -> Z := fun _ => 28800 * US_PER_SECOND.

(** ** Vocabulary of the statements *)

(** The instant at which a page was last edited, in microseconds of UTC,
    as the codec decodes the page's [last_edited_time]. *)
Definition last_edited_us (page : value) : option Z :=
  match (t <- getitem page "last_edited_time" ;; _str_to_datetime t) with
  | Ok (VDateTime t) => utc_us t
  | _ => None
  end.

Definition edited_after (cutoff : Z) (page : value) : Prop :=
  exists u, last_edited_us page = Some u /\ cutoff < u.

Definition edited_at_or_before (cutoff : Z) (page : value) : Prop :=
  exists u, last_edited_us page = Some u /\ u <= cutoff.

(** The zone has, at the time the page was edited, the offset the cutoff
    carries. *)
Definition same_offset_as (c : datetime) (page : value) : Prop :=
  exists u, last_edited_us page = Some u /\ utcoffset c = Some (local_utcoffset u).

(** Pages ordered by last-edited time, newest first. *)
Definition newest_first (pages : list value) : Prop :=
  StronglySorted
    (fun p q => match last_edited_us p, last_edited_us q with
                | Some a, Some b => b <= a
                | _, _ => False
                end) pages.

Definition page_edited_at (id text : string) : value :=
  VDict [(KStr "id", VStr id); (KStr "last_edited_time", VStr text)].

Definition three_pages : list value :=
  [page_edited_at "p3" "2024-03-01T00:00:00.000Z";
   page_edited_at "p2" "2024-02-01T00:00:00.000Z";
   page_edited_at "p1" "2024-01-01T00:00:00.000Z"].

Definition mid_february : datetime :=
  mkdatetime (mkdate 2024 2 15) 0 0 0 0 (Some 0) false.

Definition mid_february_us : Z :=
  Eval vm_compute in wall_us mid_february.

(** The same instant as a datetime of the zone that is UTC+8. *)
Definition mid_february_zoned : datetime :=
  mkdatetime (mkdate 2024 2 15) 8 0 0 0 (Some (28800 * US_PER_SECOND)) true.

(** A zone that goes from UTC+2 to UTC+1 on 2023-10-29 at 01:00 UTC, as
    Europe/Paris does: the wall-clock hour from 02:00 to 03:00 occurs
    twice. *)
Definition fall_back_us : Z :=
  Eval vm_compute in
    wall_us (mkdatetime (mkdate 2023 10 29) 1 0 0 0 (Some 0) false).

Definition paris_autumn : Z -> Z :=
  fun u => if u <? fall_back_us then 7200 * US_PER_SECOND
           else 3600 * US_PER_SECOND.

(** 02:15 in the second occurrence of the hour (01:15 UTC) and 02:45 in
    the first (00:45 UTC), as datetimes of that zone. *)
Definition quarter_past_two_again : datetime :=
  mkdatetime (mkdate 2023 10 29) 2 15 0 0 (Some (3600 * US_PER_SECOND)) true.

Definition quarter_to_three_first : datetime :=
  mkdatetime (mkdate 2023 10 29) 2 45 0 0 (Some (7200 * US_PER_SECOND)) true.

(** The dict display [{'property': n, fmt: {'equals': operand}}]. *)
Definition equals_filter (n : value) (fmt : pykey) (operand : value) : value :=
  VDict (dict_set [(KStr "property", n)] fmt (VDict [(KStr "equals", operand)])).

(** What the filter of a property compares the column with: the value
    itself, and for a date property the text of the first date. *)
Definition filter_operand (define : Property) (v : value) : result value :=
  match define with
  | DateProperty _ => x <- index0 v ;; date_text x
  | _ => Ok v
  end.

(** [f] is the equality filter of a key of the record: on the column the
    declaration of the key names and under the kind of that declaration,
    it asks for the value the record holds for the key. *)
Definition key_equality (cls : ModelClass) (self : instance) (key : string)
    (f : value) : Prop :=
  exists define v operand,
    find_member (members cls) key = Some define
    /\ getattr self key = Ok v
    /\ filter_operand define v = Ok operand
    /\ f = equals_filter (name_value define) (format define) operand.

(** [f] is the uniqueness filter of the record: the equality filter of the
    one uniqueness key, or the conjunction of those of all of them, in
    their order. *)
Definition is_uniqueness_filter (cls : ModelClass) (self : instance)
    (f : value) : Prop :=
  match unique_keys cls with
  | [key] => key_equality cls self key f
  | keys => exists fs, f = VDict [(KStr "and", VList fs)]
                       /\ Forall2 (key_equality cls self) keys fs
  end.

(** The record type without its read-only members. *)
Definition writable (cls : ModelClass) : ModelClass :=
  Build_Model (database_id cls)
              (filter (fun kp => negb (is_read_only (snd kp))) (members cls))
              (unique_keys cls).

(** A paragraph block without children. *)
Definition paragraph_block (id text : string) : value :=
  VDict [(KStr "id", VStr id); (KStr "type", VStr "paragraph");
         (KStr "has_children", VBool false);
         (KStr "paragraph",
          VDict [(KStr "rich_text",
                  VList [VDict [(KStr "plain_text", VStr text);
                                (KStr "href", VNone)]])])].

(** A synced block with children; [synced_from] is [None] for the origin
    of the synced content and names the origin for a mirror of it. *)
Definition synced_block (id : string) (synced_from : value) : value :=
  VDict [(KStr "id", VStr id); (KStr "type", VStr "synced_block");
         (KStr "has_children", VBool true);
         (KStr "synced_block", VDict [(KStr "synced_from", synced_from)])].

Definition mirror_block : block :=
  Block (synced_block "mirror" (VDict [(KStr "block_id", VStr "origin")]))
        [Block (paragraph_block "c1" "mirrored text") []].

Definition origin_block : block :=
  Block (synced_block "origin" VNone)
        [Block (paragraph_block "c2" "original text") []].

Definition page_of (kids : list block) : block := Block VNone kids.

(** The keys [_block_to_text] tests before it tests [table_row]. *)
Definition keys_before_table_row : list string :=
  ["bookmark"; "bulleted_list_item"; "callout"; "child_database"; "child_page";
   "code"; "divider"; "embed"; "equation"; "file"; "heading_1"; "heading_2";
   "heading_3"; "image"; "numbered_list_item"; "paragraph"; "pdf"; "quote"].

(** The block is rendered by the [table_row] branch. *)
Definition is_table_row (data : value) : bool :=
  forallb (fun k => match py_in k data with Ok false => true | _ => false end)
          keys_before_table_row
  && match py_in "table_row" data with Ok true => true | _ => false end.

(** The texts of the cells of a table-row block. *)
Definition row_cells (data : value) : result (list string) :=
  table_row <- getitem data "table_row" ;; cells_text_of table_row.

(** The text of the subtree of a block, as the loop of [__list_blocks]
    appends it: nothing for a block without children. *)
Definition subtree_text (descend : block -> result string) (b : block)
  : result string :=
  has_children <- getitem (block_data b) "has_children" ;;
  if truthy has_children then
    _ <- getitem (block_data b) "id" ;; descend b
  else Ok "".

(** The text of siblings that follow a table row at their level: a table
    row is its row on a new line, without separator; any other block is
    what the loop adds for it inside a table; each is followed by its
    subtree. *)
Fixpoint text_in_table (descend : block -> result string) (child_level : nat)
    (bs : list block) : result string :=
  match bs with
  | [] => Ok ""
  | b :: rest =>
      piece <- (if is_table_row (block_data b) then
                  cells <- row_cells (block_data b) ;; Ok (nl ++ row_line cells)
                else
                  '(p, _) <- block_piece child_level (block_data b) (VBool true) ;;
                  Ok p) ;;
      sub <- subtree_text descend b ;;
      more <- text_in_table descend child_level rest ;;
      Ok (piece ++ sub ++ more)
  end.

Definition table_row_block (id : string) (cells : list string) : value :=
  VDict [(KStr "id", VStr id); (KStr "type", VStr "table_row");
         (KStr "has_children", VBool false);
         (KStr "table_row",
          VDict [(KStr "cells",
                  VList (map (fun c => VList [VDict [(KStr "plain_text", VStr c);
                                                     (KStr "href", VNone)]]) cells))])].

Definition table_block (id : string) : value :=
  VDict [(KStr "id", VStr id); (KStr "type", VStr "table");
         (KStr "has_children", VBool true);
         (KStr "table", VDict [(KStr "table_width", VInt 2)])].

(** A page holding one table of three rows with two cells each. *)
Definition table_page : block :=
  page_of [Block (table_block "t")
             [Block (table_row_block "r1" ["A"; "B"]) [];
              Block (table_row_block "r2" ["1"; "2"]) [];
              Block (table_row_block "r3" ["3"; "4"]) []]].

(** Rows of a table separated by a paragraph, at one level. *)
Definition mixed_pre : list block := [Block (paragraph_block "p0" "intro") []].
Definition mixed_row : block := Block (table_row_block "r1" ["A"; "B"]) [].
Definition mixed_post : list block :=
  [Block (paragraph_block "p1" "between") [];
   Block (table_row_block "r2" ["1"; "2"]) []].
Definition mixed_siblings : list block :=
  (mixed_pre ++ mixed_row :: mixed_post)%list.

(** A call that reads the store. *)
Definition is_read (c : call) : bool :=
  match c with
  | Call e _ => String.eqb e "databases.query" || String.eqb e "pages.retrieve"
                || String.eqb e "search"
  end.

(** A computation that leaves the store as it is and issues reads only. *)
Definition reads_only {A} (m : M A) : Prop :=
  forall s, world (snd (m s)) = world s
            /\ exists calls, log (snd (m s)) = (log s ++ calls)%list
                             /\ forallb is_read calls = true.

(** The member [key] is one whose field [update] transmits. *)
Definition transmitted (cls : ModelClass) (self : instance)
    (key : string) (define : Property) : bool :=
  negb (is_read_only define)
  && negb (existsb (String.eqb key) (unique_keys cls))
  && match getattr self key with
     | Ok v => negb (is_none v)
     | Raise _ => false
     end.

(** The member whose remote name is [k], if any. *)
Definition member_named (cls : ModelClass) (k : pykey)
  : option (string * Property) :=
  find (fun kp => key_eqb k (KStr (remote_name (fst kp) (snd kp)))) (members cls).

Definition remote_names (cls : ModelClass) : list string :=
  map (fun kp => remote_name (fst kp) (snd kp)) (members cls).

(** The keyword arguments of the create that [save] issues. *)
Definition create_kwargs (cls : ModelClass) (properties : dict) : dict :=
  [(KStr "parent", VDict [(KStr "database_id", database_id cls)]);
   (KStr "properties", VDict properties);
   (KStr "children", VList [])].

(** Induction over descriptors and record types together. *)
Section ModelInduction.
Variable P : Property -> Prop.
Variable Q : ModelClass -> Prop.
Hypothesis relation_case :
  forall related n, Q related -> P (RelationProperty related n).
Hypothesis other_case :
  forall p, match p with RelationProperty _ _ => False | _ => True end -> P p.
Hypothesis model_case :
  forall d ms u, Forall (fun kp => P (snd kp)) ms -> Q (Build_Model d ms u).

Fixpoint Property_model_ind (p : Property) : P p :=
  match p with
  | RelationProperty related n => relation_case related n (ModelClass_ind' related)
  | RawProperty n f => other_case (RawProperty n f) I
  | ReadOnlyProperty n => other_case (ReadOnlyProperty n) I
  | TitleProperty n => other_case (TitleProperty n) I
  | RichTextProperty n => other_case (RichTextProperty n) I
  | DateProperty n => other_case (DateProperty n) I
  | UrlProperty n => other_case (UrlProperty n) I
  | EmailProperty n => other_case (EmailProperty n) I
  | PhoneNumberProperty n => other_case (PhoneNumberProperty n) I
  | CheckboxProperty n => other_case (CheckboxProperty n) I
  | NumberProperty n => other_case (NumberProperty n) I
  | StatusProperty n => other_case (StatusProperty n) I
  | SelectProperty n => other_case (SelectProperty n) I
  | MultiSelectProperty n => other_case (MultiSelectProperty n) I
  end
with ModelClass_ind' (cls : ModelClass) : Q cls :=
  match cls with
  | Build_Model d ms u =>
      model_case d ms u
        ((fix all (l : list (string * Property))
            : Forall (fun kp => P (snd kp)) l :=
            match l with
            | [] => Forall_nil _
            | kp :: l' => Forall_cons kp (Property_model_ind (snd kp)) (all l')
            end) ms)
  end.
End ModelInduction.

(** Encoding a native value with a descriptor, then decoding the payload
    with the codec: [_convert_data(define.dump(x))]. *)
Definition round_trip (define : Property) (x : value) : result value :=
  d <- dump define x ;; _convert_data d.

(** ** Vocabulary of printed dates *)

Definition text4 (a b c d : Z) : string :=
  String (digit_char a) (String (digit_char b)
    (String (digit_char c) (String (digit_char d) ""))).

Definition year_text (y : Z) : string :=
  text4 (y / 1000) (y / 100 mod 10) (y / 10 mod 10) (y mod 10).

Definition date_groups (d : date) (g : groups) : groups :=
  ("d", pad2 (day d)) :: ("m", pad2 (month d)) :: ("Y", year_text (year d)) :: g.

(** [%z] for an offset of whole minutes. *)
Definition z_text (negative : bool) (h m : Z) : string :=
  (if negative then "-" else "+") ++ pad2 h ++ pad2 m.

Definition Zrange (lo : Z) (n : nat) : list Z :=
  map (fun i => lo + Z.of_nat i) (seq 0 n).

(** What [strptime] reads back from the text of [t]: the fields and the
    offset of [t], with a fixed-offset [tzinfo]. *)
Definition as_parsed (t : datetime) : datetime :=
  mkdatetime (dt_date t) (hour t) (minute t) (second t) (microsecond t)
             (utcoffset t) false.

Definition whole_second_aware (t : datetime) : bool :=
  valid_date (dt_date t) && (1000 <=? year (dt_date t))
  && (0 <=? hour t) && (hour t <=? 23)
  && (0 <=? minute t) && (minute t <=? 59)
  && (0 <=? second t) && (second t <=? 59)
  && (microsecond t =? 0)
  && match utcoffset t with
     | Some off => (off mod (60 * US_PER_SECOND) =? 0)
                   && (- MAX_OFFSET_US <=? off) && (off <=? MAX_OFFSET_US)
     | None => false
     end.

(** Two whole-second aware datetimes and two dates, as sample ranges. *)
Definition new_year_noon : datetime :=
  mkdatetime (mkdate 2024 1 1) 12 0 0 0 (Some (28800 * US_PER_SECOND)) false.
Definition new_year_evening : datetime :=
  mkdatetime (mkdate 2024 1 1) 18 30 0 0 (Some (- 18000 * US_PER_SECOND)) false.

(** ** More of [notion_helper/__init__.py] *)

(** [s.replace('-', '')]. *)
Fixpoint remove_hyphens (s : string) : string :=
  match s with
  | EmptyString => EmptyString
  | String c s' =>
      if Ascii.eqb c "-" then remove_hyphens s' else String c (remove_hyphens s')
  end.

(** [v.replace('-', '')]: a date has a [replace] of its own, which takes
    no string. *)
Definition replace_hyphens (v : value) : result string :=
  match v with
  | VStr s => Ok (remove_hyphens s)
  | VDate _ | VDateTime _ => Raise TypeError
  | _ => Raise AttributeError
  end.

(** [is_database_record(page, database_id)]; [database_id] is [None] when
    the caller gives none. *)
Definition is_database_record (page database_id : value) : result bool :=
  if truthy database_id then
    parent <- getitem page "parent" ;;
    t <- getitem parent "type" ;;
    if str_is t "database_id" then
      parent <- getitem page "parent" ;;
      d <- getitem parent "database_id" ;;
      a <- replace_hyphens d ;;
      b <- replace_hyphens database_id ;;
      Ok (String.eqb a b)
    else Ok false
  else
    parent <- getitem page "parent" ;;
    t <- getitem parent "type" ;;
    Ok (str_is t "database_id").

(** [[{'type': 'text', 'text': {'content': s}}]]. *)
Definition text_object (s : value) : value :=
  VList [VDict [(KStr "type", VStr "text");
                (KStr "text", VDict [(KStr "content", s)])]].

(** [icon.startswith('http')]. *)
Definition startswith_http (icon : value) : result bool :=
  match icon with
  | VStr s => Ok (String.prefix "http" s)
  | _ => Raise AttributeError
  end.

(** The keyword arguments [update_database_info] builds. *)
Definition database_info_kwargs (database_id title icon description : value)
  : result dict :=
  let kwargs := [(KStr "database_id", database_id)] in
  let kwargs := if truthy title then dict_set kwargs "title" (text_object title)
                else kwargs in
  kwargs <- (if is_none icon then Ok (dict_set kwargs "icon" VNone)
             else if truthy icon then
               http <- startswith_http icon ;;
               if http : bool then
                 Ok (dict_set kwargs "icon"
                       (VDict [(KStr "type", VStr "external");
                               (KStr "external", VDict [(KStr "url", icon)])]))
               else
                 Ok (dict_set kwargs "icon"
                       (VDict [(KStr "type", VStr "emoji"); (KStr "emoji", icon)]))
             else Ok kwargs) ;;
  if is_none description then Ok (dict_set kwargs "description" (VList []))
  else if truthy description then
    Ok (dict_set kwargs "description" (text_object description))
  else Ok kwargs.

(** [client.databases.update]. *)
Variable databases_update : World client -> dict -> result value * World client.

(** [update_database_info(client, database_id, title, icon, description)];
    the defaults are [None], [''] and ['']. *)
Definition update_database_info (database_id title icon description : value)
  : M value :=
  kwargs <~ lift (database_info_kwargs database_id title icon description) ;;
  mutate "databases.update" databases_update kwargs.

(** ** More vocabulary *)

(** The keys [_block_to_text] tests, in its order. *)
Definition handled_keys : list string :=
  (keys_before_table_row
   ++ ["table_row"; "to_do"; "toggle"; "video"; "link_to_page"])%list.

(** The first of [keys] that [data] has: the branch that renders it. *)
Fixpoint first_key (keys : list string) (data : value) : option string :=
  match keys with
  | [] => None
  | k :: ks =>
      match py_in k data with
      | Ok true => Some k
      | Ok false => first_key ks data
      | Raise _ => None
      end
  end.

Definition block_kind (data : value) : option string :=
  first_key handled_keys data.

(** The kinds rendered through [get_url]. *)
Definition is_link_kind (k : option string) : bool :=
  match k with
  | Some s => String.eqb s "child_database" || String.eqb s "child_page"
              || String.eqb s "link_to_page"
  | None => false
  end.

(** The kinds that return a tab as indentation. *)
Definition is_list_kind (k : option string) : bool :=
  match k with
  | Some s => String.eqb s "bulleted_list_item" || String.eqb s "numbered_list_item"
              || String.eqb s "to_do" || String.eqb s "toggle"
  | None => false
  end.

Definition is_dict (v : value) : bool :=
  match v with VDict _ => true | _ => false end.

(** The blocks of a tree, each after its descendants. *)
Fixpoint postorder (b : block) : list value :=
  match b with
  | Block data kids => (flat_map postorder kids ++ [data])%list
  end.

(** A block whose flag [has_children] tells whether it has children, and
    which, when it has some, carries an identifier and a type other than
    [child_page] and is no synced block. *)
Definition plain_node (data : value) (kids : list block) : Prop :=
  getitem data "has_children" = Ok (VBool (match kids with [] => false | _ => true end))
  /\ (kids <> [] ->
      (exists t, getitem data "type" = Ok t /\ str_ne t "child_page" = true)
      /\ py_in "synced_block" data = Ok false
      /\ exists i, getitem data "id" = Ok i).

Fixpoint plain_tree (b : block) : Prop :=
  match b with
  | Block data kids =>
      plain_node data kids
      /\ (fix all (l : list block) : Prop :=
            match l with
            | [] => True
            | k :: l' => plain_tree k /\ all l'
            end) kids
  end.

Fixpoint plain_forest (l : list block) : Prop :=
  match l with
  | [] => True
  | k :: l' => plain_tree k /\ plain_forest l'
  end.

(** The call that deletes a record. *)
Definition delete_call (id : value) : call :=
  Call "blocks.delete" [(KStr "block_id", id)].

Definition id_of (self : instance) : value :=
  match dict_get self "id" with
  | Some v => v
  | None => VNone
  end.

(** A record type without relation members. *)
Definition is_flat (cls : ModelClass) : bool :=
  forallb (fun kp => match snd kp with RelationProperty _ _ => false | _ => true end)
          (members cls).

Definition retrieve_call (id : value) : call :=
  Call "pages.retrieve" [(KStr "page_id", id)].

(** A two-level page: a toggle with two paragraphs, then a paragraph. *)
Definition toggle_block (id : string) : value :=
  VDict [(KStr "id", VStr id); (KStr "type", VStr "toggle");
         (KStr "has_children", VBool true);
         (KStr "toggle", VDict [(KStr "rich_text", VList [])])].

Definition nested_page : block :=
  page_of [Block (toggle_block "t1")
             [Block (paragraph_block "a" "first") [];
              Block (paragraph_block "b" "second") []];
           Block (paragraph_block "c" "third") []].

Definition child_page_block (id title : string) : value :=
  VDict [(KStr "id", VStr id); (KStr "type", VStr "child_page");
         (KStr "has_children", VBool false);
         (KStr "child_page", VDict [(KStr "title", VStr title)])].

Definition database_page (database_id : string) : value :=
  VDict [(KStr "id", VStr "page-1");
         (KStr "parent", VDict [(KStr "type", VStr "database_id");
                                (KStr "database_id", VStr database_id)])].

(** A record type with a relation to [Contact]. *)
Definition Deal : ModelClass :=
  Build_Model (VStr "db-deals")
    [("contact", RelationProperty Contact (Some "Contact"));
     ("name", TitleProperty (Some "Name"))]
    [].

(** Induction over block trees. *)
Fixpoint block_forest_ind (P : block -> Prop)
    (step : forall d kids, Forall P kids -> P (Block d kids)) (b : block) : P b :=
  match b with
  | Block d kids =>
      step d kids
        ((fix all (l : list block) : Forall P l :=
            match l with
            | [] => Forall_nil _
            | k :: l' => Forall_cons k (block_forest_ind P step k) (all l')
            end) kids)
  end.

(** A chunk whose [href] is absent or empty. *)
Definition no_link (chunk : value) : bool :=
  match dict_get_method chunk "href" with
  | Ok u => negb (truthy u)
  | Raise _ => false
  end.

(** The value a keyword list gives a name. *)
Fixpoint kw_get (kw : list (string * value)) (k : string) : option value :=
  match kw with
  | [] => None
  | (k', v) :: rest => if String.eqb k k' then Some v else kw_get rest k
  end.

(** The attribute a construction from keywords gives a name: the value of
    the keyword, [None] without one. *)
Definition keyword_or_none (kw : list (string * value)) (k : string) : value :=
  match kw_get kw k with
  | Some v => v
  | None => VNone
  end.

(** The names [Model.__init__] accepts as keywords. *)
Definition declared (cls : ModelClass) (k : string) : bool :=
  has_member cls k || String.eqb k "id".

(** The relation payload of the pages with the given identifiers. *)
Definition relation_data (ids : list string) : value :=
  VDict [(KStr "type", VStr "relation");
         (KStr "relation", VList (map (fun i => VDict [(KStr "id", VStr i)]) ids))].

(** * Properties *)

(** ** The calendar *)

Lemma days_before_month_step (m : Z) (leap : bool) :
  2 <= m <= 12 ->
  DAYS_BEFORE_MONTH m + (if (2 <? m) && leap then 1 else 0)
  - (DAYS_IN_MONTH (m - 1) + (if (m - 1 =? 2) && leap then 1 else 0))
  = DAYS_BEFORE_MONTH (m - 1) + (if (2 <? m - 1) && leap then 1 else 0).
Proof.
  intros H.
  assert (m = 2 \/ m = 3 \/ m = 4 \/ m = 5 \/ m = 6 \/ m = 7 \/ m = 8 \/ m = 9
          \/ m = 10 \/ m = 11 \/ m = 12) as Hm by lia.
  destruct leap; repeat (destruct Hm as [->|Hm]; [reflexivity|]); subst; reflexivity.
Qed.

(** A year written as 400a + 100b + 4c + d + 1. *)
Lemma year_decomposition (n400 n100 n4 n1 : Z) :
  0 <= n400 -> 0 <= n100 <= 3 -> 0 <= n4 <= 24 -> 0 <= n1 <= 3 ->
  let y := n400 * 400 + 1 + n100 * 100 + n4 * 4 + n1 in
  days_before_year y = 146097 * n400 + 36524 * n100 + 1461 * n4 + 365 * n1
  /\ is_leap y = (n1 =? 3) && (negb (n4 =? 24) || (n100 =? 3)).
Proof.
  intros H400 H100 H4 H1 y. subst y. split.
  - unfold days_before_year. Z.div_mod_to_equations. lia.
  - unfold is_leap.
    destruct (n1 =? 3) eqn:E1; destruct (n4 =? 24) eqn:E4; destruct (n100 =? 3) eqn:E100;
    simpl; 
    repeat match goal with
    | H : (_ =? _) = true |- _ => apply Z.eqb_eq in H
    | H : (_ =? _) = false |- _ => apply Z.eqb_neq in H
    end;
    repeat match goal with
    | |- context [?a mod ?b =? 0] => 
        let E := fresh "E" in destruct (a mod b =? 0) eqn:E; 
        [apply Z.eqb_eq in E | apply Z.eqb_neq in E]
    end; simpl; try reflexivity; exfalso; Z.div_mod_to_equations; lia.
Qed.

Lemma ymd2ord_ord2ymd (n : Z) : 1 <= n -> ymd2ord (ord2ymd n) = n.
Proof.
  intros Hn. unfold ord2ymd.
  set (a := n - 1).
  set (n400 := a / DI400Y). set (r400 := a mod DI400Y).
  set (n100 := r400 / DI100Y). set (r100 := r400 mod DI100Y).
  set (n4 := r100 / DI4Y). set (r4 := r100 mod DI4Y).
  set (n1 := r4 / 365). set (r1 := r4 mod 365).
  assert (Ha : 0 <= a) by (unfold a; lia).
  assert (E400 : a = DI400Y * n400 + r400 /\ 0 <= r400 < DI400Y)
    by (unfold n400, r400, DI400Y; split; [apply Z.div_mod; lia | apply Z.mod_pos_bound; lia]).
  assert (E100 : r400 = DI100Y * n100 + r100 /\ 0 <= r100 < DI100Y)
    by (unfold n100, r100, DI100Y; split; [apply Z.div_mod; lia | apply Z.mod_pos_bound; lia]).
  assert (E4 : r100 = DI4Y * n4 + r4 /\ 0 <= r4 < DI4Y)
    by (unfold n4, r4, DI4Y; split; [apply Z.div_mod; lia | apply Z.mod_pos_bound; lia]).
  assert (E1 : r4 = 365 * n1 + r1 /\ 0 <= r1 < 365)
    by (unfold n1, r1; split; [apply Z.div_mod; lia | apply Z.mod_pos_bound; lia]).
  clearbody n400 r400 n100 r100 n4 r4 n1 r1.
  unfold DI400Y, DI100Y, DI4Y in *.
  assert (0 <= n100 <= 4) by lia.
  assert (0 <= n4 <= 24) by lia.
  assert (0 <= n1 <= 4) by lia.
  assert (0 <= n400) by lia.
  destruct ((n1 =? 4) || (n100 =? 4)) eqn:Hsp.
  - apply orb_true_iff in Hsp.
    assert (Hy : exists b c, 0 <= b <= 3 /\ 0 <= c <= 24 /\
               n400 * 400 + 1 + n100 * 100 + n4 * 4 + n1 - 1
               = n400 * 400 + 1 + b * 100 + c * 4 + 3
               /\ (negb (c =? 24) || (b =? 3)) = true
               /\ a + 1 = 146097 * n400 + 36524 * b + 1461 * c + 365 * 3 + 366).
    { destruct Hsp as [Hsp|Hsp]; apply Z.eqb_eq in Hsp.
      - exists n100, n4. 
        assert (n4 <> 24) by lia. assert (n100 <= 3) by lia.
        repeat split; lia.
      - exists 3, 24. repeat split; try lia. }
    destruct Hy as (b & c & Hb & Hc & Hy & Hl & Hord).
    rewrite Hy.
    destruct (year_decomposition n400 b c 3) as [Hd Hleap]; try lia.
    cbv zeta in Hd, Hleap.
    unfold ymd2ord, days_before_month. cbn [year month day].
    rewrite Hd, Hleap. change (2 <? 12) with true. change (3 =? 3) with true.
    cbn [andb]. rewrite Hl. change (DAYS_BEFORE_MONTH 12) with 334.
    unfold a in Hord. lia.
  - apply orb_false_iff in Hsp. destruct Hsp as [Hs1 Hs2].
    apply Z.eqb_neq in Hs1, Hs2.
    destruct (year_decomposition n400 n100 n4 n1) as [Hd Hleap]; try lia.
    cbv zeta in Hd, Hleap.
    set (leapyear := (n1 =? 3) && (negb (n4 =? 24) || (n100 =? 3))) in *.
    assert (Hr1 : r1 < 365 + (if leapyear then 1 else 0)) by (destruct leapyear; lia).
    set (y := n400 * 400 + 1 + n100 * 100 + n4 * 4 + n1) in *.
    assert (Hm : 1 <= Z.shiftr (r1 + 50) 5 <= 12).
    { rewrite Z.shiftr_div_pow2 by lia. change (2 ^ 5) with 32.
      Z.div_mod_to_equations. lia. }
    set (m := Z.shiftr (r1 + 50) 5) in *.
    cbv zeta.
    destruct (r1 <? _) eqn:Hlt.
    + assert (2 <= m).
      { destruct (Z.eq_dec m 1) as [->|]; [|lia]. simpl in Hlt. apply Z.ltb_lt in Hlt. lia. }
      rewrite days_before_month_step by lia.
      unfold ymd2ord, days_before_month. cbn [year month day].
      fold y. rewrite Hd, Hleap. unfold a in *. lia.
    + unfold ymd2ord, days_before_month. cbn [year month day].
      fold y. rewrite Hd, Hleap. unfold a in *. lia.
Qed.

Lemma wall_us_of_wall_us (us : Z) (off : option Z) :
  0 <= us -> wall_us (of_wall_us us off) = us.
Proof.
  intros H. unfold wall_us, of_wall_us. cbn [dt_date hour minute second microsecond].
  rewrite ymd2ord_ord2ymd.
  2:{ unfold US_PER_DAY, US_PER_SECOND. Z.div_mod_to_equations. lia. }
  unfold US_PER_DAY, US_PER_SECOND. Z.div_mod_to_equations. lia.
Qed.

(** ** Date and time literals *)

Lemma astimezone_no_ValueError (t : datetime) (msg : string) :
  astimezone t <> Raise (ValueError msg).
Proof.
  unfold astimezone.
  destruct (utcoffset t); [|discriminate].
  destruct (in_datetime_range _); [|discriminate].
  destruct (in_datetime_range _); discriminate.
Qed.

(** What [_str_to_datetime] computes, by cases on the two parsers. *)
Lemma str_to_datetime_cases (s : string) :
  _str_to_datetime (VStr s) =
  match strptime_datetime s with
  | Some t => match astimezone t with
              | Ok t' => Ok (VDateTime t')
              | Raise e => Raise e
              end
  | None => match strptime_date s with
            | Some d => Ok (VDate d)
            | None => Raise (ValueError "Invalid date or datetime format")
            end
  end.
Proof.
  unfold _str_to_datetime.
  destruct (strptime_datetime s) as [t|]; simpl.
  - destruct (astimezone t) as [t'|e] eqn:Ha; simpl; [reflexivity|].
    destruct e; try reflexivity.
    exfalso. exact (astimezone_no_ValueError _ _ Ha).
  - destruct (strptime_date s); reflexivity.
Qed.

(** Converting to the local zone keeps the instant. *)
Lemma astimezone_utc (t t' : datetime) :
  astimezone t = Ok t' -> utc_us t' = utc_us t.
Proof.
  unfold astimezone.
  destruct (utcoffset t) as [off|] eqn:Hoff; [|discriminate].
  cbv zeta.
  set (utc := wall_us t - off).
  destruct (in_datetime_range utc) eqn:H1; [|discriminate].
  destruct (in_datetime_range (utc + local_utcoffset utc)) eqn:H2; [|discriminate].
  intros H. inversion H; subst t'; clear H.
  unfold in_datetime_range in H2. apply andb_true_iff in H2. destruct H2 as [H2 _].
  apply Z.leb_le in H2.
  unfold utc_us. rewrite Hoff.
  assert (Hu : forall us o, utcoffset (of_wall_us us o) = o) by reflexivity.
  rewrite Hu, wall_us_of_wall_us by exact H2.
  f_equal. unfold utc. lia.
Qed.

(** The instant [_str_to_datetime] returns is the one the text denotes. *)
Lemma str_to_datetime_instant (s : string) (t t' : datetime) :
  strptime_datetime s = Some t ->
  _str_to_datetime (VStr s) = Ok (VDateTime t') ->
  utc_us t' = utc_us t.
Proof.
  intros Hp. rewrite str_to_datetime_cases, Hp.
  destruct (astimezone t) eqn:Ha; [|discriminate].
  intros H. inversion H; subst. exact (astimezone_utc _ _ Ha).
Qed.

(** ** The recursion of the codec *)

Lemma depth_dict_get (d : dict) (k : pykey) (v : value) :
  dict_get d k = Some v -> (depth v < depth (VDict d))%nat.
Proof.
  cbn [depth]. induction d as [|[k0 v0] d IH]; cbn [dict_get fold_right snd].
  - discriminate.
  - destruct (key_eqb k k0).
    + intros E. inversion E; subst. lia.
    + intros E. specialize (IH E). lia.
Qed.

Lemma depth_getitem (data : value) (k : string) (v : value) :
  getitem data k = Ok v -> (depth v < depth data)%nat.
Proof.
  unfold getitem. destruct data; try discriminate.
  destruct (dict_get d k) eqn:E; [|discriminate].
  intros H. inversion H; subst. exact (depth_dict_get _ _ _ E).
Qed.

Lemma depth_py_iter (v : value) (l : list value) (x : value) :
  py_iter v = Ok l -> In x l -> (depth x <= depth v)%nat.
Proof.
  unfold py_iter.
  destruct v as [| | |s|vl|d| |]; try discriminate; intros H; inversion H; subst l;
    clear H; intros Hin.
  - apply in_map_iff in Hin. destruct Hin as (c & <- & _). cbn. lia.
  - cbn [depth]. induction vl as [|a vl IH]; cbn [In fold_right] in *; [contradiction|].
    destruct Hin as [->|Hin]; [lia|]. specialize (IH Hin). lia.
  - apply in_map_iff in Hin. destruct Hin as ([k0 v0] & <- & _).
    destruct k0; cbn; lia.
Qed.

Lemma rmap_ext_in {A B} (f g : A -> result B) (l : list A) :
  (forall x, In x l -> f x = g x) -> rmap f l = rmap g l.
Proof.
  induction l as [|a l IH]; intros H; [reflexivity|].
  cbn [rmap]. rewrite (H a) by (left; reflexivity).
  rewrite IH; [reflexivity|]. intros x Hx. apply H. right. exact Hx.
Qed.

(** Fuel above the depth of the payload is never used up. *)
Lemma convert_rec_fuel (n : nat) :
  forall m data, (depth data < n)%nat -> (depth data < m)%nat ->
  convert_rec n data = convert_rec m data.
Proof.
  induction n as [|n IH]; intros m data Hn Hm; [lia|].
  destruct m as [|m]; [lia|].
  cbn [convert_rec].
  repeat match goal with
  | |- rbind (py_in ?k data) _ = rbind (py_in ?k data) _ =>
      destruct (py_in k data) as [[|]|]; cbn [rbind];
      [ try reflexivity | | reflexivity ]
  end; try reflexivity.
  - destruct (getitem data "files") as [files|] eqn:Eg; cbn [rbind]; [|reflexivity].
    apply depth_getitem in Eg.
    destruct (py_iter files) as [l|] eqn:El; cbn [rbind]; [|reflexivity].
    rewrite (rmap_ext_in (convert_rec n) (convert_rec m) l); [reflexivity|].
    intros x Hx. pose proof (depth_py_iter _ _ _ El Hx). apply IH; lia.
  - destruct (getitem data "formula") as [v|] eqn:Eg; cbn [rbind]; [|reflexivity].
    apply depth_getitem in Eg. apply IH; lia.
  - destruct (getitem data "rollup") as [v|] eqn:Eg; cbn [rbind]; [|reflexivity].
    apply depth_getitem in Eg. apply IH; lia.
Qed.

Lemma convert_data_fuel (n : nat) (data : value) :
  (depth data < n)%nat -> _convert_data data = convert_rec n data.
Proof.
  intros H. unfold _convert_data. apply convert_rec_fuel; lia.
Qed.

(** ** Recently modified pages *)

(** A datetime that [_str_to_datetime] returns carries the zone and the
    offset the zone has at its instant. *)
Lemma str_to_datetime_zoned (v : value) (d : datetime) :
  _str_to_datetime v = Ok (VDateTime d) ->
  zoned d = true
  /\ exists u, utc_us d = Some u /\ utcoffset d = Some (local_utcoffset u).
Proof.
  destruct v as [| | |s| | | |]; try discriminate.
  rewrite str_to_datetime_cases.
  destruct (strptime_datetime s) as [t|];
    [|destruct (strptime_date s); discriminate].
  destruct (astimezone t) as [t'|] eqn:Ha; [|discriminate].
  intros H. inversion H; subst t'; clear H.
  pose proof (astimezone_utc _ _ Ha) as Hu.
  unfold astimezone in Ha.
  destruct (utcoffset t) as [off|] eqn:Hoff; [|discriminate].
  cbv zeta in Ha.
  destruct (in_datetime_range (wall_us t - off)); [|discriminate].
  destruct (in_datetime_range _); [|discriminate].
  inversion Ha; subst d; clear Ha.
  split; [reflexivity|].
  exists (wall_us t - off). split; [|reflexivity].
  rewrite Hu. unfold utc_us. rewrite Hoff. reflexivity.
Qed.

(** The test of the loop: the decoded time carries the zone, so against a
    cutoff that carries the zone too the wall-clock readings are compared,
    against any other aware cutoff the instants. *)
Lemma recent_pages_test (c : datetime) (cu u : Z) (page : value) :
  utc_us c = Some cu ->
  last_edited_us page = Some u ->
  (t <- getitem page "last_edited_time" ;;
   d <- _str_to_datetime t ;;
   py_le d (VDateTime c))
  = Ok (if zoned c then u + local_utcoffset u <=? wall_us c else u <=? cu).
Proof.
  unfold last_edited_us. intros Hc Hu.
  destruct (getitem page "last_edited_time") as [t|]; cbn [rbind] in *; [|discriminate].
  destruct (_str_to_datetime t) as [d|] eqn:Hd; cbn [rbind] in *; [|discriminate].
  destruct d as [| | | | | | |d]; try discriminate.
  destruct (str_to_datetime_zoned _ _ Hd) as (Hz & u' & Hu' & Ho).
  rewrite Hu in Hu'. inversion Hu'; subst u'; clear Hu'.
  unfold utc_us in Hu, Hc. rewrite Ho in Hu.
  destruct (utcoffset c) as [oc|] eqn:Hoc; [|discriminate].
  assert (Hu' : wall_us d = u + local_utcoffset u) by (injection Hu; lia).
  assert (Hc' : cu = wall_us c - oc) by (injection Hc; lia).
  clear Hu Hc.
  cbn [py_le]. rewrite Hz, Ho, Hoc. cbn [andb]. rewrite Hu', Hc'.
  destruct (zoned c); [reflexivity|].
  f_equal. f_equal. lia.
Qed.

Lemma recent_pages_step (c : datetime) (cu u : Z) (page : value) :
  utc_us c = Some cu ->
  last_edited_us page = Some u ->
  (zoned c = true -> same_offset_as c page) ->
  (t <- getitem page "last_edited_time" ;;
   d <- _str_to_datetime t ;;
   py_le d (VDateTime c)) = Ok (u <=? cu).
Proof.
  intros Hc Hu Hz. rewrite (recent_pages_test c cu u page Hc Hu).
  destruct (zoned c); [|reflexivity].
  destruct (Hz eq_refl) as (u' & Hu' & Ho).
  rewrite Hu in Hu'. inversion Hu'; subst u'; clear Hu'.
  unfold utc_us in Hc. rewrite Ho in Hc. inversion Hc as [Hc'].
  f_equal.
  destruct (Z.leb_spec (u + local_utcoffset u) (wall_us c));
    destruct (Z.leb_spec u (wall_us c - local_utcoffset u)); try reflexivity; lia.
Qed.

(** X25. Given an aware cutoff and a stream whose pages are ordered by
    last-edited time, newest first, [list_recent_pages] yields a prefix of
    the stream: every page it yields was edited strictly after the cutoff,
    it stops without yielding at the first page edited at or before the
    cutoff, and no page it leaves out was edited after the cutoff.  This
    holds for a cutoff whose [tzinfo] is not the zone object of the
    module, and for one that carries that object when the zone has, at the
    time of each page, the offset the cutoff carries: against such a
    cutoff the code compares wall-clock readings, not instants. *)
Theorem list_recent_pages_cutoff (c : datetime) (cu : Z) (page_size : value)
    (s : state) :
  let st := search client (world s) (search_payload page_size) in
  utc_us c = Some cu ->
  Forall (fun p => last_edited_us p <> None) (fst st) ->
  newest_first (fst st) ->
  (zoned c = true -> Forall (same_offset_as c) (fst st)) ->
  exists g pre post,
    fst (list_recent_pages (VDateTime c) page_size s) = Ok g /\
    fst st = (pre ++ post)%list /\
    fst g = pre /\
    Forall (edited_after cu) pre /\
    Forall (edited_at_or_before cu) post /\
    match post with
    | [] => snd g = snd st
    | _ :: _ => snd g = None
    end.
Proof.
  intros st Hc Hwf Hsorted Hzone.
  unfold list_recent_pages, bind, call_search, ret. cbn [fst snd].
  fold st. destruct st as [pages failure]. cbn [fst snd] in *.
  eexists.
  enough (exists pre post,
             pages = (pre ++ post)%list /\
             fst (recent_pages_loop (VDateTime c) pages failure) = pre /\
             Forall (edited_after cu) pre /\
             Forall (edited_at_or_before cu) post /\
             match post with
             | [] => snd (recent_pages_loop (VDateTime c) pages failure) = failure
             | _ :: _ => snd (recent_pages_loop (VDateTime c) pages failure) = None
             end) as (pre & post & H).
  { exists pre, post. split; [reflexivity|exact H]. }
  clear s. induction pages as [|page rest IH].
  - exists [], []. simpl. repeat split; constructor.
  - inversion Hwf as [|? ? Hp Hrest]; subst.
    inversion Hsorted as [|? ? Hs Hall]; subst.
    assert (Hzp : zoned c = true -> same_offset_as c page).
    { intros Hz. specialize (Hzone Hz). inversion Hzone; assumption. }
    assert (Hzr : zoned c = true -> Forall (same_offset_as c) rest).
    { intros Hz. specialize (Hzone Hz). inversion Hzone; assumption. }
    destruct (last_edited_us page) as [u|] eqn:Hu; [|congruence].
    cbn [recent_pages_loop truthy].
    rewrite (recent_pages_step c cu u page Hc Hu Hzp). cbn [g_try].
    destruct (u <=? cu) eqn:Hle.
    + apply Z.leb_le in Hle.
      exists [], (page :: rest). simpl. repeat split; try constructor.
      * exists u. split; [exact Hu|exact Hle].
      * rewrite Forall_forall in Hall, Hrest |- *. intros q Hq.
        specialize (Hall q Hq). specialize (Hrest q Hq). cbv beta in Hall.
        destruct (last_edited_us q) as [v|] eqn:Hv; [|congruence].
        exists v. split; [exact Hv|lia].
    + apply Z.leb_gt in Hle.
      destruct (IH Hrest Hs Hzr) as (pre & post & E & Hf & Hpre & Hpost & Hend).
      exists (page :: pre), post. cbn [g_yield fst snd app].
      repeat split.
      * rewrite E. reflexivity.
      * rewrite Hf. reflexivity.
      * constructor; [exists u; split; [exact Hu|exact Hle] | exact Hpre].
      * exact Hpost.
      * exact Hend.
Qed.

(** ** Read-only descriptors *)

Lemma dict_get_set_other (d : dict) (k k' : pykey) (v : value) :
  key_eqb k' k = false -> dict_get (dict_set d k v) k' = dict_get d k'.
Proof.
  intros Hne. induction d as [|[k0 v0] d IH]; simpl.
  - rewrite Hne. reflexivity.
  - destruct (key_eqb k k0) eqn:E; simpl.
    + destruct (key_eqb k' k0) eqn:E'; [|reflexivity].
      exfalso.
      destruct k, k0, k'; simpl in *; try discriminate.
      apply String.eqb_eq in E, E'. subst.
      rewrite String.eqb_refl in Hne. discriminate.
    + destruct (key_eqb k' k0); [reflexivity|exact IH].
Qed.

Lemma getattr_setattr_other (self : instance) (k k' : string) (v : value) :
  k' <> k -> getattr (setattr self k v) k' = getattr self k'.
Proof.
  intros Hne. unfold getattr, setattr.
  rewrite dict_get_set_other; [reflexivity|].
  simpl. apply String.eqb_neq. exact Hne.
Qed.

Lemma dump_members_writable (flag : bool) (uk : list string) (self : instance)
    (key : string) (v : value) (ms : list (string * Property)) :
  (forall p, In (key, p) ms -> is_read_only p = true) ->
  forall data,
    dump_members flag uk (setattr self key v) ms data
    = dump_members flag uk self
        (filter (fun kp => negb (is_read_only (snd kp))) ms) data.
Proof.
  induction ms as [|[k p] ms IH]; intros Hro data; [reflexivity|].
  assert (Hms : forall p0, In (key, p0) ms -> is_read_only p0 = true)
    by (intros p0 Hin; apply Hro; right; exact Hin).
  cbn [dump_members filter snd].
  destruct (is_read_only p) eqn:Hp; cbn [negb].
  - apply IH. exact Hms.
  - cbn [dump_members]. rewrite Hp.
    destruct (flag && existsb (String.eqb k) uk); [apply IH; exact Hms|].
    assert (Hk : k <> key).
    { intros ->. rewrite (Hro p) in Hp; [discriminate|left; reflexivity]. }
    rewrite getattr_setattr_other by exact Hk.
    destruct (getattr self k) as [x|]; simpl; [|reflexivity].
    destruct (is_none x); simpl; [apply IH; exact Hms|].
    destruct (dump p x); simpl; [apply IH; exact Hms|reflexivity].
Qed.

(** C6. A read-only descriptor encodes every value as [None], and a write
    never carries it: whatever value the field of a read-only member
    holds, the payload [__dump_properties] builds (for a create and for an
    update alike) is the one built for the record type without its
    read-only members, so the field adds no entry and raises no error. *)
Theorem read_only_never_written (cls : ModelClass) (self : instance)
    (key : string) (n : option string) (v : value) (exclude_unique_keys : bool) :
  (forall p, In (key, p) (members cls) -> is_read_only p = true) ->
  dump_value (ReadOnlyProperty n) v = Ok VNone
  /\ __dump_properties cls (setattr self key v) exclude_unique_keys
     = __dump_properties (writable cls) self exclude_unique_keys.
Proof.
  intros Hro. split; [reflexivity|].
  unfold __dump_properties. destruct cls as [d ms uk]. cbn [members unique_keys writable].
  apply dump_members_writable. exact Hro.
Qed.

(** ** Managers *)

Lemma nth_error_heap_set_other (h : heap) (r r' : nat) (m : Manager) :
  r' <> r -> nth_error (heap_set h r m) r' = nth_error h r'.
Proof.
  revert r r'. induction h as [|x h IH]; intros r r' Hne; [reflexivity|].
  destruct r, r'; simpl; try reflexivity; try congruence.
  apply IH. congruence.
Qed.

Lemma nth_error_heap_set_same (h : heap) (r : nat) (m m0 : Manager) :
  nth_error h r = Some m0 -> nth_error (heap_set h r m) r = Some m.
Proof.
  revert r. induction h as [|x h IH]; intros r; destruct r; simpl; try discriminate.
  - reflexivity.
  - apply IH.
Qed.

(** C10, as the code has it. Each access to [objects] builds a new manager
    whose filter and sort state are [None], at a reference no earlier
    manager has; what was configured on the manager of an earlier access
    stays on that manager, so a query through the later access carries the
    collection identifier only.  The configuration reaches every query on
    the manager it was set on: [filter] followed by [query] carries the
    filter, and a query on the first manager after [filter], [order_by] and
    a further access to [objects] carries the filter and the sorts, each
    when it is not empty.  Chaining in one expression is not needed. *)
Theorem objects_is_fresh (cls : ModelClass) (h : heap) (f : value)
    (args : list value) (s : state) :
  let (h1, r1) := objects_ref cls h in
  let (h2, r1') := filter_ref r1 f h1 in
  let (h3, r1'') := order_by_ref r1' args h2 in
  let (h4, r2) := objects_ref cls h3 in
  nth_error h1 r1 = Some (mkManager cls VNone VNone)
  /\ nth_error h r1 = None
  /\ r1' = r1 /\ r1'' = r1 /\ r2 <> r1
  /\ nth_error h4 r1 = Some (mkManager cls f (VList args))
  /\ nth_error h4 r2 = Some (mkManager cls VNone VNone)
  /\ query_ref r2 h4 s = Manager_query (mkManager cls VNone VNone) s
  /\ query_kwargs (mkManager cls VNone VNone)
     = [(KStr "database_id", database_id cls)]
  /\ query_ref r1 h2 s = Manager_query (mkManager cls f VNone) s
  /\ dict_get (query_kwargs (mkManager cls f VNone)) "filter"
     = (if truthy f then Some f else None)
  /\ query_ref r1 h4 s = Manager_query (mkManager cls f (VList args)) s
  /\ dict_get (query_kwargs (mkManager cls f (VList args))) "filter"
     = (if truthy f then Some f else None)
  /\ dict_get (query_kwargs (mkManager cls f (VList args))) "sorts"
     = match args with
       | [] => None
       | _ :: _ => Some (VList args)
       end.
Proof.
  unfold objects_ref, filter_ref, order_by_ref, objects, Manager_init.
  assert (H1 : nth_error (h ++ [mkManager cls VNone VNone])%list (List.length h)
               = Some (mkManager cls VNone VNone)).
  { rewrite nth_error_app2 by lia. rewrite Nat.sub_diag. reflexivity. }
  rewrite H1.
  assert (H2 : nth_error
                 (heap_set (h ++ [mkManager cls VNone VNone])%list (List.length h)
                    (Manager_filter (mkManager cls VNone VNone) f))
                 (List.length h) = Some (mkManager cls f VNone)).
  { eapply nth_error_heap_set_same. exact H1. }
  rewrite H2.
  set (h3 := heap_set _ (List.length h) (Manager_order_by (mkManager cls f VNone) args)).
  assert (H3 : nth_error h3 (List.length h) = Some (mkManager cls f (VList args))).
  { unfold h3. eapply nth_error_heap_set_same. exact H2. }
  assert (Hlen : forall (x : heap) r m, List.length (heap_set x r m) = List.length x).
  { induction x as [|a x IH]; intros r m; [reflexivity|].
    destruct r; simpl; [reflexivity|]. rewrite IH. reflexivity. }
  assert (Hl3 : List.length h3 = S (List.length h)).
  { unfold h3. rewrite !Hlen, length_app. simpl. lia. }
  repeat split.
  - apply nth_error_None. lia.
  - lia.
  - rewrite nth_error_app1 by lia. exact H3.
  - rewrite nth_error_app2 by lia. rewrite Nat.sub_diag. reflexivity.
  - unfold query_ref. rewrite nth_error_app2 by lia. rewrite Nat.sub_diag. reflexivity.
  - unfold query_ref. rewrite H2. reflexivity.
  - unfold query_kwargs. cbn [query_filter query_order_by model truthy].
    destruct (truthy f); reflexivity.
  - unfold query_ref. rewrite nth_error_app1 by lia. rewrite H3. reflexivity.
  - unfold query_kwargs. cbn [query_filter query_order_by model truthy].
    destruct (truthy f), args; reflexivity.
  - unfold query_kwargs. cbn [query_filter query_order_by model truthy].
    destruct (truthy f), args; reflexivity.
Qed.

(** ** Synced blocks *)

(** C8, on the code: with exclusion enabled, the mirror of a synced block
    (one that names its source) is traversed, its child and then the block
    itself are yielded; the origin (no source) is skipped with its
    children.  The test [not block['synced_block']['synced_from']] holds
    for the origin, not for the mirror. *)
Theorem synced_block_filter_inverted :
  list_page_blocks (page_of [mirror_block]) (VBool true) (VInt 100)
  = ([paragraph_block "c1" "mirrored text"; block_data mirror_block], None)
  /\ list_page_blocks (page_of [origin_block]) (VBool true) (VInt 100)
     = ([], None).
Proof. split; reflexivity. Qed.

(** ** Table rows *)

Ltac step_result :=
  match goal with
  | H : rbind ?r _ = Ok _ |- _ =>
      let E := fresh "E" in destruct r eqn:E; cbn [rbind] in H; [|discriminate H]
  | H : (if ?b then _ else _) = Ok _ |- _ =>
      let E := fresh "E" in destruct b eqn:E
  | H : (let '(_, _) := ?p in _) = Ok _ |- _ => destruct p
  | H : (Ok _ = Ok _) |- _ => inversion H; subst; clear H
  | H : Raise _ = Ok _ |- _ => discriminate H
  | H : get_url_unbound = Ok _ |- _ => discriminate H
  | H : prefixed _ _ = Ok _ |- _ => clear H
  end.

(** The table state after a block: it is the state before it, unless the
    block is a table row met outside a table, which sets it. *)
Lemma block_to_text_table (data table out table' : value) (ind : string) :
  _block_to_text data table = Ok (out, table', ind) ->
  table' = table
  \/ (table' = VBool true /\ truthy table = false /\ is_table_row data = true).
Proof.
  unfold _block_to_text. intros H.
  unfold is_table_row, keys_before_table_row. cbn [forallb].
  repeat (step_result; try (left; reflexivity)).
  right. repeat split; try reflexivity.
Qed.

(** What the [table_row] branch returns. *)
Lemma table_row_text (data table : value) :
  is_table_row data = true ->
  _block_to_text data table =
  (cells <- row_cells data ;;
   if truthy table then Ok (VStr (row_line cells), table, "")
   else Ok (VStr (row_line cells ++ nl ++ separator_line cells), VBool true, "")).
Proof.
  unfold is_table_row, keys_before_table_row. cbn [forallb]. intros H.
  repeat match type of H with
  | (_ && _) = true => let H1 := fresh "K" in
                       apply andb_true_iff in H; destruct H as [H1 H]
  end.
  repeat match goal with
  | K : (_ && _) = true |- _ => apply andb_true_iff in K; destruct K
  end.
  repeat match goal with
  | K : match py_in ?k data with _ => _ end = true |- _ =>
      let E := fresh "E" in
      destruct (py_in k data) as [[|]|] eqn:E; try discriminate K; clear K
  end.
  unfold _block_to_text, row_cells.
  repeat match goal with
  | E : py_in ?k data = _ |- _ => rewrite E; clear E
  end.
  cbn [rbind].
  destruct (getitem data "table_row") as [tr|]; cbn [rbind]; [|reflexivity].
  destruct (cells_text_of tr); cbn [rbind]; reflexivity.
Qed.

Lemma rbind_ok {A B} (r : result A) (f : A -> result B) (b : B) :
  rbind r f = Ok b -> exists a, r = Ok a /\ f a = Ok b.
Proof.
  destruct r as [a|]; cbn [rbind]; [|discriminate].
  intros H. exists a. split; [reflexivity|exact H].
Qed.

(** ** Reads do not change the store *)

Lemma reads_lift {A} (r : result A) : reads_only (lift r).
Proof.
  intros s. split; [reflexivity|]. exists []. split; [|reflexivity].
  unfold lift. cbn [snd]. rewrite app_nil_r. reflexivity.
Qed.

Lemma reads_ret {A} (a : A) : reads_only (ret a).
Proof. exact (reads_lift (Ok a)). Qed.

Lemma reads_raise {A} (e : exn) : reads_only (@raise A e).
Proof. exact (reads_lift (Raise e)). Qed.

Lemma reads_bind {A B} (m : M A) (f : A -> M B) :
  reads_only m -> (forall a, reads_only (f a)) -> reads_only (bind m f).
Proof.
  intros Hm Hf s. unfold bind.
  destruct (Hm s) as (Hw & calls & Hl & Hr).
  destruct (m s) as [[a|e] s1]; cbn [snd] in *.
  - destruct (Hf a s1) as (Hw' & calls' & Hl' & Hr').
    split; [congruence|].
    exists (calls ++ calls')%list. split.
    + rewrite Hl', Hl, app_assoc. reflexivity.
    + rewrite forallb_app, Hr, Hr'. reflexivity.
  - split; [exact Hw|]. exists calls. split; assumption.
Qed.

Lemma reads_for_each {A} (body : value -> M A) (items : list value) :
  (forall x, reads_only (body x)) -> reads_only (for_each body items).
Proof.
  intros Hb. induction items as [|x items IH]; cbn [for_each].
  - apply reads_ret.
  - apply reads_bind; [apply Hb|]. intros a.
    apply reads_bind; [exact IH|]. intros l. apply reads_ret.
Qed.

Lemma reads_drain {A} (body : value -> M A) (st : stream) :
  (forall x, reads_only (body x)) -> reads_only (drain body st).
Proof.
  intros Hb. unfold drain.
  apply reads_bind; [apply reads_for_each; exact Hb|].
  intros l. destruct (snd st); [apply reads_raise|apply reads_ret].
Qed.

Lemma reads_pages_retrieve (kwargs : dict) : reads_only (call_pages_retrieve kwargs).
Proof.
  intros s. split; [reflexivity|]. eexists. split; reflexivity.
Qed.

Lemma reads_databases_query (kwargs : dict) : reads_only (call_databases_query kwargs).
Proof.
  intros s. split; [reflexivity|]. eexists. split; reflexivity.
Qed.

Lemma reads_get_with (cls : ModelClass)
    (load_props : value -> M (list (string * value))) (id : value) :
  (forall data, reads_only (load_props data)) ->
  reads_only (get_with cls load_props id).
Proof.
  intros Hl. unfold get_with.
  apply reads_bind; [apply reads_pages_retrieve|]. intros response.
  apply reads_bind; [apply reads_lift|]. intros data.
  apply reads_bind; [apply Hl|]. intros properties.
  apply reads_bind; [apply reads_lift|]. intros rid.
  apply reads_lift.
Qed.

Lemma reads_load_both :
  (forall define data, reads_only (load define data))
  /\ (forall cls data, reads_only (_load_properties cls data)).
Proof.
  assert (H : forall define, (fun p => forall data, reads_only (load p data)) define).
  { apply (Property_model_ind
             (fun p => forall data, reads_only (load p data))
             (fun c => forall data, reads_only (_load_properties c data))).
    - intros related n Hq data. cbn [load].
      apply reads_bind; [apply reads_lift|]. intros ids0.
      apply reads_bind; [apply reads_lift|]. intros ids.
      apply reads_bind; [|intros; apply reads_ret].
      apply reads_for_each. intros x.
      apply reads_bind; [apply reads_get_with; exact Hq|]. intros obj.
      apply reads_bind; [apply reads_lift|]. intros label.
      apply reads_bind; [apply reads_lift|]. intros k. apply reads_ret.
    - intros p Hp data. destruct p; try contradiction; cbn [load];
        try apply reads_lift.
      apply reads_bind; [apply reads_lift|]. intros t. apply reads_lift.
    - intros d ms u Hms data. cbn [_load_properties].
      generalize (@nil (string * value)) as acc.
      induction Hms as [|[key define] ms Hp Hms IH]; intros acc.
      + apply reads_ret.
      + apply reads_bind; [apply reads_lift|]. intros present.
        destruct present; [|apply IH].
        apply reads_bind; [apply reads_lift|]. intros dta.
        apply reads_bind; [apply Hp|]. intros v. apply IH. }
  split; [exact H|].
  intros cls. destruct cls as [d ms u]. intros data. cbn [_load_properties].
  generalize (@nil (string * value)) as acc.
  induction ms as [|[key define] ms IH]; intros acc.
  - apply reads_ret.
  - apply reads_bind; [apply reads_lift|]. intros present.
    destruct present; [|apply IH].
    apply reads_bind; [apply reads_lift|]. intros dta.
    apply reads_bind; [apply H|]. intros v. apply IH.
Qed.

Lemma reads_Manager_query (m : Manager) : reads_only (Manager_query m).
Proof.
  unfold Manager_query.
  apply reads_bind; [apply reads_databases_query|]. intros pages.
  apply reads_drain. intros page. unfold load_page.
  apply reads_bind; [apply reads_lift|]. intros data.
  apply reads_bind; [apply (proj2 reads_load_both)|]. intros properties.
  apply reads_bind; [apply reads_lift|]. intros id.
  apply reads_lift.
Qed.

(** The first call of a query is the listing itself, with the arguments
    the manager holds. *)
Lemma Manager_query_log (m : Manager) (s : state) :
  world (snd (Manager_query m s)) = world s
  /\ exists reads,
       log (snd (Manager_query m s))
       = (log s ++ Call "databases.query" (query_kwargs m) :: reads)%list
       /\ forallb is_read reads = true.
Proof.
  unfold Manager_query, bind, call_databases_query.
  set (s0 := logged (Call "databases.query" (query_kwargs m)) s).
  set (body := drain (load_page (model m)) _).
  assert (Hb : reads_only body).
  { apply reads_drain. intros page. unfold load_page.
    apply reads_bind; [apply reads_lift|]. intros data.
    apply reads_bind; [apply (proj2 reads_load_both)|]. intros properties.
    apply reads_bind; [apply reads_lift|]. intros id. apply reads_lift. }
  destruct (Hb s0) as (Hw & calls & Hl & Hr).
  split; [exact Hw|].
  exists calls. split; [|exact Hr].
  rewrite Hl. unfold s0, logged. cbn [log]. rewrite <- app_assoc. reflexivity.
Qed.

(** ** The payload of an update *)

Lemma key_eqb_refl (k : pykey) : key_eqb k k = true.
Proof. destruct k; simpl; [reflexivity|apply String.eqb_refl]. Qed.

Lemma key_eqb_eq (a b : pykey) : key_eqb a b = true -> a = b.
Proof.
  destruct a, b; simpl; try discriminate; [reflexivity|].
  intros H. apply String.eqb_eq in H. subst. reflexivity.
Qed.

Lemma dict_get_set_same (d : dict) (k : pykey) (v : value) :
  dict_get (dict_set d k v) k = Some v.
Proof.
  induction d as [|[k0 v0] d IH]; simpl.
  - rewrite key_eqb_refl. reflexivity.
  - destruct (key_eqb k k0) eqn:E; simpl; rewrite E; [reflexivity|exact IH].
Qed.

Lemma find_name_absent (ms : list (string * Property)) (n : string) (k : pykey) :
  ~ In n (map (fun kp => remote_name (fst kp) (snd kp)) ms) ->
  key_eqb k (KStr n) = true ->
  find (fun kp => key_eqb k (KStr (remote_name (fst kp) (snd kp)))) ms = None.
Proof.
  intros Hn Hk. apply key_eqb_eq in Hk. subst k.
  induction ms as [|[key define] ms IH]; [reflexivity|].
  cbn [find fst snd map] in *.
  destruct (key_eqb _ _) eqn:E.
  - apply key_eqb_eq in E. inversion E. exfalso. apply Hn. left. congruence.
  - apply IH. intros Hin. apply Hn. right. exact Hin.
Qed.

Lemma find_name_present (ms : list (string * Property)) (key : string)
    (define : Property) :
  NoDup (map (fun kp => remote_name (fst kp) (snd kp)) ms) ->
  In (key, define) ms ->
  find (fun kp => key_eqb (KStr (remote_name key define))
                          (KStr (remote_name (fst kp) (snd kp)))) ms
  = Some (key, define).
Proof.
  induction ms as [|[k p] ms IH]; intros Hnd Hin; [contradiction|].
  cbn [map fst snd] in Hnd. inversion Hnd as [|? ? Hn Hnd']; subst.
  cbn [find fst snd].
  destruct Hin as [E|Hin].
  - inversion E; subst. rewrite key_eqb_refl. reflexivity.
  - destruct (key_eqb _ _) eqn:E.
    + exfalso. apply Hn. apply key_eqb_eq in E. injection E as E'.
      rewrite <- E'.
      change (remote_name key define)
        with ((fun kp => remote_name (fst kp) (snd kp)) (key, define)).
      apply in_map. exact Hin.
    + apply IH; assumption.
Qed.

(** The entries of the dict [__dump_properties] builds with uniqueness
    keys excluded. *)
Lemma dump_members_lookup (cls : ModelClass) (self : instance)
    (ms : list (string * Property)) :
  NoDup (map (fun kp => remote_name (fst kp) (snd kp)) ms) ->
  forall data payload,
    dump_members true (unique_keys cls) self ms data = Ok payload ->
    forall k,
      dict_get payload k =
      match find (fun kp => key_eqb k (KStr (remote_name (fst kp) (snd kp)))) ms with
      | Some (key, define) =>
          if transmitted cls self key define then
            match getattr self key with
            | Ok v => match dump define v with
                      | Ok d => Some d
                      | Raise _ => None
                      end
            | Raise _ => None
            end
          else dict_get data k
      | None => dict_get data k
      end.
Proof.
  induction ms as [|[key define] ms IH]; intros Hnd data payload H k.
  - cbn in H. inversion H. reflexivity.
  - cbn [map fst snd] in Hnd. inversion Hnd as [|? ? Hn Hnd']; subst.
    cbn [dump_members] in H. cbn [find fst snd].
    destruct (key_eqb k (KStr (remote_name key define))) eqn:Ek.
    + pose proof (find_name_absent ms _ k Hn Ek) as Hfind.
      unfold transmitted.
      destruct (is_read_only define); cbn [negb andb] in *.
      { rewrite (IH Hnd' _ _ H k), Hfind. reflexivity. }
      destruct (existsb (String.eqb key) (unique_keys cls)); cbn [negb andb] in *.
      { rewrite (IH Hnd' _ _ H k), Hfind. reflexivity. }
      destruct (getattr self key) as [v|e]; cbn [rbind] in H; [|discriminate].
      destruct (is_none v); cbn [negb] in *.
      { rewrite (IH Hnd' _ _ H k), Hfind. reflexivity. }
      destruct (dump define v) as [d|e]; cbn [rbind] in H; [|discriminate].
      rewrite (IH Hnd' _ _ H k), Hfind.
      apply key_eqb_eq in Ek. subst k. apply dict_get_set_same.
    + destruct (is_read_only define); [exact (IH Hnd' _ _ H k)|].
      cbn [andb] in H.
      destruct (existsb (String.eqb key) (unique_keys cls)); [exact (IH Hnd' _ _ H k)|].
      destruct (getattr self key) as [v|e]; cbn [rbind] in H; [|discriminate].
      destruct (is_none v); cbn [negb] in *; [exact (IH Hnd' _ _ H k)|].
      destruct (dump define v) as [d|e]; cbn [rbind] in H; [|discriminate].
      rewrite (IH Hnd' _ _ H k), (dict_get_set_other _ _ _ _ Ek).
      reflexivity.
Qed.

(** C3. For a record with an identifier, [update] sends to the store the
    dict [__dump_properties] builds with uniqueness keys excluded: no
    member named in [unique_keys] has an entry in it, and its entries are
    exactly the encoded values of the members that are not read-only, not
    uniqueness keys, and whose value is not [None]. *)
Theorem update_sends_no_unique_key (cls : ModelClass) (self : instance)
    (id : value) (s : state) :
  getattr self "id" = Ok id ->
  truthy id = true ->
  NoDup (remote_names cls) ->
  match __dump_properties cls self true with
  | Ok payload =>
      log (snd (update cls self s))
      = (log s ++ [Call "pages.update" [(KStr "page_id", id);
                                        (KStr "properties", VDict payload)]])%list
      /\ (forall key define,
            In (key, define) (members cls) -> In key (unique_keys cls) ->
            dict_get payload (KStr (remote_name key define)) = None)
      /\ (forall k,
            dict_get payload k =
            match member_named cls k with
            | Some (key, define) =>
                if transmitted cls self key define then
                  match getattr self key with
                  | Ok v => match dump define v with
                            | Ok d => Some d
                            | Raise _ => None
                            end
                  | Raise _ => None
                  end
                else None
            | None => None
            end)
  | Raise e => update cls self s = (Raise e, s)
  end.
Proof.
  intros Hid Ht Hnd.
  unfold update, bind, lift. rewrite Hid, Ht.
  destruct (__dump_properties cls self true) as [payload|e] eqn:Hd; [|reflexivity].
  assert (Hall : forall k,
            dict_get payload k =
            match member_named cls k with
            | Some (key, define) =>
                if transmitted cls self key define then
                  match getattr self key with
                  | Ok v => match dump define v with
                            | Ok d => Some d
                            | Raise _ => None
                            end
                  | Raise _ => None
                  end
                else None
            | None => None
            end).
  { intros k. unfold __dump_properties in Hd.
    rewrite (dump_members_lookup cls self (members cls) Hnd [] payload Hd k).
    unfold member_named. reflexivity. }
  split; [|split].
  - unfold call_pages_update, mutate.
    destruct (pages_update client (world s) _) as [[r|e] w]; reflexivity.
  - intros key define Hin Huk. rewrite Hall. unfold member_named.
    rewrite (find_name_present (members cls) key define Hnd Hin).
    unfold transmitted.
    assert (existsb (String.eqb key) (unique_keys cls) = true) as ->.
    { apply existsb_exists. exists key. split; [exact Huk|apply String.eqb_refl]. }
    rewrite andb_false_r. reflexivity.
  - exact Hall.
Qed.

(** ** Saving with uniqueness keys *)

Lemma base_filter_truthy (p : Property) (v : value) :
  truthy (base_filter_value p v) = true.
Proof.
  unfold base_filter_value. cbn [dict_set].
  destruct (key_eqb (format p) (KStr "property")); reflexivity.
Qed.

Lemma unique_filter_truthy (cls : ModelClass) (self : instance) (f : value) :
  unique_filter cls self = Ok f -> truthy f = true.
Proof.
  unfold unique_filter.
  assert (Hk : forall key, key_filter cls self key = Ok f -> truthy f = true).
  { intros key. unfold key_filter, filter_value.
    intros H. apply rbind_ok in H. destruct H as (define & _ & H).
    apply rbind_ok in H. destruct H as (v & _ & H).
    destruct define; try (inversion H; apply base_filter_truthy).
    apply rbind_ok in H. destruct H as (x & _ & H).
    apply rbind_ok in H. destruct H as (t & _ & H).
    inversion H. apply base_filter_truthy. }
  assert (Hand : forall keys,
             (l <- rmap (key_filter cls self) keys ;;
              Ok (VDict [(KStr "and", VList l)])) = Ok f -> truthy f = true).
  { intros keys H. apply rbind_ok in H. destruct H as (l & _ & H).
    inversion H. reflexivity. }
  destruct (unique_keys cls) as [|k [|k' ks]].
  - apply Hand.
  - apply Hk.
  - apply Hand.
Qed.

Lemma query_kwargs_filter (cls : ModelClass) (f : value) :
  truthy f = true ->
  query_kwargs (Manager_filter (objects cls) f)
  = [(KStr "database_id", database_id cls); (KStr "filter", f)].
Proof.
  intros H. unfold query_kwargs. cbn [Manager_filter objects Manager_init
    query_filter query_order_by model truthy]. rewrite H. reflexivity.
Qed.

Lemma key_filter_equality (cls : ModelClass) (self : instance) (key : string)
    (f : value) :
  key_filter cls self key = Ok f -> key_equality cls self key f.
Proof.
  unfold key_filter, key_equality. intros H.
  apply rbind_ok in H. destruct H as (define & Hd & H).
  apply rbind_ok in H. destruct H as (v & Hv & H).
  destruct (find_member (members cls) key) as [define'|]; [|discriminate Hd].
  inversion Hd; subst define'; clear Hd.
  exists define, v.
  assert (Hop : exists operand, filter_operand define v = Ok operand
                                /\ f = base_filter_value define operand).
  { destruct define; cbn [filter_value filter_operand] in *;
      try (inversion H; subst; eexists; split; reflexivity).
    apply rbind_ok in H. destruct H as (x & Hx & H).
    apply rbind_ok in H. destruct H as (t & Ht & H).
    inversion H; subst. exists t. rewrite Hx. cbn [rbind]. rewrite Ht.
    split; reflexivity. }
  destruct Hop as (operand & Hop & ->). exists operand.
  repeat split; try assumption; reflexivity.
Qed.

Lemma rmap_Forall2 {A B} (f : A -> result B) (l : list A) (l' : list B) :
  rmap f l = Ok l' -> Forall2 (fun x y => f x = Ok y) l l'.
Proof.
  revert l'. induction l as [|a l IH]; intros l' H.
  - inversion H. constructor.
  - cbn [rmap] in H. apply rbind_ok in H. destruct H as (b & Hb & H).
    apply rbind_ok in H. destruct H as (bs & Hbs & H).
    inversion H; subst. constructor; [exact Hb|exact (IH _ Hbs)].
Qed.

(** The filter [save] and [upsert] build is the equality filter on the
    uniqueness keys. *)
Lemma unique_filter_equality (cls : ModelClass) (self : instance) (f : value) :
  unique_filter cls self = Ok f -> is_uniqueness_filter cls self f.
Proof.
  unfold unique_filter, is_uniqueness_filter.
  assert (Hmany : forall keys,
             (l <- rmap (key_filter cls self) keys ;;
              Ok (VDict [(KStr "and", VList l)])) = Ok f ->
             exists fs, f = VDict [(KStr "and", VList fs)]
                        /\ Forall2 (key_equality cls self) keys fs).
  { intros keys H. apply rbind_ok in H. destruct H as (l & Hl & H).
    inversion H; subst. exists l. split; [reflexivity|].
    apply rmap_Forall2 in Hl. clear H.
    induction Hl as [|k x keys l Hk Hl IH]; [constructor|].
    constructor; [exact (key_filter_equality _ _ _ _ Hk)|exact IH]. }
  destruct (unique_keys cls) as [|k [|k' ks]].
  - apply Hmany.
  - apply key_filter_equality.
  - apply Hmany.
Qed.

(** C1. For a record without an identifier whose type declares uniqueness
    keys, [save] first queries the collection with the uniqueness filter,
    which is the equality filter on the uniqueness keys with the values of
    the record; when the query returns at least one record it raises
    [IntegrityError] having issued reads only, hence no create; when it
    returns none it issues the create, and the record then carries the
    identifier of the response. *)
Theorem save_enforces_uniqueness (cls : ModelClass) (self : instance)
    (id : value) (s : state) :
  getattr self "id" = Ok id ->
  truthy id = false ->
  unique_keys cls <> [] ->
  match unique_filter cls self with
  | Raise e => save cls self s = (Raise e, s)
  | Ok filter =>
      let q := Manager_query (Manager_filter (objects cls) filter) s in
      let s1 := snd q in
      is_uniqueness_filter cls self filter
      /\ world s1 = world s
      /\ (exists reads,
            log s1 = (log s ++ Call "databases.query"
                                 [(KStr "database_id", database_id cls);
                                  (KStr "filter", filter)] :: reads)%list
            /\ forallb is_read reads = true)
      /\ match fst q with
         | Raise e => save cls self s = (Raise e, s1)
         | Ok (_ :: _) =>
             save cls self s = (Raise (IntegrityError "Unique constraint failed."), s1)
         | Ok [] =>
             match __dump_properties cls self false with
             | Raise e => save cls self s = (Raise e, s1)
             | Ok properties =>
                 let created :=
                   pages_create client (world s1) (create_kwargs cls properties) in
                 let s2 :=
                   mkstate (snd created)
                     (log s1 ++ [Call "pages.create" (create_kwargs cls properties)]) in
                 match fst created with
                 | Raise e => save cls self s = (Raise e, s2)
                 | Ok response =>
                     match getitem response "id" with
                     | Raise e => save cls self s = (Raise e, s2)
                     | Ok rid =>
                         save cls self s = (Ok (setattr self "id" rid), s2)
                         /\ getattr (setattr self "id" rid) "id" = Ok rid
                     end
                 end
             end
         end
  end.
Proof.
  intros Hid Hfalsy Huk.
  unfold save, bind, lift. rewrite Hid, Hfalsy.
  destruct (unique_keys cls) as [|k ks] eqn:Ek; [congruence|].
  destruct (unique_filter cls self) as [filter|e] eqn:Hf; [|reflexivity].
  cbv zeta.
  pose proof (Manager_query_log (Manager_filter (objects cls) filter) s) as [Hw Hl].
  rewrite (query_kwargs_filter cls filter (unique_filter_truthy _ _ _ Hf)) in Hl.
  split; [exact (unique_filter_equality _ _ _ Hf)|].
  split; [exact Hw|]. split; [exact Hl|].
  destruct (Manager_query (Manager_filter (objects cls) filter) s) as [[objs|e] s1].
  2:{ reflexivity. }
  cbn [fst snd] in *.
  destruct objs as [|obj objs]; [|reflexivity].
  cbn [List.length Nat.ltb Nat.leb ret].
  destruct (__dump_properties cls self false) as [properties|e]; [|reflexivity].
  unfold call_pages_create, mutate. fold (create_kwargs cls properties).
  destruct (pages_create client (world s1) (create_kwargs cls properties))
    as [[response|e] w]; cbn [fst snd]; [|reflexivity].
  destruct (getitem response "id") as [rid|e]; [|reflexivity].
  split; [reflexivity|].
  unfold getattr, setattr. rewrite dict_get_set_same. reflexivity.
Qed.

(** C2, as the code has it. With no uniqueness key declared [upsert] is
    [save]. Otherwise it queries with the uniqueness filter, which only
    reads the store: with no match it goes on as [save], with exactly one
    match it takes the identifier of that record and goes on as [update],
    with two or more it raises the [ValueError] of an ambiguous target and
    issues nothing else. *)
Theorem upsert_by_matches (cls : ModelClass) (self : instance) (s : state) :
  match unique_keys cls with
  | [] => upsert cls self s = save cls self s
  | _ :: _ =>
      match unique_filter cls self with
      | Raise e => upsert cls self s = (Raise e, s)
      | Ok filter =>
          let q := Manager_query (Manager_filter (objects cls) filter) s in
          let s1 := snd q in
          world s1 = world s
          /\ (exists reads, log s1 = (log s ++ reads)%list
                            /\ forallb is_read reads = true)
          /\ match fst q with
             | Raise e => upsert cls self s = (Raise e, s1)
             | Ok [] => upsert cls self s = save cls self s1
             | Ok [obj] =>
                 match getattr obj "id" with
                 | Ok oid => upsert cls self s = update cls (setattr self "id" oid) s1
                 | Raise e => upsert cls self s = (Raise e, s1)
                 end
             | Ok (_ :: _ :: _) =>
                 upsert cls self s
                 = (Raise (ValueError
                      "There are more than one object that meets the filtering criteria."),
                    s1)
             end
      end
  end.
Proof.
  unfold upsert.
  destruct (unique_keys cls) as [|k ks]; [reflexivity|].
  unfold bind, lift, raise.
  destruct (unique_filter cls self) as [filter|e]; [|reflexivity].
  cbv zeta.
  destruct (reads_Manager_query (Manager_filter (objects cls) filter) s) as [Hw Hl].
  split; [exact Hw|]. split; [exact Hl|].
  destruct (Manager_query (Manager_filter (objects cls) filter) s) as [[objs|e] s1];
    cbn [fst snd]; [|reflexivity].
  destruct objs as [|obj [|obj' objs]]; try reflexivity.
  destruct (getattr obj "id"); reflexivity.
Qed.

(** ** Printing and parsing dates *)

Ltac digit_cases k :=
  let H := fresh "H" in
  assert (H : k = 0 \/ k = 1 \/ k = 2 \/ k = 3 \/ k = 4 \/ k = 5 \/ k = 6
              \/ k = 7 \/ k = 8 \/ k = 9) by lia;
  repeat (destruct H as [H|H]; [subst k|]); [..|subst k].

Lemma is_digit_digit_char (k : Z) : 0 <= k <= 9 -> is_digit (digit_char k) = true.
Proof. intros Hk. digit_cases k; reflexivity. Qed.

Lemma digit_val_digit_char (k : Z) : 0 <= k <= 9 -> digit_val (digit_char k) = k.
Proof. intros Hk. digit_cases k; reflexivity. Qed.

Lemma skip_spaces_digit (k : Z) (s : string) :
  0 <= k <= 9 -> skip_spaces (String (digit_char k) s) = String (digit_char k) s.
Proof. intros Hk. digit_cases k; reflexivity. Qed.

Lemma py_int_text4 (a b c d : Z) :
  0 <= a <= 9 -> 0 <= b <= 9 -> 0 <= c <= 9 -> 0 <= d <= 9 ->
  py_int (text4 a b c d) = Some (1000 * a + 100 * b + 10 * c + d).
Proof.
  intros Ha Hb Hc Hd. unfold py_int, text4.
  rewrite skip_spaces_digit by exact Ha.
  cbn [digits_val].
  rewrite !is_digit_digit_char, !digit_val_digit_char by assumption.
  f_equal. lia.
Qed.

Lemma py_int_pad2 (n : Z) : 0 <= n <= 99 -> py_int (pad2 n) = Some n.
Proof.
  intros Hn. unfold py_int, pad2.
  assert (0 <= n / 10 <= 9) by (Z.div_mod_to_equations; lia).
  assert (0 <= n mod 10 <= 9) by (Z.div_mod_to_equations; lia).
  rewrite skip_spaces_digit by assumption.
  cbn [digits_val].
  rewrite !is_digit_digit_char, !digit_val_digit_char by assumption.
  f_equal. Z.div_mod_to_equations. lia.
Qed.

Lemma dec_four_digits (y : Z) :
  1000 <= y <= 9999 ->
  dec y = text4 (y / 1000) (y / 100 mod 10) (y / 10 mod 10) (y mod 10).
Proof.
  intros Hy. unfold dec.
  assert (Hlog : 9 <= Z.log2 y).
  { apply Z.log2_le_pow2; lia. }
  destruct (Z.to_nat (Z.log2 y)) as [|[|[|f]]] eqn:Ef; try lia.
  cbn [dec_fuel].
  assert (E1 : (y <? 10) = false) by lia.
  assert (E2 : (y / 10 <? 10) = false) by (apply Z.ltb_ge; Z.div_mod_to_equations; lia).
  assert (E3 : (y / 10 / 10 <? 10) = false) by (apply Z.ltb_ge; Z.div_mod_to_equations; lia).
  assert (E4 : (y / 10 / 10 / 10 <? 10) = true) by (apply Z.ltb_lt; Z.div_mod_to_equations; lia).
  rewrite E1, E2, E3, E4. cbn [append]. unfold text4.
  replace (y / 10 / 10 / 10) with (y / 1000) by (Z.div_mod_to_equations; lia).
  replace (y / 10 / 10) with (y / 100) by (Z.div_mod_to_equations; lia).
  reflexivity.
Qed.

Lemma substring_prefix (p rest : string) :
  substring 0 (String.length p) (p ++ rest) = p.
Proof.
  induction p as [|c p IH]; cbn [String.length append substring].
  - destruct rest; reflexivity.
  - rewrite IH. reflexivity.
Qed.

Lemma append_length (p rest : string) :
  String.length (p ++ rest) = (String.length p + String.length rest)%nat.
Proof. induction p as [|c p IH]; cbn; [reflexivity|rewrite IH; reflexivity]. Qed.

Lemma consumed_app (p rest : string) : consumed (p ++ rest) rest = p.
Proof.
  unfold consumed. rewrite append_length.
  replace (String.length p + String.length rest - String.length rest)%nat
    with (String.length p) by lia.
  apply substring_prefix.
Qed.

Lemma consumed2 (c1 c2 : ascii) (rest : string) :
  consumed (String c1 (String c2 rest)) rest = String c1 (String c2 "").
Proof. exact (consumed_app (String c1 (String c2 "")) rest). Qed.

Lemma rmatch_Y (a b c d : Z) (rest : string) (g : groups)
    (k : string -> groups -> option (string * groups)) :
  0 <= a <= 9 -> 0 <= b <= 9 -> 0 <= c <= 9 -> 0 <= d <= 9 ->
  rmatch re_Y (text4 a b c d ++ rest) g k = k rest (("Y", text4 a b c d) :: g).
Proof.
  intros Ha Hb Hc Hd.
  pose proof (consumed_app (text4 a b c d) rest) as Hcons.
  unfold text4 in *. cbn [append] in *.
  unfold re_Y, digit. cbn [rmatch].
  rewrite !is_digit_digit_char by assumption.
  rewrite Hcons. reflexivity.
Qed.

Ltac enum n lo hi :=
  let last := eval compute in (lo =? hi) in
  match last with
  | true => assert (n = lo) by lia; subst n
  | false => destruct (Z.eq_dec n lo) as [->|?];
             [ | let lo' := eval compute in (lo + 1) in enum n lo' hi ]
  end.

Ltac eval_pad2 :=
  repeat match goal with
  | |- context [pad2 ?n] =>
      let v := eval vm_compute in (pad2 n) in change (pad2 n) with v in *
  end.

Ltac field_case Hk :=
  eval_pad2; cbn [append]; cbv -[consumed]; rewrite ?consumed2;
  cbv -[consumed] in Hk; rewrite Hk; reflexivity.

Lemma rmatch_m (n : Z) (rest : string) (g : groups)
    (k : string -> groups -> option (string * groups)) (x : string * groups) :
  1 <= n <= 12 ->
  k rest (("m", pad2 n) :: g) = Some x ->
  rmatch re_m (pad2 n ++ rest) g k = Some x.
Proof.
  intros Hn Hk. enum n 1 12; field_case Hk.
Qed.

Lemma rmatch_d (n : Z) (rest : string) (g : groups)
    (k : string -> groups -> option (string * groups)) (x : string * groups) :
  1 <= n <= 31 ->
  k rest (("d", pad2 n) :: g) = Some x ->
  rmatch re_d (pad2 n ++ rest) g k = Some x.
Proof.
  intros Hn Hk. enum n 1 31; field_case Hk.
Qed.

Lemma rmatch_H (n : Z) (rest : string) (g : groups)
    (k : string -> groups -> option (string * groups)) (x : string * groups) :
  0 <= n <= 23 ->
  k rest (("H", pad2 n) :: g) = Some x ->
  rmatch re_H (pad2 n ++ rest) g k = Some x.
Proof.
  intros Hn Hk. enum n 0 23; field_case Hk.
Qed.

Lemma rmatch_M (n : Z) (rest : string) (g : groups)
    (k : string -> groups -> option (string * groups)) (x : string * groups) :
  0 <= n <= 59 ->
  k rest (("M", pad2 n) :: g) = Some x ->
  rmatch re_M (pad2 n ++ rest) g k = Some x.
Proof.
  intros Hn Hk. enum n 0 59; field_case Hk.
Qed.

Lemma rmatch_S (n : Z) (rest : string) (g : groups)
    (k : string -> groups -> option (string * groups)) (x : string * groups) :
  0 <= n <= 59 ->
  k rest (("S", pad2 n) :: g) = Some x ->
  rmatch re_S (pad2 n ++ rest) g k = Some x.
Proof.
  intros Hn Hk. enum n 0 59; field_case Hk.
Qed.

Lemma rmatch_ch (c : ascii) (rest : string) (g : groups)
    (k : string -> groups -> option (string * groups)) :
  rmatch (ch c) (String c rest) g k = k rest g.
Proof. unfold ch. cbn [rmatch]. rewrite Ascii.eqb_refl. reflexivity. Qed.

Lemma append_empty_r (s : string) : s ++ "" = s.
Proof. induction s as [|c s IH]; cbn; [reflexivity|rewrite IH; reflexivity]. Qed.

Lemma append_assoc' (a b c : string) : (a ++ b) ++ c = a ++ (b ++ c).
Proof. induction a as [|x a IH]; cbn; [reflexivity|rewrite IH; reflexivity]. Qed.

Lemma year_digits (y : Z) :
  1000 <= y <= 9999 ->
  0 <= y / 1000 <= 9 /\ 0 <= y / 100 mod 10 <= 9
  /\ 0 <= y / 10 mod 10 <= 9 /\ 0 <= y mod 10 <= 9.
Proof. intros H. repeat split; Z.div_mod_to_equations; lia. Qed.

Lemma py_int_year_text (y : Z) : 1000 <= y <= 9999 -> py_int (year_text y) = Some y.
Proof.
  intros Hy. destruct (year_digits y Hy) as (H1 & H2 & H3 & H4).
  unfold year_text. rewrite py_int_text4 by assumption.
  f_equal. Z.div_mod_to_equations. lia.
Qed.

Lemma DAYS_IN_MONTH_le (m : Z) : DAYS_IN_MONTH m <= 31.
Proof.
  unfold DAYS_IN_MONTH.
  repeat match goal with
  | |- context [match ?x with _ => _ end] => destruct x
  end; lia.
Qed.

Lemma valid_date_bounds (d : date) :
  valid_date d = true ->
  1 <= year d <= 9999 /\ 1 <= month d <= 12 /\ 1 <= day d <= 31.
Proof.
  unfold valid_date, MINYEAR, MAXYEAR, days_in_month. intros H.
  repeat (apply andb_true_iff in H; destruct H as [H ?]).
  repeat match goal with
  | K : (_ <=? _) = true |- _ => apply Z.leb_le in K
  end.
  pose proof (DAYS_IN_MONTH_le (month d)) as Hdim.
  assert (Hday : day d <= 31).
  { destruct ((month d =? 2) && is_leap (year d)).
    - eapply Z.le_trans; [eassumption|]. discriminate.
    - eapply Z.le_trans; eassumption. }
  repeat split; assumption.
Qed.

Lemma strftime_date_text (d : date) :
  1000 <= year d <= 9999 ->
  strftime_date d
  = year_text (year d) ++ "-" ++ pad2 (month d) ++ "-" ++ pad2 (day d).
Proof.
  intros Hy. unfold strftime_date. rewrite dec_four_digits by exact Hy. reflexivity.
Qed.

(** The date part of a format matches the text [strftime] prints. *)
Lemma rmatch_date (d : date) (rest : string) (g : groups)
    (k : string -> groups -> option (string * groups)) (x : string * groups) :
  valid_date d = true -> 1000 <= year d ->
  k rest (date_groups d g) = Some x ->
  rmatch re_date (strftime_date d ++ rest) g k = Some x.
Proof.
  intros Hv Hy Hk.
  destruct (valid_date_bounds d Hv) as (Hyr & Hm & Hd).
  rewrite strftime_date_text by lia.
  destruct (year_digits (year d)) as (H1 & H2 & H3 & H4); [lia|].
  rewrite !append_assoc'. unfold re_date. cbn [rmatch].
  unfold year_text. rewrite rmatch_Y by assumption.
  cbn [append]. rewrite rmatch_ch.
  apply rmatch_m; [exact Hm|].
  cbn [append]. rewrite rmatch_ch.
  apply rmatch_d; [exact Hd|].
  exact Hk.
Qed.

Lemma strptime_date_strftime (d : date) :
  valid_date d = true -> 1000 <= year d ->
  strptime_date (strftime_date d) = Some d.
Proof.
  intros Hv Hy.
  destruct (valid_date_bounds d Hv) as (Hyr & Hm & Hd).
  unfold strptime_date, full_match.
  rewrite <- (append_empty_r (strftime_date d)).
  rewrite (rmatch_date d "" [] _ ("", date_groups d []) Hv Hy eq_refl).
  unfold date_of_groups, date_groups, group_int. cbn [group_get String.eqb Ascii.eqb Bool.eqb].
  rewrite py_int_year_text, !py_int_pad2 by lia.
  destruct d as [y m dd]. cbn [year month day] in *. rewrite Hv. reflexivity.
Qed.

(** The text of a bare date does not parse as a datetime. *)
Lemma datetime_rejects_date_text (yt : string) (m dd : Z) :
  1 <= m <= 12 -> 1 <= dd <= 31 ->
  match rmatch (Cat (ch "-") (Cat re_m (Cat (ch "-") re_d)))
               ("-" ++ pad2 m ++ "-" ++ pad2 dd) [("Y", yt)]
               (fun s' g' =>
                  rmatch (Cat lit_T (Cat re_H (Cat (ch ":") (Cat re_M (Cat (ch ":")
                            (Cat re_S (Cat (ch ".") (Cat re_f re_z))))))))
                         s' g' (fun s'' g'' => Some (s'', g''))) with
  | Some (EmptyString, g) => Some g
  | _ => None
  end = None.
Proof.
  intros Hm Hd. enum m 1 12; enum dd 1 31; vm_compute; reflexivity.
Qed.

Lemma strptime_datetime_date_text (d : date) :
  valid_date d = true -> 1000 <= year d ->
  strptime_datetime (strftime_date d) = None.
Proof.
  intros Hv Hy.
  destruct (valid_date_bounds d Hv) as (Hyr & Hm & Hd).
  destruct (year_digits (year d)) as (H1 & H2 & H3 & H4); [lia|].
  unfold strptime_datetime, full_match.
  rewrite strftime_date_text by lia.
  unfold re_datetime, re_date. cbn [rmatch].
  unfold year_text. rewrite rmatch_Y by assumption.
  pose proof (datetime_rejects_date_text
                (text4 (year d / 1000) (year d / 100 mod 10) (year d / 10 mod 10)
                       (year d mod 10)) (month d) (day d) Hm Hd) as H.
  cbn [rmatch] in H. rewrite H. reflexivity.
Qed.

Lemma In_Zrange (lo x : Z) (n : nat) :
  lo <= x < lo + Z.of_nat n -> In x (Zrange lo n).
Proof.
  intros H. unfold Zrange. apply in_map_iff.
  exists (Z.to_nat (x - lo)). split; [lia|].
  apply in_seq. lia.
Qed.

Lemma gmtoff_z_text (negative : bool) (h m : Z) :
  0 <= h <= 23 -> 0 <= m <= 59 ->
  gmtoff_us (z_text negative h m)
  = Some ((if negative then -1 else 1) * ((h * 3600 + m * 60) * US_PER_SECOND)).
Proof.
  intros Hh Hm.
  assert (Hall : forallb (fun neg => forallb (fun h => forallb (fun m =>
            match gmtoff_us (z_text neg h m) with
            | Some o => o =? (if neg then -1 else 1) * ((h * 3600 + m * 60) * US_PER_SECOND)
            | None => false
            end) (Zrange 0 60)) (Zrange 0 24)) [true; false] = true)
    by (vm_compute; reflexivity).
  rewrite forallb_forall in Hall.
  assert (Hn : In negative [true; false]) by (destruct negative; simpl; auto).
  specialize (Hall negative Hn). rewrite forallb_forall in Hall.
  specialize (Hall h (In_Zrange 0 h 24 ltac:(lia))). rewrite forallb_forall in Hall.
  specialize (Hall m (In_Zrange 0 m 60 ltac:(lia))).
  destruct (gmtoff_us (z_text negative h m)) as [o|]; [|discriminate].
  apply Z.eqb_eq in Hall. subst o. reflexivity.
Qed.

Lemma strftime_z_whole_minutes (off : Z) :
  off mod (60 * US_PER_SECOND) = 0 ->
  strftime_z (Some off)
  = z_text (off <? 0) (Z.abs off / US_PER_SECOND / 3600)
           (Z.abs off / US_PER_SECOND / 60 mod 60).
Proof.
  intros H. unfold strftime_z, z_text, US_PER_SECOND in *.
  assert (E1 : (Z.abs off mod 1000000 =? 0) = true)
    by (apply Z.eqb_eq; Z.div_mod_to_equations; lia).
  assert (E2 : (Z.abs off / 1000000 mod 60 =? 0) = true)
    by (apply Z.eqb_eq; Z.div_mod_to_equations; lia).
  rewrite E1, E2. rewrite append_empty_r. reflexivity.
Qed.

Lemma colon_not_digit (k : Z) : 0 <= k <= 9 -> Ascii.eqb ":" (digit_char k) = false.
Proof. intros Hk. digit_cases k; reflexivity. Qed.

Lemma in_range_0_5 (k : Z) : 0 <= k <= 5 -> in_range "0" "5" (digit_char k) = true.
Proof. intros Hk. enum k 0 5; reflexivity. Qed.

(** The end of the format: [%z] on the text of a whole-minute offset. *)
Lemma rmatch_z (negative : bool) (h m : Z) (g : groups) :
  0 <= h <= 99 -> 0 <= m <= 59 ->
  rmatch re_z (z_text negative h m) g (fun s' g' => Some (s', g'))
  = Some ("", ("z", z_text negative h m) :: g).
Proof.
  intros Hh Hm. unfold z_text, pad2.
  assert (0 <= h / 10 <= 9) by (Z.div_mod_to_equations; lia).
  assert (0 <= h mod 10 <= 9) by (Z.div_mod_to_equations; lia).
  assert (0 <= m / 10 <= 5) by (Z.div_mod_to_equations; lia).
  assert (0 <= m mod 10 <= 9) by (Z.div_mod_to_equations; lia).
  generalize dependent (h / 10). generalize dependent (h mod 10).
  generalize dependent (m / 10). generalize dependent (m mod 10).
  intros m0 Hm0 m1 Hm1 h0 Hh0 h1 Hh1.
  unfold re_z, sign, digit, Opt, rng, ch.
  destruct negative; cbn [append rmatch];
    [change (Ascii.eqb "-" "+") with false|];
    rewrite ?Ascii.eqb_refl; cbn [orb];
    repeat (cbv beta iota; cbn [rmatch];
            first [ rewrite is_digit_digit_char by lia
                  | rewrite colon_not_digit by lia
                  | rewrite in_range_0_5 by lia ]);
    cbv beta iota; reflexivity.
Qed.

Lemma consumed3 (c1 c2 c3 : ascii) (rest : string) :
  consumed (String c1 (String c2 (String c3 rest))) rest
  = String c1 (String c2 (String c3 "")).
Proof. exact (consumed_app (String c1 (String c2 (String c3 ""))) rest). Qed.

(** [%f] on the three zeros [strftime] prints before the offset. *)
Lemma rmatch_f_zeros (negative : bool) (rest : string) (g : groups)
    (k : string -> groups -> option (string * groups)) (x : string * groups) :
  k ((if negative then "-" else "+") ++ rest) (("f", "000") :: g) = Some x ->
  rmatch re_f ("000" ++ (if negative then "-" else "+") ++ rest) g k = Some x.
Proof.
  intros Hk.
  destruct negative; cbn [append] in *; cbv -[consumed]; rewrite ?consumed3;
    cbv -[consumed] in Hk; rewrite Hk; reflexivity.
Qed.

Lemma offset_recompose (off : Z) :
  off mod (60 * US_PER_SECOND) = 0 ->
  (if off <? 0 then -1 else 1)
  * ((Z.abs off / US_PER_SECOND / 3600 * 3600
      + Z.abs off / US_PER_SECOND / 60 mod 60 * 60) * US_PER_SECOND) = off.
Proof.
  unfold US_PER_SECOND. intros H.
  destruct (off <? 0) eqn:E; [apply Z.ltb_lt in E|apply Z.ltb_ge in E];
    Z.div_mod_to_equations; lia.
Qed.

Lemma rmatch_f_zeros' (negative : bool) (rest : string) (g : groups)
    (k : string -> groups -> option (string * groups)) (x : string * groups) :
  k ((if negative then "-" else "+") ++ rest) (("f", "000") :: g) = Some x ->
  rmatch re_f (String "0" (String "0" (String "0"
                 ((if negative then "-" else "+") ++ rest)))) g k = Some x.
Proof. exact (rmatch_f_zeros negative rest g k x). Qed.

Lemma astimezone_as_parsed (t : datetime) :
  astimezone (as_parsed t) = astimezone t.
Proof. reflexivity. Qed.

Lemma strptime_datetime_strftime (t : datetime) :
  whole_second_aware t = true ->
  strptime_datetime (strftime_datetime t) = Some (as_parsed t).
Proof.
  unfold whole_second_aware. intros H.
  destruct t as [d h mi sec us [off|]]; cbn [dt_date hour minute second microsecond utcoffset] in H;
    [|rewrite andb_false_r in H; discriminate].
  remember (valid_date d) as vd eqn:Evd.
  repeat match goal with
  | K : (_ && _) = true |- _ => apply andb_true_iff in K; destruct K
  end.
  subst vd.
  repeat match goal with
  | K : (_ <=? _) = true |- _ => apply Z.leb_le in K
  | K : (_ =? _) = true |- _ => apply Z.eqb_eq in K
  end.
  subst us.
  match goal with K : valid_date d = true |- _ => rename K into H end.
  destruct (valid_date_bounds d H) as (Hyr & Hm & Hd).
  assert (Hhh : 0 <= Z.abs off / US_PER_SECOND / 3600 <= 23).
  { unfold MAX_OFFSET_US, US_PER_DAY, US_PER_SECOND in *. Z.div_mod_to_equations. lia. }
  assert (Hmm : 0 <= Z.abs off / US_PER_SECOND / 60 mod 60 <= 59).
  { unfold US_PER_SECOND. Z.div_mod_to_equations. lia. }
  set (hh := Z.abs off / US_PER_SECOND / 3600) in *.
  set (mm := Z.abs off / US_PER_SECOND / 60 mod 60) in *.
  set (G := ("z", z_text (off <? 0) hh mm) :: ("f", "000") :: ("S", pad2 sec)
            :: ("M", pad2 mi) :: ("H", pad2 h) :: date_groups d []).
  unfold strptime_datetime, full_match, strftime_datetime.
  cbn [dt_date hour minute second microsecond utcoffset].
  rewrite strftime_z_whole_minutes by assumption. fold hh mm.
  unfold re_datetime. cbn [rmatch].
  rewrite (rmatch_date d _ [] _ ("", G)); try assumption.
  2:{ cbn [append]. unfold lit_T. cbn [rmatch].
      rewrite Ascii.eqb_refl. cbn [orb].
      apply rmatch_H; [lia|]. cbn [append]. rewrite rmatch_ch.
      apply rmatch_M; [lia|]. cbn [append]. rewrite rmatch_ch.
      apply rmatch_S; [lia|]. cbn [append]. rewrite rmatch_ch.
      unfold z_text at 1. apply rmatch_f_zeros'.
      fold (z_text (off <? 0) hh mm).
      rewrite rmatch_z by lia. reflexivity. }
  unfold G, date_of_groups, date_groups, group_int.
  cbn [group_get String.eqb Ascii.eqb Bool.eqb].
  rewrite py_int_year_text, !py_int_pad2 by lia.
  assert (Hd' : mkdate (year d) (month d) (day d) = d) by (destruct d; reflexivity).
  rewrite Hd', H.
  rewrite gmtoff_z_text by assumption.
  unfold hh, mm. rewrite offset_recompose by assumption.
  change (fraction_us "000") with (Some 0).
  assert (Hc : (sec <=? 59) && (- MAX_OFFSET_US <=? off) && (off <=? MAX_OFFSET_US) = true).
  { rewrite !andb_true_iff. repeat split; apply Z.leb_le; assumption. }
  rewrite Hc. reflexivity.
Qed.

(** ** Encoding, then decoding *)

Lemma rmap_getitem (k : string) (l : list value) :
  rmap (fun x => getitem x k) (map (fun item => VDict [(KStr k, item)]) l) = Ok l.
Proof.
  induction l as [|x l IH]; [reflexivity|].
  cbn [map rmap]. unfold getitem at 1. cbn [dict_get key_eqb].
  rewrite String.eqb_refl. cbn [rbind]. rewrite IH. reflexivity.
Qed.

Lemma round_trip_multi_select (n : option string) (l : list value) :
  round_trip (MultiSelectProperty n) (VList l) = Ok (VList l).
Proof.
  unfold round_trip, dump, dump_value, _convert_data.
  cbn [py_iter rbind format convert_rec py_in dict_has dict_get key_eqb String.eqb
       Ascii.eqb Bool.eqb getitem].
  rewrite rmap_getitem. reflexivity.
Qed.

Lemma round_trip_relation (related : ModelClass) (n : option string) (l : list value) :
  round_trip (RelationProperty related n) (VList l) = Ok (VList l).
Proof.
  unfold round_trip, dump, dump_value, _convert_data.
  cbn [py_iter rbind format convert_rec py_in dict_has dict_get key_eqb String.eqb
       Ascii.eqb Bool.eqb getitem].
  rewrite rmap_getitem. reflexivity.
Qed.

Lemma round_trip_text_fails (x : value) (n : option string) :
  round_trip (TitleProperty n) x = Raise (KeyError "plain_text")
  /\ round_trip (RichTextProperty n) x = Raise (KeyError "plain_text").
Proof. split; reflexivity. Qed.

(** A single date or datetime is encoded without the key [end], which
    decoding reads: the round trip raises. *)
Lemma round_trip_single_date_fails (n : option string) (x : value) :
  (exists t, x = VDateTime t) \/ (exists y, x = VList [y]) ->
  exists e, round_trip (DateProperty n) x = Raise e.
Proof.
  assert (H : forall s, exists e,
             _convert_data (VDict [(KStr "date", VDict [(KStr "start", s)])]) = Raise e).
  { intros s. unfold _convert_data.
    cbn [convert_rec py_in dict_has dict_get key_eqb String.eqb Ascii.eqb Bool.eqb
         rbind getitem truthy].
    destruct (_str_to_datetime s); cbn [rbind]; eexists; reflexivity. }
  unfold round_trip, dump, dump_value.
  intros [[t ->]|[y ->]].
  - cbn [date_text rbind format]. apply H.
  - destruct y; cbn [index0 date_text List.length Nat.ltb Nat.leb rbind format];
      try (eexists; reflexivity); apply H.
Qed.

Lemma strftime_date_truthy (d : date) :
  1000 <= year d <= 9999 -> truthy (VStr (strftime_date d)) = true.
Proof. intros H. rewrite strftime_date_text by exact H. reflexivity. Qed.

Lemma str_to_datetime_date_text (d : date) :
  valid_date d = true -> 1000 <= year d ->
  _str_to_datetime (VStr (strftime_date d)) = Ok (VDate d).
Proof.
  intros Hv Hy. rewrite str_to_datetime_cases.
  rewrite strptime_datetime_date_text, strptime_date_strftime by assumption.
  reflexivity.
Qed.

Lemma str_to_datetime_datetime_text (t t' : datetime) :
  whole_second_aware t = true -> astimezone t = Ok t' ->
  _str_to_datetime (VStr (strftime_datetime t)) = Ok (VDateTime t').
Proof.
  intros Hw Ha. rewrite str_to_datetime_cases.
  rewrite strptime_datetime_strftime by assumption.
  rewrite astimezone_as_parsed, Ha. reflexivity.
Qed.

Lemma convert_date_range (s e : string) (x y : value) :
  truthy (VStr e) = true ->
  _str_to_datetime (VStr s) = Ok x -> _str_to_datetime (VStr e) = Ok y ->
  _convert_data (VDict [(KStr "date",
                         VDict [(KStr "start", VStr s); (KStr "end", VStr e)])])
  = Ok (VList [x; y]).
Proof.
  intros Ht Hs He. unfold _convert_data.
  cbn [convert_rec py_in dict_has dict_get key_eqb String.eqb Ascii.eqb Bool.eqb
       rbind getitem].
  change (truthy (VDict [(KStr "start", VStr s); (KStr "end", VStr e)])) with true.
  cbv iota. rewrite Hs. cbn [rbind]. rewrite Ht, He. reflexivity.
Qed.

Lemma round_trip_date_range (n : option string) (d1 d2 : date) :
  valid_date d1 = true -> 1000 <= year d1 ->
  valid_date d2 = true -> 1000 <= year d2 ->
  round_trip (DateProperty n) (VList [VDate d1; VDate d2])
  = Ok (VList [VDate d1; VDate d2]).
Proof.
  intros Hv1 Hy1 Hv2 Hy2.
  destruct (valid_date_bounds d2 Hv2) as (Hb & _).
  unfold round_trip, dump, dump_value.
  cbn [index0 index1 date_text List.length Nat.ltb Nat.leb rbind format].
  apply convert_date_range.
  - apply strftime_date_truthy. lia.
  - apply str_to_datetime_date_text; assumption.
  - apply str_to_datetime_date_text; assumption.
Qed.

Lemma strftime_datetime_truthy (t : datetime) :
  1000 <= year (dt_date t) <= 9999 -> truthy (VStr (strftime_datetime t)) = true.
Proof.
  intros H. unfold strftime_datetime. rewrite strftime_date_text by exact H.
  reflexivity.
Qed.

Lemma whole_second_aware_year (t : datetime) :
  whole_second_aware t = true -> 1000 <= year (dt_date t) <= 9999.
Proof.
  unfold whole_second_aware. intros H.
  remember (valid_date (dt_date t)) as vd eqn:Evd.
  repeat match goal with
  | K : (_ && _) = true |- _ => apply andb_true_iff in K; destruct K
  end.
  subst vd.
  match goal with K : valid_date _ = true |- _ =>
    destruct (valid_date_bounds _ K) as (Hb & _) end.
  match goal with K : (1000 <=? _) = true |- _ => apply Z.leb_le in K end.
  lia.
Qed.

Lemma round_trip_datetime_range (n : option string) (a b a' b' : datetime) :
  whole_second_aware a = true -> whole_second_aware b = true ->
  astimezone a = Ok a' -> astimezone b = Ok b' ->
  round_trip (DateProperty n) (VList [VDateTime a; VDateTime b])
  = Ok (VList [VDateTime a'; VDateTime b'])
  /\ utc_us a' = utc_us a /\ utc_us b' = utc_us b.
Proof.
  intros Ha Hb Ea Eb. split; [|split; apply astimezone_utc; assumption].
  unfold round_trip, dump, dump_value.
  cbn [index0 index1 date_text List.length Nat.ltb Nat.leb rbind format].
  apply convert_date_range.
  - apply strftime_datetime_truthy. apply whole_second_aware_year. exact Hb.
  - apply str_to_datetime_datetime_text; assumption.
  - apply str_to_datetime_datetime_text; assumption.
Qed.

(** C5, as the code has it. Encoding and then decoding returns the value
    for a checkbox, a number, a multi-select list and the identifier list
    of a relation, for a range of two valid dates with four-digit years,
    and, up to the zone the codec converts to, for a range of two aware
    datetimes with whole seconds and whole-minute offsets (the decoded
    datetimes denote the same instants).  The payload of a title or of a
    rich text has no [plain_text] and that of a single date or datetime
    has no [end], which decoding reads: for these the round trip raises. *)
Theorem round_trip_by_kind (n : option string) :
  (forall x, round_trip (CheckboxProperty n) x = Ok x)
  /\ (forall x, round_trip (NumberProperty n) x = Ok x)
  /\ (forall l, round_trip (MultiSelectProperty n) (VList l) = Ok (VList l))
  /\ (forall related l,
        round_trip (RelationProperty related n) (VList l) = Ok (VList l))
  /\ (forall d1 d2,
        valid_date d1 = true -> 1000 <= year d1 ->
        valid_date d2 = true -> 1000 <= year d2 ->
        round_trip (DateProperty n) (VList [VDate d1; VDate d2])
        = Ok (VList [VDate d1; VDate d2]))
  /\ (forall a b a' b',
        whole_second_aware a = true -> whole_second_aware b = true ->
        astimezone a = Ok a' -> astimezone b = Ok b' ->
        round_trip (DateProperty n) (VList [VDateTime a; VDateTime b])
        = Ok (VList [VDateTime a'; VDateTime b'])
        /\ utc_us a' = utc_us a /\ utc_us b' = utc_us b)
  /\ (forall x, round_trip (TitleProperty n) x = Raise (KeyError "plain_text")
                /\ round_trip (RichTextProperty n) x = Raise (KeyError "plain_text"))
  /\ (forall x, (exists t, x = VDateTime t) \/ (exists y, x = VList [y]) ->
                exists e, round_trip (DateProperty n) x = Raise e).
Proof.
  repeat split.
  - apply round_trip_multi_select.
  - intros. apply round_trip_relation.
  - apply round_trip_date_range.
  - eapply round_trip_datetime_range; eassumption.
  - eapply round_trip_datetime_range; eassumption.
  - eapply round_trip_datetime_range; eassumption.
  - apply round_trip_single_date_fails.
Qed.

(** ** The two formats *)

(** C4. [_str_to_datetime] first tries the offset-aware format with
    fractional seconds: a text in that format, such as the timestamp
    "2024-01-01T10:00:00.000000+08:00" or the text [DateProperty] prints
    for a datetime, is read as the datetime it denotes and converted to
    the zone.  When that parse fails it tries the date-only format, whose
    result is a bare date, as for the text of a date.  It raises the
    format error (a [ValueError]) exactly when the text parses in neither
    format, as for "2024-13-40". *)
Theorem str_to_datetime_two_formats (s : string) :
  _str_to_datetime (VStr s) =
    match strptime_datetime s with
    | Some t => match astimezone t with
                | Ok t' => Ok (VDateTime t')
                | Raise e => Raise e
                end
    | None => match strptime_date s with
              | Some d => Ok (VDate d)
              | None => Raise (ValueError "Invalid date or datetime format")
              end
    end
  /\ ((exists msg, _str_to_datetime (VStr s) = Raise (ValueError msg))
      <-> (strptime_datetime s = None /\ strptime_date s = None))
  /\ strptime_datetime "2024-01-01T10:00:00.000000+08:00"
     = Some (mkdatetime (mkdate 2024 1 1) 10 0 0 0 (Some (28800 * US_PER_SECOND))
                        false)
  /\ _str_to_datetime (VStr "2024-01-01T10:00:00.000000+08:00")
     = (t' <- astimezone (mkdatetime (mkdate 2024 1 1) 10 0 0 0
                                     (Some (28800 * US_PER_SECOND)) false) ;;
        Ok (VDateTime t'))
  /\ (forall t, whole_second_aware t = true ->
        strptime_datetime (strftime_datetime t) = Some (as_parsed t)
        /\ _str_to_datetime (VStr (strftime_datetime t))
           = (t' <- astimezone t ;; Ok (VDateTime t')))
  /\ (forall d, valid_date d = true -> 1000 <= year d ->
        strptime_datetime (strftime_date d) = None
        /\ _str_to_datetime (VStr (strftime_date d)) = Ok (VDate d))
  /\ _str_to_datetime (VStr "2024-01-01") = Ok (VDate (mkdate 2024 1 1))
  /\ _str_to_datetime (VStr "2024-13-40")
     = Raise (ValueError "Invalid date or datetime format").
Proof.
  split; [apply str_to_datetime_cases|].
  split.
  { rewrite str_to_datetime_cases. split.
    - intros [msg H].
      destruct (strptime_datetime s) as [t|].
      + destruct (astimezone t) eqn:Ha; [discriminate|].
        inversion H; subst. exfalso. exact (astimezone_no_ValueError _ _ Ha).
      + destruct (strptime_date s); [discriminate|]. split; reflexivity.
    - intros [H1 H2]. rewrite H1, H2. eexists. reflexivity. }
  assert (Hex : strptime_datetime "2024-01-01T10:00:00.000000+08:00"
                = Some (mkdatetime (mkdate 2024 1 1) 10 0 0 0
                                   (Some (28800 * US_PER_SECOND)) false))
    by (vm_compute; reflexivity).
  split; [exact Hex|].
  split.
  { rewrite str_to_datetime_cases, Hex.
    destruct (astimezone _); reflexivity. }
  split.
  { intros t Ht. split; [exact (strptime_datetime_strftime t Ht)|].
    rewrite str_to_datetime_cases, (strptime_datetime_strftime t Ht).
    rewrite astimezone_as_parsed. destruct (astimezone t); reflexivity. }
  split.
  { intros d Hv Hy. split; [exact (strptime_datetime_date_text d Hv Hy)|].
    exact (str_to_datetime_date_text d Hv Hy). }
  split; reflexivity.
Qed.

(** ** Tables *)

Lemma repeat_str_empty (n : nat) : repeat_str "" n = "".
Proof. induction n as [|n IH]; [reflexivity|exact IH]. Qed.

(** The accumulator of the loop is a prefix of its result. *)
Lemma render_siblings_acc (descend : block -> result string) (lvl : nat)
    (bs : list block) :
  forall (t : value) (acc : string),
    render_siblings descend lvl bs t acc
    = (txt <- render_siblings descend lvl bs t "" ;; Ok (acc ++ txt)).
Proof.
  induction bs as [|b bs IH]; intros t acc.
  - cbn [render_siblings rbind]. rewrite append_empty_r. reflexivity.
  - cbn [render_siblings].
    destruct (block_piece lvl (block_data b) t) as [[piece t']|e]; cbn [rbind];
      [|reflexivity].
    destruct (getitem (block_data b) "has_children") as [hc|e]; cbn [rbind];
      [|reflexivity].
    destruct (truthy hc).
    + destruct (getitem (block_data b) "id") as [i|e]; cbn [rbind]; [|reflexivity].
      destruct (descend b) as [sub|e]; cbn [rbind]; [|reflexivity].
      rewrite (IH t' (acc ++ piece ++ sub)), (IH t' ("" ++ piece ++ sub)).
      destruct (render_siblings descend lvl bs t' "") as [txt|e]; cbn [rbind];
        [|reflexivity].
      cbn [append]. rewrite !append_assoc'. reflexivity.
    + cbn [rbind]. rewrite (IH t' (acc ++ piece)), (IH t' ("" ++ piece)).
      destruct (render_siblings descend lvl bs t' "") as [txt|e]; cbn [rbind];
        [|reflexivity].
      cbn [append]. rewrite !append_assoc'. reflexivity.
Qed.

(** A block that is not a table row leaves the table state as it is. *)
Lemma block_piece_table (lvl : nat) (data t t' : value) (piece : string) :
  is_table_row data = false ->
  block_piece lvl data t = Ok (piece, t') -> t' = t.
Proof.
  intros Hrow H. unfold block_piece in H.
  apply rbind_ok in H. destruct H as ([[text t0] ind] & Hb & H).
  assert (t0 = t).
  { destruct (block_to_text_table _ _ _ _ _ Hb) as [->|(_ & _ & Hr)];
      [reflexivity|congruence]. }
  subst t0. destruct (truthy text).
  - apply rbind_ok in H. destruct H as (x & _ & H). inversion H. reflexivity.
  - inversion H. reflexivity.
Qed.

(** What the loop adds for a table row: the row on a new line, and under
    it the separator when no row came before at that level. *)
Lemma block_piece_row (lvl : nat) (data table : value) :
  is_table_row data = true ->
  block_piece lvl data table
  = (cells <- row_cells data ;;
     if truthy table then Ok (nl ++ row_line cells, table)
     else Ok (nl ++ row_line cells ++ nl ++ separator_line cells, VBool true)).
Proof.
  intros Hrow. unfold block_piece. rewrite (table_row_text data table Hrow).
  destruct (row_cells data) as [cells|e]; cbn [rbind]; [|reflexivity].
  destruct (truthy table) eqn:Ht; cbn [rbind].
  - change (truthy (VStr (row_line cells))) with true. cbv iota.
    cbn [str_add rbind]. rewrite repeat_str_empty, Ht. cbn [String.eqb andb negb].
    rewrite append_empty_r. reflexivity.
  - change (truthy (VStr (row_line cells ++ nl ++ separator_line cells))) with true.
    cbv iota. cbn [str_add rbind truthy]. rewrite repeat_str_empty.
    cbn [String.eqb andb negb]. rewrite append_empty_r. reflexivity.
Qed.

(** Up to the first table row the table state stays as it was. *)
Lemma render_siblings_before_row (descend : block -> result string) (lvl : nat)
    (pre rest : list block) (t : value) :
  Forall (fun b => is_table_row (block_data b) = false) pre ->
  forall acc,
    render_siblings descend lvl (pre ++ rest) t acc
    = (before <- render_siblings descend lvl pre t acc ;;
       render_siblings descend lvl rest t before).
Proof.
  intros Hpre. induction Hpre as [|b pre Hb Hpre IH]; intros acc; [reflexivity|].
  cbn [app render_siblings].
  destruct (block_piece lvl (block_data b) t) as [[piece t']|e] eqn:Ep; cbn [rbind];
    [|reflexivity].
  rewrite (block_piece_table _ _ _ _ _ Hb Ep).
  destruct (getitem (block_data b) "has_children") as [hc|e]; cbn [rbind];
    [|reflexivity].
  destruct (truthy hc).
  - destruct (getitem (block_data b) "id") as [i|e]; cbn [rbind]; [|reflexivity].
    destruct (descend b) as [sub|e]; cbn [rbind]; [|reflexivity]. apply IH.
  - cbn [rbind]. apply IH.
Qed.

(** Once a table row has been met the loop is [text_in_table]: the state
    is not reset, whatever blocks follow. *)
Lemma render_siblings_in_table (descend : block -> result string) (lvl : nat)
    (post : list block) :
  render_siblings descend lvl post (VBool true) ""
  = text_in_table descend lvl post.
Proof.
  induction post as [|b post IH]; [reflexivity|].
  cbn [render_siblings text_in_table]. unfold subtree_text.
  assert (Hp : exists r : result string,
             (block_piece lvl (block_data b) (VBool true)
              = (piece <- r ;; Ok (piece, VBool true)))
             /\ (if is_table_row (block_data b)
                 then cells <- row_cells (block_data b) ;; Ok (nl ++ row_line cells)
                 else '(p, _) <- block_piece lvl (block_data b) (VBool true) ;; Ok p)
                = r).
  { destruct (is_table_row (block_data b)) eqn:Hrow.
    - eexists. split; [|reflexivity].
      rewrite (block_piece_row lvl _ (VBool true) Hrow). cbn [truthy].
      destruct (row_cells (block_data b)); reflexivity.
    - destruct (block_piece lvl (block_data b) (VBool true)) as [[p t']|e] eqn:Ep.
      + exists (Ok p). rewrite (block_piece_table _ _ _ _ _ Hrow Ep).
        split; reflexivity.
      + exists (Raise e). split; reflexivity. }
  destruct Hp as (r & -> & ->).
  destruct r as [piece|e]; cbn [rbind]; [|reflexivity].
  destruct (getitem (block_data b) "has_children") as [hc|e]; cbn [rbind];
    [|reflexivity].
  destruct (truthy hc).
  - destruct (getitem (block_data b) "id") as [i|e]; cbn [rbind]; [|reflexivity].
    destruct (descend b) as [sub|e]; cbn [rbind]; [|reflexivity].
    rewrite render_siblings_acc, IH.
    destruct (text_in_table descend lvl post); cbn [rbind append];
      [rewrite append_assoc'|]; reflexivity.
  - cbn [rbind]. rewrite render_siblings_acc, IH.
    destruct (text_in_table descend lvl post); reflexivity.
Qed.

(** C7. The text of the siblings at one level in which a table row occurs
    is the text of the blocks before the first row, then that row on a new
    line with one header-separator line under it, then the subtree of the
    row, then the text of the blocks after it rendered inside the table:
    there every table row adds its row alone, also after a block that is
    not a table row, so the separator is emitted once. *)
Theorem table_separator_once (descend : block -> result string) (lvl : nat)
    (pre post : list block) (r : block) (out : string) :
  Forall (fun b => is_table_row (block_data b) = false) pre ->
  is_table_row (block_data r) = true ->
  render_siblings descend lvl (pre ++ r :: post) VNone "" = Ok out ->
  exists before cells sub after,
    render_siblings descend lvl pre VNone "" = Ok before
    /\ row_cells (block_data r) = Ok cells
    /\ subtree_text descend r = Ok sub
    /\ text_in_table descend lvl post = Ok after
    /\ out = before ++ nl ++ row_line cells ++ nl ++ separator_line cells
                    ++ sub ++ after.
Proof.
  intros Hpre Hr H.
  rewrite (render_siblings_before_row descend lvl pre (r :: post) VNone Hpre) in H.
  apply rbind_ok in H. destruct H as (before & Hbefore & H).
  cbn [render_siblings] in H. rewrite (block_piece_row lvl _ VNone Hr) in H.
  destruct (row_cells (block_data r)) as [cells|e]; cbn [rbind truthy] in H;
    [|discriminate H].
  unfold subtree_text.
  destruct (getitem (block_data r) "has_children") as [hc|e]; cbn [rbind] in H |- *;
    [|discriminate H].
  destruct (truthy hc).
  - destruct (getitem (block_data r) "id") as [i|e]; cbn [rbind] in H |- *;
      [|discriminate H].
    destruct (descend r) as [sub|e]; cbn [rbind] in H |- *; [|discriminate H].
    rewrite render_siblings_acc, render_siblings_in_table in H.
    destruct (text_in_table descend lvl post) as [after|e]; cbn [rbind] in H;
      [|discriminate H].
    injection H as <-. exists before, cells, sub, after.
    split; [exact Hbefore|]. do 3 (split; [reflexivity|]).
    unfold nl, row_line. repeat (cbn [append]; rewrite ?append_assoc').
    reflexivity.
  - cbn [rbind] in H. rewrite render_siblings_acc, render_siblings_in_table in H.
    destruct (text_in_table descend lvl post) as [after|e]; cbn [rbind] in H;
      [|discriminate H].
    injection H as <-. exists before, cells, "", after.
    split; [exact Hbefore|]. do 3 (split; [reflexivity|]).
    unfold nl, row_line. repeat (cbn [append]; rewrite ?append_assoc').
    reflexivity.
Qed.

(** * Further properties of the code *)

(** ** Decoded dates *)

Lemma date_of_groups_valid (g : groups) (d : date) :
  date_of_groups g = Some d -> valid_date d = true.
Proof.
  unfold date_of_groups.
  destruct (group_int g "Y"); [|discriminate].
  destruct (group_int g "m"); [|discriminate].
  destruct (group_int g "d"); [|discriminate].
  destruct (valid_date _) eqn:E; [|discriminate].
  intros H. inversion H; subst. exact E.
Qed.

Lemma strptime_date_valid (s : string) (d : date) :
  strptime_date s = Some d -> valid_date d = true.
Proof.
  unfold strptime_date. destruct (full_match re_date s); [|discriminate].
  apply date_of_groups_valid.
Qed.

Lemma astimezone_local (t t' : datetime) :
  astimezone t = Ok t' ->
  exists u, utc_us t' = Some u /\ utcoffset t' = Some (local_utcoffset u).
Proof.
  intros H. pose proof (astimezone_utc _ _ H) as Hu.
  unfold astimezone in H.
  destruct (utcoffset t) as [off|] eqn:Hoff; [|discriminate].
  cbv zeta in H.
  destruct (in_datetime_range (wall_us t - off)); [|discriminate].
  destruct (in_datetime_range _); [|discriminate].
  inversion H; subst t'; clear H.
  exists (wall_us t - off). split.
  - rewrite Hu. unfold utc_us. rewrite Hoff. reflexivity.
  - reflexivity.
Qed.

(** X1. What [_str_to_datetime] returns is a valid bare date or a datetime that
    is aware and carries the offset of the local zone at its instant, and
    it returns for a string only. *)
Theorem str_to_datetime_result (str v : value) :
  _str_to_datetime str = Ok v ->
  (exists s, str = VStr s)
  /\ ((exists d, v = VDate d /\ valid_date d = true)
      \/ (exists t u, v = VDateTime t /\ utc_us t = Some u
                      /\ utcoffset t = Some (local_utcoffset u))).
Proof.
  destruct str as [| | |s| | | |]; try discriminate.
  rewrite str_to_datetime_cases. intros H. split; [exists s; reflexivity|].
  destruct (strptime_datetime s) as [t|].
  - destruct (astimezone t) as [t'|] eqn:Ha; [|discriminate].
    inversion H; subst. right.
    destruct (astimezone_local _ _ Ha) as (u & Hu & Hl).
    exists t', u. repeat split; assumption.
  - destruct (strptime_date s) as [d|] eqn:Hd; [|discriminate].
    inversion H; subst. left. exists d. split; [reflexivity|].
    exact (strptime_date_valid _ _ Hd).
Qed.

Lemma str_to_datetime_date_text_ok (str v : value) :
  _str_to_datetime str = Ok v -> exists s, date_text v = Ok (VStr s).
Proof.
  destruct str as [| | |s| | | |]; try discriminate.
  rewrite str_to_datetime_cases. intros H.
  destruct (strptime_datetime s) as [t|].
  - destruct (astimezone t) as [t'|]; [|discriminate].
    inversion H; subst. eexists. reflexivity.
  - destruct (strptime_date s) as [d|]; [|discriminate].
    inversion H; subst. eexists. reflexivity.
Qed.

(** X2. A date field that was loaded can be saved back: whatever the codec
    returns for a [date] payload is [None] or a list that
    [DateProperty.dump] encodes without error. *)
Theorem decoded_date_is_encodable (n : option string) (data v : value) :
  py_in "checkbox" data = Ok false ->
  py_in "created_time" data = Ok false ->
  py_in "date" data = Ok true ->
  _convert_data data = Ok v ->
  v = VNone \/ exists d, dump (DateProperty n) v = Ok d.
Proof.
  intros H1 H2 H3. unfold _convert_data. cbn [convert_rec].
  rewrite H1, H2, H3. cbn [rbind]. intros H.
  apply rbind_ok in H. destruct H as (date & _ & H).
  destruct (truthy date); [|inversion H; left; reflexivity].
  apply rbind_ok in H. destruct H as (s & _ & H).
  apply rbind_ok in H. destruct H as (d0 & Hd0 & H).
  apply rbind_ok in H. destruct H as (e & _ & H).
  destruct (str_to_datetime_date_text_ok _ _ Hd0) as (s0 & Hs0).
  right. destruct (truthy e).
  - apply rbind_ok in H. destruct H as (d1 & Hd1 & H). inversion H; subst.
    destruct (str_to_datetime_date_text_ok _ _ Hd1) as (s1 & Hs1).
    unfold dump, dump_value.
    cbn [index0 index1 List.length Nat.ltb Nat.leb rbind].
    rewrite Hs0. cbn [rbind]. rewrite Hs1. eexists. reflexivity.
  - inversion H; subst. unfold dump, dump_value.
    cbn [index0 List.length Nat.ltb Nat.leb rbind].
    rewrite Hs0. eexists. reflexivity.
Qed.

(** X3. The equality filter of a date key carries the text of the first date
    of the value, and that text decodes to the same date. *)
Theorem date_filter_denotes_date (n : option string) (d : date) (rest : list value) :
  valid_date d = true -> 1000 <= year d ->
  exists s,
    filter_value (DateProperty n) (VList (VDate d :: rest))
    = Ok (VDict [(KStr "property", match n with Some x => VStr x | None => VNone end);
                 (KStr "date", VDict [(KStr "equals", VStr s)])])
    /\ _str_to_datetime (VStr s) = Ok (VDate d).
Proof.
  intros Hv Hy. exists (strftime_date d). split.
  - destruct n; reflexivity.
  - apply str_to_datetime_date_text; assumption.
Qed.

(** ** Scalar kinds *)

(** X4. Encoding and then decoding returns the value, whatever it is, for a
    URL, an email, a phone number, a select and a status. *)
Theorem round_trip_passthrough (n : option string) (x : value) :
  round_trip (UrlProperty n) x = Ok x
  /\ round_trip (EmailProperty n) x = Ok x
  /\ round_trip (PhoneNumberProperty n) x = Ok x
  /\ round_trip (SelectProperty n) x = Ok x
  /\ round_trip (StatusProperty n) x = Ok x.
Proof. repeat split; reflexivity. Qed.

(** X5. A formula or a rollup is an envelope: a payload whose first known key
    is [formula] (or [rollup]) decodes to what the wrapped payload decodes
    to. *)
Theorem envelope_decodes_to_content (d : dict) (k : string) (inner : value) :
  first_key ["checkbox"; "created_time"; "date"; "email"; "files"; "file";
             "external"; "formula"; "last_edited_time"; "multi_select";
             "number"; "phone_number"; "relation"; "rollup"] (VDict d) = Some k ->
  k = "formula" \/ k = "rollup" ->
  dict_get d k = Some inner ->
  _convert_data (VDict d) = _convert_data inner.
Proof.
  intros Hk Hkind Hget.
  assert (Hd : (depth inner < depth (VDict d))%nat)
    by exact (depth_dict_get _ _ _ Hget).
  unfold _convert_data at 1. cbn [convert_rec].
  cbn [first_key py_in] in Hk. cbn [py_in].
  cbn [rbind].
  repeat match type of Hk with
  | (if ?b then _ else _) = _ =>
      destruct b eqn:?; cbn [rbind];
      [ inversion Hk; subst k;
        destruct Hkind as [Hkind|Hkind]; try discriminate Hkind | ]
  end.
  - unfold getitem. rewrite Hget. cbn [rbind].
    symmetry. apply convert_data_fuel. exact Hd.
  - unfold getitem. rewrite Hget. cbn [rbind].
    symmetry. apply convert_data_fuel. exact Hd.
  - discriminate.
Qed.

(** ** Rich text without links *)

Lemma rich_text_plain (chunks : list value) :
  Forall (fun c => is_dict c = true) chunks ->
  enable_link = false \/ Forall (fun c => no_link c = true) chunks ->
  forall out, rich_text_of out chunks = plain_text_of out chunks.
Proof.
  intros Hd Hl. induction chunks as [|c chunks IH]; intros out; [reflexivity|].
  inversion Hd as [|? ? Hc Hd']; subst.
  assert (Hl' : enable_link = false \/ Forall (fun c => no_link c = true) chunks).
  { destruct Hl as [Hl|Hl]; [left; exact Hl|right; inversion Hl; assumption]. }
  cbn [rich_text_of plain_text_of].
  destruct c as [| | | | |d| |]; try discriminate Hc.
  unfold dict_get_method.
  assert (Hcond : (truthy (match dict_get d "href" with Some v => v | None => VNone end)
                   && enable_link) = false).
  { destruct Hl as [Hl|Hl].
    - rewrite Hl. apply andb_false_r.
    - inversion Hl as [|? ? Hn _]; subst. unfold no_link, dict_get_method in Hn.
      destruct (dict_get d "href"); apply negb_true_iff in Hn; rewrite Hn; reflexivity. }
  destruct (dict_get d "href"); cbn [rbind]; rewrite Hcond;
    (destruct (getitem (VDict d) "plain_text") as [t|]; cbn [rbind]; [|reflexivity]);
    (destruct (str_add out t); cbn [rbind]; [apply IH; assumption|reflexivity]).
Qed.

(** X6. With link rendering disabled, or when no chunk carries a link, a rich
    text decodes as a title does: to the concatenation of the plain texts
    of its chunks. *)
Theorem rich_text_without_links (chunks : list value) :
  Forall (fun c => is_dict c = true) chunks ->
  enable_link = false \/ Forall (fun c => no_link c = true) chunks ->
  _convert_data (VDict [(KStr "rich_text", VList chunks)])
  = _convert_data (VDict [(KStr "title", VList chunks)])
  /\ _convert_data (VDict [(KStr "title", VList chunks)])
     = (out <- plain_text_of "" chunks ;; Ok (VStr out)).
Proof.
  intros Hd Hl. unfold _convert_data.
  cbn [convert_rec py_in dict_has dict_get key_eqb String.eqb Ascii.eqb Bool.eqb
       rbind getitem py_iter].
  rewrite (rich_text_plain chunks Hd Hl). split; reflexivity.
Qed.

(** ** Kinds of blocks *)

Ltac kind_step data :=
  match goal with
  | H : rbind (py_in ?k data) _ = Ok _ |- _ =>
      let E := fresh "E" in
      destruct (py_in k data) as [[|]|] eqn:E;
      cbn [rbind] in H; cbv beta iota in H; cbv beta iota;
      [ | | discriminate H]
  end.

(** The blocks rendered through [get_url] give no text: the name is not
    bound in the module. *)
Lemma block_to_text_link (data table : value) (r : value * value * string) :
  _block_to_text data table = Ok r -> is_link_kind (block_kind data) = false.
Proof.
  unfold _block_to_text, block_kind, handled_keys, keys_before_table_row.
  cbn [app first_key]. intros H.
  repeat (kind_step data; [first [reflexivity | exfalso; repeat step_result]|]).
  reflexivity.
Qed.

(** X7. A level that holds a child page, a child database or a link to a page
    is not rendered: when the loop of [__list_blocks] returns a text, no
    sibling is of such a kind. *)
Theorem link_block_stops_rendering (descend : block -> result string) (lvl : nat)
    (bs : list block) (table : value) (blocks out : string) :
  render_siblings descend lvl bs table blocks = Ok out ->
  Forall (fun b => is_link_kind (block_kind (block_data b)) = false) bs.
Proof.
  revert table blocks. induction bs as [|b bs IH]; intros table blocks H;
    [constructor|].
  cbn [render_siblings] in H. unfold block_piece in H.
  apply rbind_ok in H. destruct H as ([piece t'] & H1 & H).
  apply rbind_ok in H1. destruct H1 as (r & Hr & _).
  apply rbind_ok in H. destruct H as (hc & _ & H).
  apply rbind_ok in H. destruct H as (blocks' & _ & H).
  constructor; [exact (block_to_text_link _ _ _ Hr)|exact (IH _ _ H)].
Qed.

(** X8. The indentation [_block_to_text] returns is a tab for a bulleted or
    numbered list item, a to-do and a toggle, and empty for every other
    block; a block of no handled kind gives the empty text. *)
Theorem block_to_text_indentation (data table out table' : value) (ind : string) :
  _block_to_text data table = Ok (out, table', ind) ->
  ind = (if is_list_kind (block_kind data) then tab else "")
  /\ (block_kind data = None -> out = VStr "" /\ table' = table).
Proof.
  unfold _block_to_text, block_kind, handled_keys, keys_before_table_row.
  cbn [app first_key]. intros H.
  repeat (kind_step data;
          [solve [repeat step_result; (split; [reflexivity|intros K; discriminate K])]|]).
  repeat step_result. split; [reflexivity|intros _; split; reflexivity].
Qed.

(** ** Listing the blocks of a page *)

Lemma plain_tree_unfold (d : value) (kids : list block) :
  plain_tree (Block d kids) <-> plain_node d kids /\ plain_forest kids.
Proof.
  cbn [plain_tree].
  assert (H : forall l,
             (fix all (l : list block) : Prop :=
                match l with
                | [] => True
                | k :: l' => plain_tree k /\ all l'
                end) l <-> plain_forest l).
  { induction l as [|k l IH]; cbn [plain_forest]; [tauto|]. rewrite IH. tauto. }
  rewrite H. tauto.
Qed.

Lemma page_blocks_loop_postorder (ps ex : value) (kids : list block) :
  Forall (fun b => forall ex' ps',
            plain_forest (block_children b) ->
            list_page_blocks b ex' ps'
            = (flat_map postorder (block_children b), None)) kids ->
  plain_forest kids ->
  page_blocks_loop (fun b => list_page_blocks b ps (VInt 100)) ex kids
  = (flat_map postorder kids, None).
Proof.
  intros HP. induction HP as [|b kids Hb HP IH]; intros Hf; [reflexivity|].
  destruct Hf as [Hb' Hf]. specialize (IH Hf).
  destruct b as [d ks]. apply plain_tree_unfold in Hb'.
  destruct Hb' as [[Hhc Hnode] Hks].
  cbn [page_blocks_loop block_data flat_map postorder].
  rewrite Hhc. cbn [g_try truthy].
  destruct ks as [|k ks].
  - cbn [g_try g_yield]. rewrite IH. reflexivity.
  - destruct Hnode as ((t & Ht & Hne) & Hsync & (i & Hi)); [discriminate|].
    rewrite Ht. cbn [rbind g_try]. rewrite Hne.
    rewrite Hsync. cbn [rbind].
    assert (Hskip : (if truthy ex then Ok false else Ok false) = Ok false :> result bool)
      by (destruct (truthy ex); reflexivity).
    rewrite Hskip. cbn [g_try]. rewrite Hi. cbn [g_try].
    rewrite (Hb ps (VInt 100) Hks). cbn [block_children].
    unfold g_from, g_yield. cbn [fst snd]. rewrite IH. cbn [fst snd].
    rewrite <- app_assoc. reflexivity.
Qed.

(** X9. On a page whose blocks have truthful [has_children] flags and, where
    they have children, an identifier and a type other than [child_page],
    and none of which is a synced block, [list_page_blocks] yields every
    block of the tree once, each after its descendants, whatever the two
    options are. *)
Theorem list_page_blocks_postorder (page : block)
    (exclude_synced_block page_size : value) :
  plain_forest (block_children page) ->
  list_page_blocks page exclude_synced_block page_size
  = (flat_map postorder (block_children page), None).
Proof.
  revert exclude_synced_block page_size.
  apply (block_forest_ind
           (fun b => forall ex ps,
              plain_forest (block_children b) ->
              list_page_blocks b ex ps
              = (flat_map postorder (block_children b), None))).
  intros d kids HP ex ps Hf. cbn [list_page_blocks block_children] in *.
  apply page_blocks_loop_postorder; assumption.
Qed.

(** ** Recent pages without a cutoff *)

(** X10. Without a cutoff (the default [None]) [list_recent_pages] yields every
    page of the search in order and ends as the search ends; no timestamp
    is read. *)
Theorem list_recent_pages_without_cutoff (cutoff_time page_size : value) (s : state) :
  truthy cutoff_time = false ->
  fst (list_recent_pages cutoff_time page_size s)
  = Ok (search client (world s) (search_payload page_size)).
Proof.
  intros Hc. unfold list_recent_pages, bind, call_search, ret. cbn [fst].
  destruct (search client (world s) (search_payload page_size)) as [pages failure].
  cbn [fst snd]. f_equal.
  induction pages as [|p pages IH]; [reflexivity|].
  cbn [recent_pages_loop]. rewrite Hc. cbn [g_try]. rewrite IH. reflexivity.
Qed.

(** ** Construction of records *)

Lemma kw_get_absent (kw : list (string * value)) (k : string) :
  ~ In k (map fst kw) -> kw_get kw k = None.
Proof.
  induction kw as [|[k' v] kw IH]; intros Hn; [reflexivity|].
  cbn [kw_get]. destruct (String.eqb k k') eqn:E.
  - apply String.eqb_eq in E. exfalso. apply Hn. left. symmetry. exact E.
  - apply IH. intros Hin. apply Hn. right. exact Hin.
Qed.

Lemma has_member_In (cls : ModelClass) (k : string) :
  has_member cls k = true <-> In k (map fst (members cls)).
Proof.
  unfold has_member. rewrite existsb_exists. split.
  - intros ([k' p] & Hin & E). apply String.eqb_eq in E. subst.
    apply in_map_iff. exists (k', p). split; [reflexivity|exact Hin].
  - intros Hin. apply in_map_iff in Hin. destruct Hin as ([k' p] & E & Hin).
    exists (k', p). split; [exact Hin|]. cbn in *. subst. apply String.eqb_refl.
Qed.

Lemma set_kwargs_accepts (cls : ModelClass) (kwargs : list (string * value)) :
  forall self,
    (exists r, set_kwargs cls self kwargs = Ok r)
    <-> forallb (fun kv => declared cls (fst kv)) kwargs = true.
Proof.
  induction kwargs as [|[key v] kwargs IH]; intros self; cbn [set_kwargs forallb fst].
  - split; [reflexivity|]. intros _. exists self. reflexivity.
  - unfold declared at 1.
    destruct (has_member cls key); cbn [orb andb]; [apply IH|].
    destruct (String.eqb key "id"); [apply IH|].
    split; [intros (r & H); discriminate H|discriminate].
Qed.

Lemma set_kwargs_lookup (cls : ModelClass) (kwargs : list (string * value)) :
  forall self r,
    set_kwargs cls self kwargs = Ok r ->
    NoDup (map fst kwargs) ->
    forall k, dict_get r (KStr k)
              = match kw_get kwargs k with
                | Some v => Some v
                | None => dict_get self (KStr k)
                end.
Proof.
  induction kwargs as [|[key v] kwargs IH]; intros self r H ND k.
  - cbn in H. inversion H. reflexivity.
  - cbn [map fst] in ND. inversion ND as [|? ? Hn ND']. subst.
    assert (H' : set_kwargs cls (setattr self key v) kwargs = Ok r).
    { cbn [set_kwargs] in H. destruct (has_member cls key); [exact H|].
      destruct (String.eqb key "id") eqn:E; [|discriminate H].
      apply String.eqb_eq in E. subst key. exact H. }
    rewrite (IH _ _ H' ND' k). cbn [kw_get].
    destruct (String.eqb k key) eqn:E.
    + apply String.eqb_eq in E. subst k.
      rewrite (kw_get_absent _ _ Hn). unfold setattr. apply dict_get_set_same.
    + destruct (kw_get kwargs k); [reflexivity|].
      unfold setattr. apply dict_get_set_other. exact E.
Qed.

Lemma blank_lookup (ms : list (string * Property)) (k : string) :
  forall self,
    dict_get (fold_left (fun o kp => setattr o (fst kp) VNone) ms self) (KStr k)
    = if existsb (fun kp => String.eqb k (fst kp)) ms then Some VNone
      else dict_get self (KStr k).
Proof.
  induction ms as [|[key p] ms IH]; intros self; [reflexivity|].
  cbn [fold_left existsb fst]. rewrite IH.
  destruct (String.eqb k key) eqn:E; cbn [orb].
  - apply String.eqb_eq in E. subst k. unfold setattr.
    rewrite dict_get_set_same. destruct (existsb _ ms); reflexivity.
  - unfold setattr. rewrite dict_get_set_other by exact E. reflexivity.
Qed.

Lemma init_lookup (cls : ModelClass) (kwargs : list (string * value))
    (self : instance) :
  Model_init cls kwargs = Ok self ->
  NoDup (map fst kwargs) ->
  forall k, getattr self k
            = if declared cls k then Ok (keyword_or_none kwargs k)
              else Raise AttributeError.
Proof.
  unfold Model_init. destruct (truthy (database_id cls)); [|discriminate].
  intros H ND k.
  assert (Hacc : forallb (fun kv => declared cls (fst kv)) kwargs = true).
  { match type of H with
    | set_kwargs _ ?s0 _ = _ => apply (proj1 (set_kwargs_accepts cls kwargs s0))
    end. exists self. exact H. }
  unfold getattr, keyword_or_none. rewrite (set_kwargs_lookup _ _ _ _ H ND k).
  destruct (kw_get kwargs k) as [v|] eqn:E.
  - assert (Hd : declared cls k = true).
    { clear - E Hacc. induction kwargs as [|[k' v'] kwargs IH]; [discriminate E|].
      cbn [forallb fst] in Hacc. apply andb_prop in Hacc. destruct Hacc as [Hk Hacc].
      cbn [kw_get] in E. destruct (String.eqb k k') eqn:Ek.
      - apply String.eqb_eq in Ek. subst. exact Hk.
      - exact (IH Hacc E). }
    rewrite Hd. reflexivity.
  - rewrite blank_lookup. unfold declared, has_member.
    destruct (existsb _ (members cls)); [reflexivity|]. cbn [orb].
    unfold setattr. cbn [dict_set dict_get key_eqb].
    destruct (String.eqb k "id"); reflexivity.
Qed.

Lemma init_accepts_keywords (cls : ModelClass) (kwargs : list (string * value)) :
  truthy (database_id cls) = true ->
  forallb (fun kv => declared cls (fst kv)) kwargs = true ->
  exists self, Model_init cls kwargs = Ok self.
Proof.
  intros Hd H. unfold Model_init. rewrite Hd.
  apply (proj2 (set_kwargs_accepts cls kwargs _)). exact H.
Qed.

(** X11. [Model.__init__] accepts exactly the keywords that name a declared
    property or [id]: with a database identifier set, it returns a record
    if and only if every keyword is one of these. *)
Theorem init_accepts_declared_keywords (cls : ModelClass)
    (kwargs : list (string * value)) :
  truthy (database_id cls) = true ->
  (exists self, Model_init cls kwargs = Ok self)
  <-> forallb (fun kv => declared cls (fst kv)) kwargs = true.
Proof.
  intros Hd. unfold Model_init. rewrite Hd. apply set_kwargs_accepts.
Qed.

(** X12. On a record built by [Model.__init__], [id] and every declared
    property hold the value of their keyword, [None] without one. *)
Theorem init_attributes (cls : ModelClass) (kwargs : list (string * value))
    (self : instance) :
  Model_init cls kwargs = Ok self ->
  NoDup (map fst kwargs) ->
  forall k, declared cls k = true ->
            getattr self k = Ok (keyword_or_none kwargs k).
Proof.
  intros H ND k Hk. rewrite (init_lookup cls kwargs self H ND k), Hk. reflexivity.
Qed.

(** ** Loading a page *)

Lemma kw_set_keys (kw : list (string * value)) (k : string) (v : value) :
  forall k', In k' (map fst (kw_set kw k v)) <-> k' = k \/ In k' (map fst kw).
Proof.
  induction kw as [|[k0 v0] kw IH]; intros k'; cbn [kw_set map fst In].
  - intuition.
  - destruct (String.eqb k k0) eqn:E; cbn [map fst In].
    + apply String.eqb_eq in E. subst. intuition.
    + rewrite IH. intuition.
Qed.

Lemma kw_set_NoDup (kw : list (string * value)) (k : string) (v : value) :
  NoDup (map fst kw) -> NoDup (map fst (kw_set kw k v)).
Proof.
  induction kw as [|[k0 v0] kw IH]; intros ND; cbn [kw_set map fst].
  - constructor; [intros []|constructor].
  - cbn [map fst] in ND. inversion ND as [|? ? Hn ND']. subst.
    destruct (String.eqb k k0) eqn:E; cbn [map fst].
    + constructor; assumption.
    + constructor; [|exact (IH ND')].
      intros Hin. apply kw_set_keys in Hin. destruct Hin as [Hin|Hin]; [|exact (Hn Hin)].
      subst. rewrite String.eqb_refl in E. discriminate E.
Qed.

Lemma load_properties_keys (cls : ModelClass) (data : value) (s s' : state)
    (props : list (string * value)) :
  _load_properties cls data s = (Ok props, s') ->
  NoDup (map fst props)
  /\ forall k, In k (map fst props) -> has_member cls k = true.
Proof.
  destruct cls as [d ms u]. cbn [_load_properties].
  assert (Hall : forall k, In k (map fst ms) ->
                           has_member (Build_Model d ms u) k = true).
  { intros k Hin. apply has_member_In. exact Hin. }
  assert (Hacc : NoDup (map fst (@nil (string * value)))
                 /\ forall k, In k (map fst (@nil (string * value))) ->
                              has_member (Build_Model d ms u) k = true).
  { split; [constructor|intros k []]. }
  revert Hall Hacc. generalize (Build_Model d ms u) as cls.
  generalize (@nil (string * value)) as acc. revert s.
  induction ms as [|[key define] ms IH]; intros s acc cls Hall Hacc H.
  - unfold ret in H. inversion H. subst. exact Hacc.
  - unfold bind, lift in H.
    destruct (py_in (remote_name key define) data) as [[|]|e]; [| |discriminate H].
    + destruct (getitem data (remote_name key define)) as [dta|e]; [|discriminate H].
      destruct (load define dta s) as [[v|e] s1] eqn:El; [|discriminate H].
      apply (IH s1 (kw_set acc key v) cls); [| |exact H].
      * intros k Hin. apply Hall. right. exact Hin.
      * destruct Hacc as [ND Hk]. split; [exact (kw_set_NoDup _ _ _ ND)|].
        intros k Hin. apply kw_set_keys in Hin. destruct Hin as [Hin|Hin].
        -- subst. apply Hall. left. reflexivity.
        -- exact (Hk k Hin).
    + apply (IH s acc cls); [|exact Hacc|exact H].
      intros k Hin. apply Hall. right. exact Hin.
Qed.

(** X13. A page whose properties load gives a record: when the type has a
    database identifier and declares no property named [id], the record
    is built, its [id] is the page's and each declared property holds the
    loaded value, [None] where the page has no such property. *)
Theorem load_page_builds_record (cls : ModelClass) (page data id : value)
    (props : list (string * value)) (s s' : state) :
  truthy (database_id cls) = true ->
  has_member cls "id" = false ->
  getitem page "properties" = Ok data ->
  getitem page "id" = Ok id ->
  _load_properties cls data s = (Ok props, s') ->
  exists self,
    load_page cls page s = (Ok self, s')
    /\ getattr self "id" = Ok id
    /\ forall k, has_member cls k = true ->
                 getattr self k = Ok (keyword_or_none props k).
Proof.
  intros Hd Hid Hp Hi Hl.
  destruct (load_properties_keys _ _ _ _ _ Hl) as [ND Hk].
  assert (Hno : ~ In "id" (map fst props)).
  { intros Hin. apply Hk in Hin. rewrite Hid in Hin. discriminate Hin. }
  assert (Hex : existsb (fun kv : string * value => String.eqb (fst kv) "id") props
                = false).
  { destruct (existsb _ props) eqn:E; [|reflexivity]. exfalso. apply Hno.
    apply existsb_exists in E. destruct E as ([k v] & Hin & E).
    apply String.eqb_eq in E. cbn in E. subst.
    apply in_map_iff. exists ("id", v). split; [reflexivity|exact Hin]. }
  assert (Hacc : exists self, Model_init cls (("id", id) :: props) = Ok self).
  { apply init_accepts_keywords; [exact Hd|].
    cbn [forallb fst]. unfold declared at 1. rewrite String.eqb_refl, orb_true_r.
    cbn [andb]. apply forallb_forall. intros [k v] Hin. unfold declared. cbn [fst].
    rewrite (Hk k); [reflexivity|].
    apply in_map_iff. exists (k, v). split; [reflexivity|exact Hin]. }
  destruct Hacc as (self & Hself). exists self.
  assert (ND' : NoDup (map fst (("id", id) :: props))).
  { cbn [map fst]. constructor; assumption. }
  pose proof (init_lookup _ _ _ Hself ND') as Hget.
  split; [|split].
  - unfold load_page, bind, lift. rewrite Hp, Hl, Hi.
    unfold construct. rewrite Hex. rewrite Hself. reflexivity.
  - rewrite Hget. unfold declared. rewrite String.eqb_refl, orb_true_r.
    unfold keyword_or_none. cbn [kw_get]. rewrite String.eqb_refl. reflexivity.
  - intros k Hm. rewrite Hget. unfold declared. rewrite Hm. cbn [orb].
    unfold keyword_or_none. cbn [kw_get].
    destruct (String.eqb k "id") eqn:E; [|reflexivity].
    apply String.eqb_eq in E. subst. rewrite Hid in Hm. discriminate Hm.
Qed.

(** ** Deleting records *)

Lemma getattr_id_of (self : instance) (id : value) :
  getattr self "id" = Ok id -> id_of self = id.
Proof.
  unfold getattr, id_of. destruct (dict_get self "id"); cbn; [|discriminate].
  intros H. inversion H. reflexivity.
Qed.

Lemma truthy_id_of (self : instance) :
  truthy (id_of self) = true -> getattr self "id" = Ok (id_of self).
Proof.
  unfold getattr, id_of. destruct (dict_get self "id"); cbn; [reflexivity|discriminate].
Qed.

Lemma delete_cases (cls : ModelClass) (self : instance) (s : state) :
  (truthy (id_of self) = true
   /\ snd (delete cls self s)
      = mkstate (snd (blocks_delete client (world s) [(KStr "block_id", id_of self)]))
                (log s ++ [delete_call (id_of self)])
   /\ (forall v, fst (blocks_delete client (world s) [(KStr "block_id", id_of self)])
                 = Ok v ->
                 fst (delete cls self s) = Ok (setattr self "id" VNone))
   /\ (forall self', fst (delete cls self s) = Ok self' ->
                     self' = setattr self "id" VNone))
  \/ (truthy (id_of self) = false
      /\ snd (delete cls self s) = s
      /\ exists e, fst (delete cls self s) = Raise e).
Proof.
  unfold delete, bind, lift, getattr, id_of.
  destruct (dict_get self "id") as [id|]; cbn [of_option].
  - destruct (truthy id) eqn:Et.
    + left. split; [reflexivity|].
      unfold call_blocks_delete, mutate, ret, delete_call.
      destruct (blocks_delete client (world s) [(KStr "block_id", id)]) as [[v|e] w];
        cbn [fst snd]; repeat split; try reflexivity; try discriminate.
      intros self' H. inversion H. reflexivity.
    + right. unfold raise. cbn [fst snd]. repeat split. eexists. reflexivity.
  - right. cbn [fst snd truthy]. repeat split. eexists. reflexivity.
Qed.

(** X14. A deleted record is detached: [delete] issues one [blocks.delete] for
    the record's identifier and sets [id] to [None]; after it, [update] and
    [delete] both raise [ValueError] without a call to the store. *)
Theorem delete_detaches_record (cls : ModelClass) (self self' : instance)
    (s s' : state) :
  delete cls self s = (Ok self', s') ->
  log s' = (log s ++ [delete_call (id_of self)])%list
  /\ getattr self' "id" = Ok VNone
  /\ update cls self' s' = (Raise (ValueError "Object id is None."), s')
  /\ delete cls self' s' = (Raise (ValueError "Object id is None."), s').
Proof.
  intros H.
  destruct (delete_cases cls self s) as [(Ht & Hs & _ & Hr)|(_ & _ & e & He)].
  - rewrite H in Hs, Hr. cbn [fst snd] in Hs, Hr.
    specialize (Hr self' eq_refl). subst self'.
    assert (Hid : getattr (setattr self "id" VNone) "id" = Ok VNone).
    { unfold getattr, setattr. rewrite dict_get_set_same. reflexivity. }
    split; [rewrite Hs; reflexivity|]. split; [exact Hid|].
    unfold update, delete, bind, lift. rewrite Hid. cbn [truthy]. unfold raise.
    split; reflexivity.
  - rewrite H in He. discriminate He.
Qed.

Lemma each_delete_log (cls : ModelClass) (objs : list instance) :
  (forall w kw, exists v, fst (blocks_delete client w kw) = Ok v) ->
  Forall (fun o => truthy (id_of o) = true) objs ->
  forall s, exists s',
    (fix each (l : list instance) : M unit :=
       match l with
       | [] => ret tt
       | p :: rest => _ <~ delete cls p ;; each rest
       end) objs s = (Ok tt, s')
    /\ log s' = (log s ++ map (fun o => delete_call (id_of o)) objs)%list.
Proof.
  intros Hdel Hall. induction Hall as [|o objs Ho Hall IH]; intros s.
  - exists s. split; [reflexivity|]. cbn [map]. rewrite app_nil_r. reflexivity.
  - destruct (delete_cases cls o s) as [(_ & Hs & Hok & _)|(Hf & _)];
      [|rewrite Ho in Hf; discriminate Hf].
    destruct (Hdel (world s) [(KStr "block_id", id_of o)]) as (v & Hv).
    specialize (Hok v Hv).
    destruct (delete cls o s) as [r s1] eqn:Ed. cbn [fst snd] in Hs, Hok. subst r.
    destruct (IH s1) as (s' & Hrun & Hlog). exists s'.
    split.
    + unfold bind at 1. rewrite Ed. exact Hrun.
    + rewrite Hlog, Hs. cbn [log map]. rewrite <- app_assoc. reflexivity.
Qed.

(** X15. When the store refuses no deletion, [truncate] deletes every record
    the query of the type returns, one [blocks.delete] each in the order
    of the query, provided each record has an identifier that is not
    empty. *)
Theorem truncate_deletes_each (cls : ModelClass) (objs : list instance)
    (s s1 : state) :
  (forall w kw, exists v, fst (blocks_delete client w kw) = Ok v) ->
  Manager_query (objects cls) s = (Ok objs, s1) ->
  Forall (fun o => truthy (id_of o) = true) objs ->
  exists s',
    truncate cls s = (Ok tt, s')
    /\ log s' = (log s1 ++ map (fun o => delete_call (id_of o)) objs)%list.
Proof.
  intros Hdel Hq Hall.
  destruct (each_delete_log cls objs Hdel Hall s1) as (s' & Hrun & Hlog).
  exists s'. split; [|exact Hlog].
  unfold truncate, bind at 1. rewrite Hq. exact Hrun.
Qed.

(** ** Saving a record that has an identifier *)

(** X16. [save] on a record that has an identifier checks nothing: whatever
    the uniqueness keys and the records of the store, it issues no query
    and no create, only the [pages.update] of [update], and none at all
    when a property cannot be encoded. *)
Theorem save_with_id_only_updates (cls : ModelClass) (self : instance) (id : value)
    (s : state) :
  getattr self "id" = Ok id ->
  truthy id = true ->
  (exists payload,
     __dump_properties cls self true = Ok payload
     /\ log (snd (save cls self s))
        = (log s ++ [Call "pages.update" [(KStr "page_id", id);
                                          (KStr "properties", VDict payload)]])%list)
  \/ (exists e,
        __dump_properties cls self true = Raise e
        /\ save cls self s = (Raise e, s)).
Proof.
  intros Hid Ht. unfold save, update, bind, lift. rewrite Hid, Ht.
  destruct (__dump_properties cls self true) as [payload|e].
  - left. exists payload. split; [reflexivity|].
    unfold call_pages_update, mutate, ret.
    destruct (pages_update client (world s) _) as [[v|e] w]; reflexivity.
  - right. exists e. split; reflexivity.
Qed.

(** ** Relations *)

Lemma flat_load_pure (ms : list (string * Property)) (data : value) :
  forallb (fun kp => match snd kp with RelationProperty _ _ => false | _ => true end)
          ms = true ->
  forall acc s,
    snd ((fix go (ms : list (string * Property)) (properties : list (string * value))
            {struct ms} : M (list (string * value)) :=
            match ms with
            | [] => ret properties
            | (key, define) :: rest =>
                present <~ lift (py_in (remote_name key define) data) ;;
                if present : bool then
                  d <~ lift (getitem data (remote_name key define)) ;;
                  v <~ load define d ;;
                  go rest (kw_set properties key v)
                else go rest properties
            end) ms acc s) = s.
Proof.
  induction ms as [|[key define] ms IH]; intros Hf acc s; [reflexivity|].
  cbn [forallb snd] in Hf. apply andb_prop in Hf. destruct Hf as [Hp Hf].
  unfold bind, lift.
  destruct (py_in (remote_name key define) data) as [[|]|e]; [| |reflexivity].
  - destruct (getitem data (remote_name key define)) as [dta|e]; [|reflexivity].
    assert (Hl : snd (load define dta s) = s).
    { destruct define; try discriminate Hp; cbn [load]; unfold bind, lift;
        try reflexivity.
      destruct (getitem dta "type"); reflexivity. }
    destruct (load define dta s) as [[v|e] s1]; cbn [snd] in Hl; subst s1.
    + apply (IH Hf).
    + reflexivity.
  - apply (IH Hf).
Qed.

Lemma flat_get_log (related : ModelClass) (id : value) (s : state) :
  is_flat related = true ->
  snd (get_with related (_load_properties related) id s)
  = logged (retrieve_call id) s.
Proof.
  intros Hf. unfold get_with, bind, lift, call_pages_retrieve, retrieve_call.
  destruct (pages_retrieve client (world s) _) as [response|e]; [|reflexivity].
  destruct (getitem response "properties") as [data|e]; [|reflexivity].
  destruct related as [d ms u]. cbn [_load_properties].
  pose proof (flat_load_pure ms data Hf [] (logged (Call "pages.retrieve"
                [(KStr "page_id", id)]) s)) as Hp.
  match goal with
  | |- snd (match ?run with _ => _ end) = _ => destruct run as [[props|e] s1]
  end; cbn [snd] in Hp; subst s1; [|reflexivity].
  destruct (getitem response "id"); reflexivity.
Qed.

Lemma bind_ok {A B} (m : M A) (f : A -> M B) (s s' : state) (b : B) :
  bind m f s = (Ok b, s') ->
  exists a s1, m s = (Ok a, s1) /\ f a s1 = (Ok b, s').
Proof.
  unfold bind. destruct (m s) as [[a|e] s1]; [|discriminate].
  intros H. exists a, s1. split; [reflexivity|exact H].
Qed.

Lemma lift_ok {A} (r : result A) (s s' : state) (a : A) :
  lift r s = (Ok a, s') -> r = Ok a /\ s' = s.
Proof. unfold lift. intros H. inversion H. split; reflexivity. Qed.

Lemma flat_relation_entries (related : ModelClass) (ids : list value) :
  is_flat related = true ->
  forall s entries s',
    for_each (fun related_id =>
                obj <~ get_with related (_load_properties related) related_id ;;
                label <~ lift (instance_str obj) ;;
                k <~ lift (as_key related_id) ;;
                ret (k, label)) ids s = (Ok entries, s') ->
    world s' = world s
    /\ log s' = (log s ++ map retrieve_call ids)%list.
Proof.
  intros Hf. induction ids as [|i ids IH]; intros s entries s' H.
  - cbn in H. inversion H. subst. cbn [map]. rewrite app_nil_r. split; reflexivity.
  - cbn [for_each] in H.
    apply bind_ok in H. destruct H as (entry & s1 & Hb & H).
    apply bind_ok in Hb. destruct Hb as (obj & s0 & Hg & Hb).
    pose proof (flat_get_log related i s Hf) as Hs. rewrite Hg in Hs.
    cbn [snd] in Hs. subst s0.
    apply bind_ok in Hb. destruct Hb as (label & s2 & Hl & Hb).
    apply lift_ok in Hl. destruct Hl as [_ ->].
    apply bind_ok in Hb. destruct Hb as (k & s3 & Hk & Hb).
    apply lift_ok in Hk. destruct Hk as [_ ->].
    unfold ret in Hb. inversion Hb. subst s1.
    apply bind_ok in H. destruct H as (rest & s4 & Hr & H).
    destruct (IH _ _ _ Hr) as (Hw & Hl).
    unfold ret in H. inversion H. subst.
    split; [exact Hw|].
    rewrite Hl. cbn [logged log map]. rewrite <- app_assoc. reflexivity.
Qed.

(** X17. Loading a relation to a type without relations of its own retrieves
    every related page, one [pages.retrieve] per identifier in the order
    of the relation, and leaves the store as it is. *)
Theorem relation_load_retrieves_each (related : ModelClass) (n : option string)
    (data v : value) (s s' : state) :
  is_flat related = true ->
  load (RelationProperty related n) data s = (Ok v, s') ->
  exists ids,
    (l <- _convert_data data ;; py_iter l) = Ok ids
    /\ world s' = world s
    /\ log s' = (log s ++ map retrieve_call ids)%list.
Proof.
  intros Hf H. cbn [load] in H.
  apply bind_ok in H. destruct H as (l & s0 & Hc & H).
  apply lift_ok in Hc. destruct Hc as [Hc ->].
  apply bind_ok in H. destruct H as (ids & s0 & Hi & H).
  apply lift_ok in Hi. destruct Hi as [Hi ->].
  exists ids. split; [rewrite Hc; exact Hi|].
  apply bind_ok in H. destruct H as (entries & s1 & Hr & H).
  unfold ret in H. inversion H. subst.
  exact (flat_relation_entries related ids Hf _ _ _ Hr).
Qed.

(** ** Database records and database information *)

Lemma truthy_str (a : string) : a <> "" -> truthy (VStr a) = true.
Proof.
  intros Hne. cbn [truthy]. destruct (String.eqb a "") eqn:E; [|reflexivity].
  apply String.eqb_eq in E. contradiction.
Qed.

(** X18. [is_database_record] does not see the hyphens of the identifier it is
    given: two identifiers that differ in hyphens only give the same
    answer on every page. *)
Theorem is_database_record_ignores_hyphens (page : value) (a b : string) :
  a <> "" -> b <> "" ->
  remove_hyphens a = remove_hyphens b ->
  is_database_record page (VStr a) = is_database_record page (VStr b).
Proof.
  intros Ha Hb Hab. unfold is_database_record.
  rewrite (truthy_str a Ha), (truthy_str b Hb).
  cbn [replace_hyphens]. rewrite Hab. reflexivity.
Qed.

(** X19. The page's own identifier is compared without its hyphens too: on a
    record of a database, the answer is whether the two identifiers agree
    once their hyphens are removed. *)
Theorem is_database_record_compares_plain (page parent : value) (a b : string) :
  b <> "" ->
  getitem page "parent" = Ok parent ->
  getitem parent "type" = Ok (VStr "database_id") ->
  getitem parent "database_id" = Ok (VStr a) ->
  is_database_record page (VStr b)
  = Ok (String.eqb (remove_hyphens a) (remove_hyphens b)).
Proof.
  intros Hb Hp Ht Hd. unfold is_database_record.
  rewrite (truthy_str b Hb), Hp. cbn [rbind]. rewrite Ht. cbn [rbind].
  change (str_is (VStr "database_id") "database_id") with true. cbv iota.
  rewrite Hd. reflexivity.
Qed.

Ltac lookup_set :=
  repeat first [rewrite dict_get_set_same
               |rewrite dict_get_set_other by reflexivity].

Lemma database_info_kwargs_cases (database_id title icon description : value) :
  (exists kwargs,
     database_info_kwargs database_id title icon description = Ok kwargs
     /\ dict_get kwargs "database_id" = Some database_id
     /\ dict_get kwargs "title"
        = (if truthy title then Some (text_object title) else None)
     /\ (is_none icon = true -> dict_get kwargs "icon" = Some VNone)
     /\ (is_none icon = false -> truthy icon = false -> dict_get kwargs "icon" = None)
     /\ (truthy icon = true ->
         exists payload, dict_get kwargs "icon" = Some (VDict payload))
     /\ dict_get kwargs "description"
        = (if is_none description then Some (VList [])
           else if truthy description then Some (text_object description)
           else None))
  \/ (database_info_kwargs database_id title icon description = Raise AttributeError
      /\ truthy icon = true /\ forall str, icon <> VStr str).
Proof.
  unfold database_info_kwargs. cbv zeta.
  set (kw0 := if truthy title then _ else _).
  assert (H0 : dict_get kw0 "database_id" = Some database_id
               /\ dict_get kw0 "title"
                  = (if truthy title then Some (text_object title) else None)
               /\ dict_get kw0 "icon" = None
               /\ dict_get kw0 "description" = None).
  { unfold kw0. destruct (truthy title); cbn; repeat split; reflexivity. }
  clearbody kw0. destruct H0 as (Hd & Hti & Hic & Hde).
  set (icon_step := if is_none icon then _ else _).
  assert (H1 : (exists kw1,
                  icon_step = Ok kw1
                  /\ dict_get kw1 "database_id" = Some database_id
                  /\ dict_get kw1 "title"
                     = (if truthy title then Some (text_object title) else None)
                  /\ (is_none icon = true -> dict_get kw1 "icon" = Some VNone)
                  /\ (is_none icon = false -> truthy icon = false ->
                      dict_get kw1 "icon" = None)
                  /\ (truthy icon = true ->
                      exists payload, dict_get kw1 "icon" = Some (VDict payload))
                  /\ dict_get kw1 "description" = None)
               \/ (icon_step = Raise AttributeError
                   /\ truthy icon = true /\ forall str, icon <> VStr str)).
  { unfold icon_step. destruct (is_none icon) eqn:Ei.
    - left. eexists. split; [reflexivity|].
      repeat split; intros; lookup_set; try assumption; try discriminate;
        try reflexivity.
      destruct icon; discriminate.
    - destruct (truthy icon) eqn:Et.
      + destruct (startswith_http icon) as [http|e] eqn:Eh; cbn [rbind].
        * left. destruct http; eexists; (split; [reflexivity|]);
            repeat split; intros; lookup_set; try assumption; try discriminate;
            eexists; reflexivity.
        * right. destruct icon; cbn in Eh; try discriminate Eh;
            inversion Eh; (split; [reflexivity|]); (split; [reflexivity|]);
            intros str; discriminate.
      + left. exists kw0. repeat split; intros; try assumption; try discriminate. }
  clearbody icon_step.
  destruct H1 as [(kw1 & E1 & Hd1 & Hti1 & Hn1 & He1 & Hs1 & Hde1)|(E1 & Ht & Hs)].
  - left. rewrite E1. cbn [rbind].
    destruct (is_none description).
    + eexists. split; [reflexivity|].
      repeat split; intros; lookup_set; auto.
    + destruct (truthy description).
      * eexists. split; [reflexivity|].
        repeat split; intros; lookup_set; auto.
      * exists kw1. repeat split; assumption.
  - right. rewrite E1. repeat split; assumption.
Qed.

(** X20. [update_database_info] sends the title only when it is not empty, and
    distinguishes three cases for the icon and for the description: [None]
    is sent as a removal, an empty value is not sent, any other value is
    sent as the new one.  It issues one [databases.update] and nothing
    else; an icon that is neither [None], empty nor a string raises
    [AttributeError] before any call. *)
Theorem update_database_info_call (database_id title icon description : value)
    (s : state) :
  (exists kwargs,
     log (snd (update_database_info database_id title icon description s))
     = (log s ++ [Call "databases.update" kwargs])%list
     /\ dict_get kwargs "database_id" = Some database_id
     /\ dict_get kwargs "title"
        = (if truthy title then Some (text_object title) else None)
     /\ (is_none icon = true -> dict_get kwargs "icon" = Some VNone)
     /\ (is_none icon = false -> truthy icon = false -> dict_get kwargs "icon" = None)
     /\ (truthy icon = true ->
         exists payload, dict_get kwargs "icon" = Some (VDict payload))
     /\ dict_get kwargs "description"
        = (if is_none description then Some (VList [])
           else if truthy description then Some (text_object description)
           else None))
  \/ (update_database_info database_id title icon description s
      = (Raise AttributeError, s)
      /\ truthy icon = true /\ forall str, icon <> VStr str).
Proof.
  unfold update_database_info, bind, lift.
  destruct (database_info_kwargs_cases database_id title icon description)
    as [(kwargs & E & H)|(E & H)]; rewrite E.
  - left. exists kwargs. split; [|exact H].
    unfold mutate. destruct (databases_update (world s) kwargs) as [r w].
    reflexivity.
  - right. split; [reflexivity|exact H].
Qed.

(** ** More on queries, filters and listings *)

(** X21. [Manager.get] on a type without relations issues exactly one
    [pages.retrieve], for the identifier it is given, whether it returns a
    record or raises. *)
Theorem get_issues_one_retrieve (m : Manager) (id : value) (s : state) :
  is_flat (model m) = true ->
  snd (Manager_get m id s) = logged (retrieve_call id) s.
Proof. intros Hf. unfold Manager_get. apply flat_get_log. exact Hf. Qed.

(** X22. The filter of a property names it by the name given at its
    declaration only: for a property declared without a name the filter
    is on the property [None], while the payload [__dump_properties]
    writes falls back on the attribute name. *)
Theorem unnamed_property_filters_on_none (key : string) (p : Property)
    (v f : value) :
  name p = None ->
  format p <> KStr "property" ->
  filter_value p v = Ok f ->
  getitem f "property" = Ok VNone /\ remote_name key p = key.
Proof.
  intros Hn Hf H. split; [|unfold remote_name; rewrite Hn; reflexivity].
  assert (Hb : getitem (base_filter_value p v) "property" = Ok VNone
               /\ forall s, getitem (base_filter_value p s) "property" = Ok VNone).
  { assert (Hg : forall x, getitem (base_filter_value p x) "property" = Ok VNone).
    { intros x. unfold base_filter_value, name_value. rewrite Hn.
      cbn [getitem]. cbn [dict_set].
      destruct (key_eqb (format p) "property") eqn:E.
      - apply key_eqb_eq in E. contradiction.
      - cbn [dict_get key_eqb]. rewrite String.eqb_refl. reflexivity. }
    split; [apply Hg|exact Hg]. }
  destruct Hb as [Hb Hall].
  destruct p; cbn [filter_value] in H; try (inversion H; subst; exact Hb).
  apply rbind_ok in H. destruct H as (x & _ & H).
  apply rbind_ok in H. destruct H as (t & _ & H).
  inversion H. subst. apply Hall.
Qed.

Lemma page_blocks_loop_option (descend : block -> gen) (ex ex' : value)
    (kids : list block) :
  Forall (fun b => py_in "synced_block" (block_data b) = Ok false) kids ->
  page_blocks_loop descend ex kids = page_blocks_loop descend ex' kids.
Proof.
  intros H. induction H as [|b kids Hb H IH]; [reflexivity|].
  cbn [page_blocks_loop]. cbv zeta. rewrite Hb. cbn [rbind]. rewrite IH.
  destruct (getitem (block_data b) "has_children") as [hc|e]; [|reflexivity].
  cbn [g_try].
  destruct (if truthy hc then _ else _) as [[|]|e]; cbn [g_try]; try reflexivity.
  destruct (truthy ex), (truthy ex'); reflexivity.
Qed.

(** X23. The option [exclude_synced_block] reaches the blocks directly under
    the page only: the recursive call passes [page_size] in its place, so
    on a page whose top-level blocks are not synced blocks the listing is
    the same for every value of the option. *)
Theorem exclude_option_top_level_only (page : block)
    (exclude_synced_block exclude_synced_block' page_size : value) :
  Forall (fun b => py_in "synced_block" (block_data b) = Ok false)
         (block_children page) ->
  list_page_blocks page exclude_synced_block page_size
  = list_page_blocks page exclude_synced_block' page_size.
Proof.
  destruct page as [d kids]. cbn [list_page_blocks block_children].
  apply page_blocks_loop_option.
Qed.

(** ** The queries of [upsert] *)

Lemma flat_load_lift (ms : list (string * Property)) (data : value) :
  forallb (fun kp => match snd kp with RelationProperty _ _ => false | _ => true end)
          ms = true ->
  forall acc, exists r, forall s,
    (fix go (ms : list (string * Property)) (properties : list (string * value))
       {struct ms} : M (list (string * value)) :=
       match ms with
       | [] => ret properties
       | (key, define) :: rest =>
           present <~ lift (py_in (remote_name key define) data) ;;
           if present : bool then
             d <~ lift (getitem data (remote_name key define)) ;;
             v <~ load define d ;;
             go rest (kw_set properties key v)
           else go rest properties
       end) ms acc s = (r, s).
Proof.
  induction ms as [|[key define] ms IH]; intros Hf acc.
  - exists (Ok acc). reflexivity.
  - cbn [forallb snd] in Hf. apply andb_prop in Hf. destruct Hf as [Hp Hf].
    unfold bind, lift.
    destruct (py_in (remote_name key define) data) as [[|]|e].
    + destruct (getitem data (remote_name key define)) as [dta|e].
      * assert (Hl : exists r, forall s, load define dta s = (r, s)).
        { destruct define; try discriminate Hp; cbn [load]; unfold bind, lift;
            try (eexists; intros s; reflexivity).
          destruct (getitem dta "type"); eexists; intros s; reflexivity. }
        destruct Hl as ([v|e] & Hl).
        -- destruct (IH Hf (kw_set acc key v)) as (r & Hr). exists r.
           intros s. rewrite Hl. apply Hr.
        -- exists (Raise e). intros s. rewrite Hl. reflexivity.
      * exists (Raise e). reflexivity.
    + apply (IH Hf).
    + exists (Raise e). reflexivity.
Qed.

Lemma flat_load_page (cls : ModelClass) (page : value) :
  is_flat cls = true -> exists r, forall s, load_page cls page s = (r, s).
Proof.
  intros Hf. unfold load_page, bind, lift.
  destruct (getitem page "properties") as [data|e];
    [|exists (Raise e); reflexivity].
  destruct cls as [d ms u]. cbn [_load_properties].
  destruct (flat_load_lift ms data Hf []) as ([props|e] & Hr).
  - destruct (getitem page "id") as [id|e].
    + eexists. intros s. rewrite Hr. reflexivity.
    + exists (Raise e). intros s. rewrite Hr. reflexivity.
  - exists (Raise e). intros s. rewrite Hr. reflexivity.
Qed.

Lemma flat_for_each {A} (body : value -> M A) (items : list value) :
  (forall x, exists r, forall s, body x s = (r, s)) ->
  exists r, forall s, for_each body items s = (r, s).
Proof.
  intros Hb. induction items as [|x items IH].
  - exists (Ok []). reflexivity.
  - cbn [for_each]. unfold bind, ret.
    destruct (Hb x) as ([a|e] & Ha).
    + destruct IH as ([l|e] & Hl).
      * exists (Ok (a :: l)). intros s. rewrite Ha, Hl. reflexivity.
      * exists (Raise e). intros s. rewrite Ha, Hl. reflexivity.
    + exists (Raise e). intros s. rewrite Ha. reflexivity.
Qed.

Lemma bind_run {A B} (m : M A) (f : A -> M B) (s s' : state) (a : A) :
  m s = (Ok a, s') -> bind m f s = f a s'.
Proof. intros H. unfold bind. rewrite H. reflexivity. Qed.

(** On a type without relations a query is one call, and its result
    depends on the store and the arguments only. *)
Lemma flat_query (m : Manager) (s s' : state) :
  is_flat (model m) = true ->
  world s' = world s ->
  snd (Manager_query m s) = logged (Call "databases.query" (query_kwargs m)) s
  /\ fst (Manager_query m s') = fst (Manager_query m s).
Proof.
  intros Hf Hw.
  assert (Hd : forall st : stream, exists r,
               forall s0, drain (load_page (model m)) st s0 = (r, s0)).
  { intros st. unfold drain, bind.
    destruct (flat_for_each (load_page (model m)) (fst st)
                (fun x => flat_load_page (model m) x Hf)) as ([l|e] & Hl).
    - destruct (snd st) as [e|].
      + exists (Raise e). intros s0. rewrite Hl. reflexivity.
      + exists (Ok l). intros s0. rewrite Hl. reflexivity.
    - exists (Raise e). intros s0. rewrite Hl. reflexivity. }
  unfold Manager_query, bind, call_databases_query. rewrite Hw.
  destruct (Hd (databases_query client (world s) (query_kwargs m))) as (r & Hr).
  rewrite !Hr. split; reflexivity.
Qed.

(** X24. An [upsert] that finds no record asks twice: on a type without
    relations, for a record without identifier whose uniqueness filter
    matches nothing, [upsert] issues the uniqueness query, then [save]
    issues the same query again, and then the create. *)
Theorem upsert_miss_queries_twice (cls : ModelClass) (self : instance)
    (id f : value) (payload : dict) (s : state) :
  is_flat cls = true ->
  unique_keys cls <> [] ->
  getattr self "id" = Ok id ->
  truthy id = false ->
  unique_filter cls self = Ok f ->
  fst (Manager_query (Manager_filter (objects cls) f) s) = Ok [] ->
  __dump_properties cls self false = Ok payload ->
  log (snd (upsert cls self s))
  = (log s
     ++ [Call "databases.query" (query_kwargs (Manager_filter (objects cls) f));
         Call "databases.query" (query_kwargs (Manager_filter (objects cls) f));
         Call "pages.create"
           [(KStr "parent", VDict [(KStr "database_id", database_id cls)]);
            (KStr "properties", VDict payload);
            (KStr "children", VList [])]])%list.
Proof.
  intros Hf Hu Hid Ht Hfil Hq Hdump.
  set (m := Manager_filter (objects cls) f) in *.
  assert (Hm : is_flat (model m) = true) by exact Hf.
  set (s1 := logged (Call "databases.query" (query_kwargs m)) s).
  set (s2 := logged (Call "databases.query" (query_kwargs m)) s1).
  assert (E1 : Manager_query m s = (Ok [], s1)).
  { destruct (flat_query m s s Hm eq_refl) as [Hs _].
    destruct (Manager_query m s) as [r1 t1]. cbn [fst snd] in Hq, Hs.
    subst. reflexivity. }
  assert (E2 : Manager_query m s1 = (Ok [], s2)).
  { destruct (flat_query m s s1 Hm eq_refl) as [_ Hr].
    destruct (flat_query m s1 s1 Hm eq_refl) as [Hs _].
    rewrite Hq in Hr.
    destruct (Manager_query m s1) as [r2 t2]. cbn [fst snd] in Hr, Hs.
    subst. reflexivity. }
  assert (Hfil' : forall s0, lift (unique_filter cls self) s0 = (Ok f, s0)).
  { intros s0. unfold lift. rewrite Hfil. reflexivity. }
  unfold upsert. destruct (unique_keys cls) as [|k ks] eqn:Ek; [contradiction|].
  rewrite (bind_run _ _ _ _ _ (Hfil' s)). fold m.
  rewrite (bind_run _ _ _ _ _ E1). cbv beta iota.
  unfold save.
  assert (Hid' : lift (getattr self "id") s1 = (Ok id, s1)).
  { unfold lift. rewrite Hid. reflexivity. }
  rewrite (bind_run _ _ _ _ _ Hid'). rewrite Ht, Ek. cbv beta iota.
  assert (Hcheck :
            (filter <~ lift (unique_filter cls self) ;;
             objs <~ Manager_query (Manager_filter (objects cls) filter) ;;
             if (0 <? List.length objs)%nat
             then raise (IntegrityError "Unique constraint failed.")
             else ret tt) s1 = (Ok tt, s2)).
  { rewrite (bind_run _ _ _ _ _ (Hfil' s1)). fold m.
    rewrite (bind_run _ _ _ _ _ E2). reflexivity. }
  rewrite (bind_run _ _ _ _ _ Hcheck).
  assert (Hd : lift (__dump_properties cls self false) s2 = (Ok payload, s2)).
  { unfold lift. rewrite Hdump. reflexivity. }
  rewrite (bind_run _ _ _ _ _ Hd).
  unfold bind at 1. unfold call_pages_create, mutate.
  destruct (pages_create client _ _) as [[response|e] w].
  - unfold bind, lift, ret.
    destruct (getitem response "id"); cbn [snd log]; unfold s2, s1, logged;
      cbn [log]; rewrite <- !app_assoc; reflexivity.
  - cbn [snd log]. unfold s2, s1, logged. cbn [log].
    rewrite <- !app_assoc. reflexivity.
Qed.

End NotionHelper.

(** * The statements at sample inputs *)

(** The example of the specification, in a zone that is UTC+8. *)
Example str_to_datetime_example :
  _str_to_datetime utc_plus_8 (VStr "2024-01-01T10:00:00.000000+08:00")
  = Ok (VDateTime (mkdatetime (mkdate 2024 1 1) 10 0 0 0 (Some 28800000000) true)).
Proof. vm_compute. reflexivity. Qed.

(** The text printed for noon of new year's day at UTC+8 is read by the
    first format, as that instant in the zone. *)
Lemma str_to_datetime_two_formats_witness :
  strptime_datetime (strftime_datetime new_year_noon) = Some (as_parsed new_year_noon)
  /\ _str_to_datetime utc_plus_8 (VStr "2024-01-01T12:00:00.000+0800")
     = Ok (VDateTime (mkdatetime (mkdate 2024 1 1) 12 0 0 0
                                 (Some (28800 * US_PER_SECOND)) true)).
Proof.
  destruct (str_to_datetime_two_formats utc_plus_8 "")
    as (_ & _ & _ & _ & H & _).
  exact (H new_year_noon eq_refl).
Defined.

(** Three table rows of two cells render as the first row, one separator
    line, and the two other rows. *)
Example table_page_text :
  __list_blocks utc_plus_8 true table_page 0
  = Ok (nl ++ "| A | B |" ++ nl ++ "| --- | --- |" ++ nl ++ "| 1 | 2 |"
           ++ nl ++ "| 3 | 4 |").
Proof. vm_compute. reflexivity. Qed.

(** Alice is looked up by the column Email with her address; with no
    record in the store, saving her queries, creates, and hands her the
    identifier of the response. *)
Lemma save_enforces_uniqueness_witness :
  is_uniqueness_filter Contact alice
    (VDict [(KStr "property", VStr "Email");
            (KStr "email", VDict [(KStr "equals", VStr "a@x.com")])])
  /\ exists s2,
       save utc_plus_8 true memory_client Contact alice (mkstate memory_client [] [])
       = (Ok (setattr alice "id" (VStr "page-new")), s2)
       /\ getattr (setattr alice "id" (VStr "page-new")) "id" = Ok (VStr "page-new").
Proof.
  pose proof (save_enforces_uniqueness utc_plus_8 true memory_client Contact alice
                VNone (mkstate memory_client [] []) eq_refl eq_refl
                ltac:(discriminate)) as H.
  cbv zeta in H. destruct H as (Hf & _ & _ & H).
  split; [exact Hf|]. eexists. exact H.
Defined.

(** With a record of the same email in the store, saving Alice fails and
    the create is not issued. *)
Example save_duplicate :
  save utc_plus_8 true memory_client Contact alice
       (mkstate memory_client [alice_page "p-1"] [])
  = (Raise (IntegrityError "Unique constraint failed."),
     mkstate memory_client [alice_page "p-1"]
       [Call "databases.query"
          [(KStr "database_id", VStr "db-contacts");
           (KStr "filter",
            VDict [(KStr "property", VStr "Email");
                   (KStr "email", VDict [(KStr "equals", VStr "a@x.com")])])]]).
Proof. vm_compute. reflexivity. Qed.

(** C2, the claim as stated: [upsert] on a type that declares no
    uniqueness key is not refused; it creates the record. *)
Lemma upsert_without_unique_keys :
  unique_keys Note = []
  /\ exists s',
       upsert utc_plus_8 true memory_client Note memo (mkstate memory_client [] [])
       = (Ok (setattr memo "id" (VStr "page-new")), s')
       /\ map endpoint_of (log memory_client s') = ["pages.create"].
Proof.
  split; [reflexivity|]. eexists. split; vm_compute; reflexivity.
Qed.

Lemma update_sends_no_unique_key_witness :
  exists payload,
    __dump_properties Contact alice_saved true = Ok payload
    /\ map fst payload = [KStr "Name"; KStr "tags"]
    /\ dict_get payload (KStr "Email") = None.
Proof.
  assert (Hnd : NoDup (remote_names Contact)).
  { repeat constructor; simpl; intuition discriminate. }
  pose proof (update_sends_no_unique_key memory_client Contact alice_saved
                (VStr "p-1") (mkstate memory_client [] []) eq_refl eq_refl Hnd) as H.
  destruct (__dump_properties Contact alice_saved true) as [payload|e] eqn:E.
  - exists payload. destruct H as (_ & Huk & _).
    split; [reflexivity|]. split.
    + vm_compute in E. inversion E. reflexivity.
    + apply (Huk "email" (EmailProperty (Some "Email"))).
      * left. reflexivity.
      * left. reflexivity.
  - vm_compute in E. discriminate E.
Defined.

Lemma read_only_never_written_witness :
  __dump_properties Contact (setattr alice "joined" (VStr "2020-01-01")) false
  = __dump_properties (writable Contact) alice false.
Proof.
  refine (proj2 (read_only_never_written Contact alice "joined" None
                   (VStr "2020-01-01") false _)).
  intros p Hin. simpl in Hin.
  repeat (destruct Hin as [Hin|Hin]; [inversion Hin; subst; try reflexivity|]);
    try contradiction.
Defined.

Lemma table_separator_once_witness :
  exists before after,
    render_siblings utc_plus_8 true (fun _ => Ok "") 0 mixed_pre VNone "" = Ok before
    /\ text_in_table utc_plus_8 true (fun _ => Ok "") 0 mixed_post = Ok after
    /\ after = nl ++ "between" ++ nl ++ "| 1 | 2 |"
    /\ nl ++ nl ++ "intro" ++ nl ++ "| A | B |" ++ nl ++ "| --- | --- |"
          ++ nl ++ "between" ++ nl ++ "| 1 | 2 |"
       = before ++ nl ++ "| A | B |" ++ nl ++ "| --- | --- |" ++ after.
Proof.
  destruct (table_separator_once utc_plus_8 true (fun _ => Ok "") 0
              mixed_pre mixed_post mixed_row
              (nl ++ nl ++ "intro" ++ nl ++ "| A | B |" ++ nl ++ "| --- | --- |"
                  ++ nl ++ "between" ++ nl ++ "| 1 | 2 |")
              ltac:(repeat constructor) eq_refl ltac:(vm_compute; reflexivity))
    as (before & cells & sub & after & Hb & Hc & Hs & Ha & Hout).
  exists before, after.
  split; [exact Hb|]. split; [exact Ha|]. split.
  - vm_compute in Ha. inversion Ha. reflexivity.
  - vm_compute in Hc. inversion Hc; subst cells.
    vm_compute in Hs. inversion Hs; subst sub.
    exact Hout.
Defined.

(** A cutoff of the zone itself, in a zone of constant offset. *)
Lemma list_recent_pages_cutoff_witness :
  exists g pre post,
    fst (list_recent_pages utc_plus_8 memory_client (VDateTime mid_february_zoned)
           (VInt 100) (mkstate memory_client three_pages [])) = Ok g
    /\ three_pages = (pre ++ post)%list
    /\ fst g = pre
    /\ Forall (edited_after utc_plus_8 mid_february_us) pre
    /\ Forall (edited_at_or_before utc_plus_8 mid_february_us) post
    /\ match post with
       | [] => snd g = None
       | _ :: _ => snd g = None
       end.
Proof.
  refine (list_recent_pages_cutoff utc_plus_8 memory_client mid_february_zoned
            mid_february_us (VInt 100) (mkstate memory_client three_pages [])
            eq_refl _ _ _).
  - repeat constructor; vm_compute; discriminate.
  - unfold newest_first. repeat constructor; vm_compute; discriminate.
  - intros _. repeat constructor; eexists; split; vm_compute; reflexivity.
Defined.

(** C9, on the code: in a zone where an hour occurs twice (here the hour
    from 02:00 to 03:00 of 2023-10-29, first at UTC+2, then at UTC+1), the
    decoded time of a page and a cutoff of that zone carry the same
    [tzinfo] object, so [<=] compares their wall-clock fields.  With the
    cutoff 02:15 of the second occurrence (01:15 UTC) the generator yields
    a page edited at 00:45 UTC, before the cutoff; with the cutoff 02:45
    of the first occurrence (00:45 UTC) it stops at a page edited at 01:15
    UTC, after the cutoff, and yields nothing. *)
Theorem cutoff_in_repeated_hour :
  (exists cu,
     utc_us quarter_past_two_again = Some cu
     /\ edited_at_or_before paris_autumn cu
          (page_edited_at "p" "2023-10-29T00:45:00.000Z")
     /\ fst (list_recent_pages paris_autumn memory_client
               (VDateTime quarter_past_two_again) (VInt 100)
               (mkstate memory_client
                  [page_edited_at "p" "2023-10-29T00:45:00.000Z"] []))
        = Ok ([page_edited_at "p" "2023-10-29T00:45:00.000Z"], None))
  /\ (exists cu,
        utc_us quarter_to_three_first = Some cu
        /\ edited_after paris_autumn cu
             (page_edited_at "q" "2023-10-29T01:15:00.000Z")
        /\ fst (list_recent_pages paris_autumn memory_client
                  (VDateTime quarter_to_three_first) (VInt 100)
                  (mkstate memory_client
                     [page_edited_at "q" "2023-10-29T01:15:00.000Z"] []))
           = Ok ([], None)).
Proof.
  split; eexists; (split; [reflexivity|]); split.
  - eexists. split; [vm_compute; reflexivity|]. vm_compute. discriminate.
  - vm_compute. reflexivity.
  - eexists. split; [vm_compute; reflexivity|]. vm_compute. reflexivity.
  - vm_compute. reflexivity.
Qed.

(** C10, the claim as stated: a manager kept in a variable is configured
    in one statement and queried in a later one, after another access to
    [objects]; the query carries the filter, so a chained
    [filter(...).query()] is not the only way configuration reaches a
    query. *)
Lemma kept_manager_carries_filter :
  let f := VDict [(KStr "property", VStr "Email");
                  (KStr "email", VDict [(KStr "equals", VStr "a@x.com")])] in
  let (h1, r1) := objects_ref Contact [] in
  let (h2, _) := filter_ref r1 f h1 in
  let (h3, r2) := objects_ref Contact h2 in
  r2 <> r1
  /\ log memory_client
       (snd (query_ref utc_plus_8 true memory_client r1 h3
               (mkstate memory_client [] [])))
     = [Call "databases.query"
          [(KStr "database_id", VStr "db-contacts"); (KStr "filter", f)]]
  /\ log memory_client
       (snd (query_ref utc_plus_8 true memory_client r2 h3
               (mkstate memory_client [] [])))
     = [Call "databases.query" [(KStr "database_id", VStr "db-contacts")]].
Proof.
  cbv zeta. split; [discriminate|]. split; vm_compute; reflexivity.
Qed.

(** C5, the claim as stated: the payload that encodes a title has no
    [plain_text], which decoding reads. *)
Lemma round_trip_title_fails :
  round_trip utc_plus_8 true (TitleProperty None) (VStr "abc")
  = Raise (KeyError "plain_text")
  /\ round_trip utc_plus_8 true (TitleProperty None) (VStr "abc")
     <> Ok (VStr "abc").
Proof. split; [reflexivity|discriminate]. Qed.

Lemma round_trip_by_kind_witness :
  round_trip utc_plus_8 true (DateProperty None)
             (VList [VDate (mkdate 2024 1 1); VDate (mkdate 2024 12 31)])
  = Ok (VList [VDate (mkdate 2024 1 1); VDate (mkdate 2024 12 31)])
  /\ exists a' b',
       round_trip utc_plus_8 true (DateProperty None)
                  (VList [VDateTime new_year_noon; VDateTime new_year_evening])
       = Ok (VList [VDateTime a'; VDateTime b'])
       /\ utc_us a' = utc_us new_year_noon
       /\ utc_us b' = utc_us new_year_evening.
Proof.
  destruct (round_trip_by_kind utc_plus_8 true None)
    as (_ & _ & _ & _ & Hd & Hdt & _).
  split.
  - apply Hd; try reflexivity; cbn; lia.
  - eexists. eexists. apply Hdt; vm_compute; reflexivity.
Defined.

(** * Further statements at sample inputs *)

(** The text of the example decodes to an aware datetime at the offset of
    the zone. *)
Lemma str_to_datetime_result_witness :
  (exists s, VStr "2024-01-01T10:00:00.000000+08:00" = VStr s)
  /\ ((exists d, VDateTime (mkdatetime (mkdate 2024 1 1) 10 0 0 0 (Some 28800000000) true)
                 = VDate d /\ valid_date d = true)
      \/ exists t u,
           VDateTime (mkdatetime (mkdate 2024 1 1) 10 0 0 0 (Some 28800000000) true)
           = VDateTime t
           /\ utc_us t = Some u /\ utcoffset t = Some (utc_plus_8 u)).
Proof.
  apply (str_to_datetime_result utc_plus_8
           (VStr "2024-01-01T10:00:00.000000+08:00")).
  vm_compute. reflexivity.
Defined.

(** A date without an end decodes to a list of one date, which
    [DateProperty] encodes. *)
Lemma decoded_date_is_encodable_witness :
  _convert_data utc_plus_8 true
    (VDict [(KStr "date", VDict [(KStr "start", VStr "2024-01-01");
                                 (KStr "end", VNone)])])
  = Ok (VList [VDate (mkdate 2024 1 1)])
  /\ (VList [VDate (mkdate 2024 1 1)] = VNone
      \/ exists d, dump (DateProperty None) (VList [VDate (mkdate 2024 1 1)]) = Ok d).
Proof.
  split; [vm_compute; reflexivity|].
  apply (decoded_date_is_encodable utc_plus_8 true None
           (VDict [(KStr "date", VDict [(KStr "start", VStr "2024-01-01");
                                        (KStr "end", VNone)])]));
    vm_compute; reflexivity.
Defined.

Lemma date_filter_denotes_date_witness :
  exists s,
    filter_value (DateProperty (Some "Due")) (VList [VDate (mkdate 2024 1 1)])
    = Ok (VDict [(KStr "property", VStr "Due");
                 (KStr "date", VDict [(KStr "equals", VStr s)])])
    /\ _str_to_datetime utc_plus_8 (VStr s) = Ok (VDate (mkdate 2024 1 1)).
Proof.
  apply (date_filter_denotes_date utc_plus_8 (Some "Due") (mkdate 2024 1 1) []).
  - reflexivity.
  - simpl. lia.
Defined.

(** A formula whose result is a number decodes to the number. *)
Lemma envelope_decodes_to_content_witness :
  _convert_data utc_plus_8 true
    (VDict [(KStr "type", VStr "formula");
            (KStr "formula", VDict [(KStr "type", VStr "number");
                                    (KStr "number", VInt 3)])])
  = _convert_data utc_plus_8 true
      (VDict [(KStr "type", VStr "number"); (KStr "number", VInt 3)]).
Proof.
  apply (envelope_decodes_to_content utc_plus_8 true
           [(KStr "type", VStr "formula");
            (KStr "formula", VDict [(KStr "type", VStr "number");
                                    (KStr "number", VInt 3)])]
           "formula").
  - vm_compute. reflexivity.
  - left. reflexivity.
  - reflexivity.
Defined.

Lemma rich_text_without_links_witness :
  _convert_data utc_plus_8 true
    (VDict [(KStr "rich_text",
             VList [VDict [(KStr "plain_text", VStr "hi"); (KStr "href", VNone)]])])
  = _convert_data utc_plus_8 true
      (VDict [(KStr "title",
               VList [VDict [(KStr "plain_text", VStr "hi"); (KStr "href", VNone)]])])
  /\ _convert_data utc_plus_8 true
       (VDict [(KStr "title",
                VList [VDict [(KStr "plain_text", VStr "hi"); (KStr "href", VNone)]])])
     = (out <- plain_text_of ""
                 [VDict [(KStr "plain_text", VStr "hi"); (KStr "href", VNone)]] ;;
        Ok (VStr out)).
Proof.
  apply (rich_text_without_links utc_plus_8 true
           [VDict [(KStr "plain_text", VStr "hi"); (KStr "href", VNone)]]).
  - repeat constructor.
  - right. repeat constructor.
Defined.

(** The two-level page renders, so none of its top-level blocks is
    rendered through [get_url]. *)
Lemma link_block_stops_rendering_witness :
  Forall (fun b => is_link_kind (block_kind (block_data b)) = false)
         (block_children nested_page).
Proof.
  eapply (link_block_stops_rendering utc_plus_8 true
            (fun b => __list_blocks utc_plus_8 true b 1) 0
            (block_children nested_page) VNone "").
  lazy. reflexivity.
Defined.

Lemma block_to_text_indentation_witness :
  tab = (if is_list_kind (block_kind (toggle_block "t1")) then tab else "")
  /\ (block_kind (toggle_block "t1") = None -> VStr "+ " = VStr "" /\ VNone = VNone).
Proof.
  apply (block_to_text_indentation utc_plus_8 true (toggle_block "t1") VNone).
  vm_compute. reflexivity.
Defined.

(** The two paragraphs of the toggle come before the toggle, the last
    paragraph after it. *)
Lemma list_page_blocks_postorder_witness :
  list_page_blocks nested_page VNone (VInt 100)
  = ([paragraph_block "a" "first"; paragraph_block "b" "second";
      toggle_block "t1"; paragraph_block "c" "third"], None).
Proof.
  apply (list_page_blocks_postorder nested_page VNone (VInt 100)).
  cbn. unfold plain_node.
  repeat match goal with
         | |- _ /\ _ => split
         | |- True => exact I
         | |- [] <> [] -> _ => let H := fresh in intros H; exfalso; apply H; reflexivity
         | |- _ <> [] -> _ => intros _
         | |- exists _, _ => eexists
         | |- _ = _ => reflexivity
         end.
Defined.

Lemma list_recent_pages_without_cutoff_witness :
  fst (list_recent_pages utc_plus_8 memory_client VNone (VInt 100)
         (mkstate memory_client three_pages []))
  = Ok (three_pages, None).
Proof.
  exact (list_recent_pages_without_cutoff utc_plus_8 memory_client VNone (VInt 100)
           (mkstate memory_client three_pages []) eq_refl).
Defined.

(** [Contact] takes an email, and has no nickname. *)
Lemma init_accepts_declared_keywords_witness :
  (exists self, Model_init Contact [("email", VStr "a@x.com")] = Ok self)
  /\ ~ (exists self, Model_init Contact [("nickname", VStr "Al")] = Ok self).
Proof.
  split.
  - apply (proj2 (init_accepts_declared_keywords Contact
                    [("email", VStr "a@x.com")] eq_refl)).
    reflexivity.
  - intros H.
    apply (proj1 (init_accepts_declared_keywords Contact
                    [("nickname", VStr "Al")] eq_refl)) in H.
    discriminate H.
Defined.

Lemma init_attributes_witness :
  exists self,
    Model_init Contact [("name", VStr "Alice")] = Ok self
    /\ getattr self "name" = Ok (VStr "Alice")
    /\ getattr self "email" = Ok VNone
    /\ getattr self "id" = Ok VNone.
Proof.
  assert (ND : NoDup (map fst [("name", VStr "Alice")])).
  { repeat constructor. intros []. }
  eexists. split; [vm_compute; reflexivity|].
  split; [|split].
  - exact (init_attributes Contact [("name", VStr "Alice")] _ eq_refl ND "name" eq_refl).
  - exact (init_attributes Contact [("name", VStr "Alice")] _ eq_refl ND "email" eq_refl).
  - exact (init_attributes Contact [("name", VStr "Alice")] _ eq_refl ND "id" eq_refl).
Defined.

(** Alice's page gives a record with her email and no name. *)
Lemma load_page_builds_record_witness :
  exists self,
    load_page utc_plus_8 true memory_client Contact (alice_page "p-1")
              (mkstate memory_client [] [])
    = (Ok self, mkstate memory_client [] [])
    /\ getattr self "id" = Ok (VStr "p-1")
    /\ getattr self "email" = Ok (VStr "a@x.com")
    /\ getattr self "name" = Ok VNone.
Proof.
  destruct (load_page_builds_record utc_plus_8 true memory_client Contact
              (alice_page "p-1")
              (VDict [(KStr "Email", VDict [(KStr "email", VStr "a@x.com")])])
              (VStr "p-1") [("email", VStr "a@x.com")]
              (mkstate memory_client [] []) (mkstate memory_client [] [])
              eq_refl eq_refl eq_refl eq_refl ltac:(vm_compute; reflexivity))
    as (self & Hl & Hid & Hk).
  exists self. split; [exact Hl|]. split; [exact Hid|]. split.
  - exact (Hk "email" eq_refl).
  - exact (Hk "name" eq_refl).
Defined.

Lemma delete_detaches_record_witness :
  log memory_client (mkstate memory_client [] [delete_call (VStr "p-1")])
  = ([] ++ [delete_call (id_of alice_saved)])%list
  /\ getattr (setattr alice_saved "id" VNone) "id" = Ok VNone
  /\ update memory_client Contact (setattr alice_saved "id" VNone)
            (mkstate memory_client [] [delete_call (VStr "p-1")])
     = (Raise (ValueError "Object id is None."),
        mkstate memory_client [] [delete_call (VStr "p-1")])
  /\ delete memory_client Contact (setattr alice_saved "id" VNone)
            (mkstate memory_client [] [delete_call (VStr "p-1")])
     = (Raise (ValueError "Object id is None."),
        mkstate memory_client [] [delete_call (VStr "p-1")]).
Proof.
  apply (delete_detaches_record memory_client Contact alice_saved
           (setattr alice_saved "id" VNone) (mkstate memory_client [] [])
           (mkstate memory_client [] [delete_call (VStr "p-1")])).
  vm_compute. reflexivity.
Defined.

(** With Alice's page in the store, [truncate] queries and deletes it. *)
Lemma truncate_deletes_each_witness :
  exists s',
    truncate utc_plus_8 true memory_client Contact
             (mkstate memory_client [alice_page "p-1"] [])
    = (Ok tt, s')
    /\ log memory_client s'
       = [Call "databases.query" [(KStr "database_id", VStr "db-contacts")];
          delete_call (VStr "p-1")].
Proof.
  destruct (truncate_deletes_each utc_plus_8 true memory_client Contact
              [[(KStr "id", VStr "p-1"); (KStr "email", VStr "a@x.com");
                (KStr "joined", VNone); (KStr "name", VNone); (KStr "tags", VNone)]]
              (mkstate memory_client [alice_page "p-1"] [])
              (mkstate memory_client [alice_page "p-1"]
                 [Call "databases.query" [(KStr "database_id", VStr "db-contacts")]]))
    as (s' & Hrun & Hlog).
  - intros w kw. eexists. reflexivity.
  - vm_compute. reflexivity.
  - repeat constructor.
  - exists s'. split; [exact Hrun|]. rewrite Hlog. reflexivity.
Defined.

(** Saving Alice again, with a record of her email already in the store,
    only updates her page. *)
Lemma save_with_id_only_updates_witness :
  (exists payload,
     __dump_properties Contact alice_saved true = Ok payload
     /\ log memory_client
          (snd (save utc_plus_8 true memory_client Contact alice_saved
                  (mkstate memory_client [alice_page "p-2"] [])))
        = ([] ++ [Call "pages.update" [(KStr "page_id", VStr "p-1");
                                       (KStr "properties", VDict payload)]])%list)
  \/ (exists e,
        __dump_properties Contact alice_saved true = Raise e
        /\ save utc_plus_8 true memory_client Contact alice_saved
                (mkstate memory_client [alice_page "p-2"] [])
           = (Raise e, mkstate memory_client [alice_page "p-2"] [])).
Proof.
  exact (save_with_id_only_updates utc_plus_8 true memory_client Contact alice_saved
           (VStr "p-1") (mkstate memory_client [alice_page "p-2"] [])
           eq_refl eq_refl).
Defined.

Lemma relation_load_retrieves_each_witness :
  exists ids,
    (l <- _convert_data utc_plus_8 true (relation_data ["p-1"]) ;; py_iter l) = Ok ids
    /\ world memory_client
         (mkstate memory_client [alice_page "p-1"] [retrieve_call (VStr "p-1")])
       = [alice_page "p-1"]
    /\ log memory_client
         (mkstate memory_client [alice_page "p-1"] [retrieve_call (VStr "p-1")])
       = ([] ++ map retrieve_call ids)%list.
Proof.
  apply (relation_load_retrieves_each utc_plus_8 true memory_client Contact None
           (relation_data ["p-1"]) (VDict [(KStr "p-1", VStr "p-1")])
           (mkstate memory_client [alice_page "p-1"] [])
           (mkstate memory_client [alice_page "p-1"] [retrieve_call (VStr "p-1")])).
  - reflexivity.
  - vm_compute. reflexivity.
Defined.

Lemma is_database_record_ignores_hyphens_witness :
  is_database_record (database_page "ab-cd") (VStr "ab-cd")
  = is_database_record (database_page "ab-cd") (VStr "abcd").
Proof.
  apply (is_database_record_ignores_hyphens (database_page "ab-cd") "ab-cd" "abcd").
  - discriminate.
  - discriminate.
  - reflexivity.
Defined.

Lemma is_database_record_compares_plain_witness :
  is_database_record (database_page "ab-cd") (VStr "abcd") = Ok true.
Proof.
  apply (is_database_record_compares_plain (database_page "ab-cd")
           (VDict [(KStr "type", VStr "database_id");
                   (KStr "database_id", VStr "ab-cd")])
           "ab-cd" "abcd").
  - discriminate.
  - reflexivity.
  - reflexivity.
  - reflexivity.
Defined.

(** A page that does not exist is still asked for, once. *)
Lemma get_issues_one_retrieve_witness :
  snd (Manager_get utc_plus_8 true memory_client (objects Contact) (VStr "missing")
         (mkstate memory_client [] []))
  = mkstate memory_client [] [retrieve_call (VStr "missing")].
Proof.
  exact (get_issues_one_retrieve utc_plus_8 true memory_client (objects Contact)
           (VStr "missing") (mkstate memory_client [] []) eq_refl).
Defined.

(** The tags of [Contact] are declared without a name: they are written
    under [tags] and filtered on [None]. *)
Lemma unnamed_property_filters_on_none_witness :
  getitem (VDict [(KStr "property", VNone);
                  (KStr "multi_select", VDict [(KStr "equals", VStr "vip")])])
          "property" = Ok VNone
  /\ remote_name "tags" (MultiSelectProperty None) = "tags".
Proof.
  apply (unnamed_property_filters_on_none "tags" (MultiSelectProperty None)
           (VStr "vip")).
  - reflexivity.
  - discriminate.
  - reflexivity.
Defined.

(** A synced block inside a toggle: the listing is the same with the
    option off and on. *)
Lemma exclude_option_top_level_only_witness :
  list_page_blocks (page_of [Block (toggle_block "t1") [origin_block]])
                   (VBool false) (VInt 100)
  = list_page_blocks (page_of [Block (toggle_block "t1") [origin_block]])
                     (VBool true) (VInt 100).
Proof.
  apply (exclude_option_top_level_only
           (page_of [Block (toggle_block "t1") [origin_block]])).
  repeat constructor.
Defined.

(** Alice, not yet in the store: two queries, then the create. *)
Lemma upsert_miss_queries_twice_witness :
  map endpoint_of
      (log memory_client
         (snd (upsert utc_plus_8 true memory_client Contact alice
                 (mkstate memory_client [] []))))
  = ["databases.query"; "databases.query"; "pages.create"].
Proof.
  rewrite (upsert_miss_queries_twice utc_plus_8 true memory_client Contact alice VNone
             (VDict [(KStr "property", VStr "Email");
                     (KStr "email", VDict [(KStr "equals", VStr "a@x.com")])])
             [(KStr "Email", VDict [(KStr "email", VStr "a@x.com")]);
              (KStr "Name",
               VDict [(KStr "title",
                       VList [VDict [(KStr "text",
                                      VDict [(KStr "content", VStr "Alice")])]])]);
              (KStr "tags",
               VDict [(KStr "multi_select", VList [VDict [(KStr "name", VStr "vip")]])])]
             (mkstate memory_client [] [])).
  - reflexivity.
  - reflexivity.
  - discriminate.
  - reflexivity.
  - reflexivity.
  - reflexivity.
  - vm_compute. reflexivity.
  - vm_compute. reflexivity.
Defined.
